(** * Sheet-to-HubDB synchronisation: change detection and reconciliation

    A shallow embedding of [src/code.js] (a Google Apps Script that mirrors a
    spreadsheet of tennis fixtures into a HubDB table) and the properties of
    its record extractor, change detector, identity provisioner and
    reconciliation dispatcher.

    Modelling conventions.
    - A cell holds text; an empty cell reads as the empty string, which is the
      only falsy cell value.  Row and column numbers are [nat], 1-based as in
      the Apps Script API; [0] is the falsy row number.
    - A JavaScript object used as a map is an association list kept in the
      order in which [Object.keys] enumerates it (canonical array indices in
      ascending order first, then the other keys in insertion order).  Keys
      are assumed not to name members of [Object.prototype].
    - The script properties hold the snapshot itself: [JSON.stringify]
      followed by [JSON.parse] is the identity on snapshots of text records.
    - Effects are threaded through a state-and-exception monad over a
      [world]: the sheet, the stored snapshot and the log of HTTP exchanges.
      The remote endpoint is an arbitrary function of the exchanges so far
      and of the request.  The target sheet exists and writing a cell
      never throws.  Console output, [Utilities.sleep] and the timestamps
      put in request metadata are not modelled. *)

From Stdlib Require Import String Ascii List Bool Arith PeanoNat NArith ZArith Lia.
From Stdlib Require Import DecimalString.
Import ListNotations.

Local Open Scope string_scope.
Local Open Scope list_scope.

Set Implicit Arguments.

(** ** JavaScript values *)

(** Truthiness of a text value. *)
Definition truthy (s : string) : bool := negb (s =? "").

(** [`${n}`] for a non-negative integer. *)
Definition decimal (n : nat) : string := NilZero.string_of_uint (Nat.to_uint n).

(** Parsed JSON, as [JSON.parse] returns it (numbers restricted to integers). *)
#[local] Unset Elimination Schemes.
Inductive json : Type :=
| JNull
| JBool (b : bool)
| JNum (n : Z)
| JStr (s : string)
| JArr (items : list json)
| JObj (fields : list (string * json)).
#[local] Set Elimination Schemes.

(** A thrown [Error]; only its [message] is ever read. *)
Inductive exn : Type := Error (message : string).

Definition message (e : exn) : string := let 'Error m := e in m.

(** The result of evaluating something that may throw. *)
Inductive outcome (A : Type) : Type :=
| Ok (a : A)
| Throw (e : exn).
Arguments Ok {A} a.
Arguments Throw {A} e.

(** ** Objects as ordered maps *)

Module Obj.

Section Obj.
Variable A : Type.

Definition t := list (string * A).

Definition is_digit (c : ascii) : bool :=
  let n := nat_of_ascii c in (48 <=? n)%nat && (n <=? 57)%nat.

Fixpoint digits_value (s : string) (acc : N) : option N :=
  match s with
  | EmptyString => Some acc
  | String c rest =>
      if is_digit c
      then digits_value rest (acc * 10 + (N_of_ascii c - 48))%N
      else None
  end.

(** A canonical array index: decimal digits without a leading zero, below
    [2^32 - 1].  These keys are enumerated first, in numeric order. *)
Definition array_index (k : string) : option N :=
  match k with
  | EmptyString => None
  | String c rest =>
      if (Ascii.eqb c "0"%char) && negb (rest =? "") then None
      else match digits_value k 0%N with
           | Some n => if (n <? 4294967295)%N then Some n else None
           | None => None
           end
  end.

(** [key_before k k']: a fresh key [k] is enumerated before the existing
    key [k']. *)
Definition key_before (k k' : string) : bool :=
  match array_index k, array_index k' with
  | Some n, Some n' => (n <? n')%N
  | Some _, None => true
  | None, _ => false
  end.

Definition empty : t := [].

(** [o[k]]; [None] is [undefined]. *)
Fixpoint get (k : string) (o : t) : option A :=
  match o with
  | [] => None
  | (k', v) :: rest => if k =? k' then Some v else get k rest
  end.

(** [Object.keys(o)] *)
Definition keys (o : t) : list string := map fst o.

Fixpoint replace (k : string) (v : A) (o : t) : t :=
  match o with
  | [] => []
  | (k', v') :: rest =>
      if k =? k' then (k, v) :: rest else (k', v') :: replace k v rest
  end.

Fixpoint insert (k : string) (v : A) (o : t) : t :=
  match o with
  | [] => [(k, v)]
  | (k', v') :: rest =>
      if key_before k k' then (k, v) :: o else (k', v') :: insert k v rest
  end.

(** [o[k] = v] *)
Definition set (k : string) (v : A) (o : t) : t :=
  match get k o with
  | Some _ => replace k v o
  | None => insert k v o
  end.

(** No key occurs twice: what every JavaScript object satisfies. *)
Definition wf (o : t) : Prop := NoDup (keys o).

End Obj.

Arguments empty {A}.

End Obj.

(** ** Data model *)

(** One extracted row: the [data] object of [getAllSheetData]. *)
Record record : Type := mkRecord {
  date_and_time : string;
  category : string;
  stage : string;
  player_1 : string;
  player_2 : string;
  results : string;
  venue : string;
  hubdbRowId : string;
  sheetRow : nat
}.

(** An entry of [clearedRows]. *)
Record clearedRow : Type := mkCleared {
  cleared_sheetRow : nat;
  cleared_hubdbRowId : string
}.

Definition snapshot := Obj.t record.

Definition DATA_START_ROW : nat := 4.
Definition HUBDB_ROW_ID_COLUMN : nat := 1.
Definition SYNC_STATUS_ID_COLUMN : nat := 9.
Definition SYNC_MESSAGE_ID_COLUMN : nat := 10.

(** ** The sheet *)

(** The cells written so far, most recent write first; every other cell
    is empty. *)
Definition Sheet := list (nat * nat * string).

Fixpoint getValue (sh : Sheet) (r c : nat) : string :=
  match sh with
  | [] => ""
  | (r', c', v) :: rest =>
      if (r =? r')%nat && (c =? c')%nat then v else getValue rest r c
  end.

(** [sheet.getRange(r, c).setValue(v)] *)
Definition setValue (r c : nat) (v : string) (sh : Sheet) : Sheet :=
  (r, c, v) :: sh.

(** [sheet.getLastRow()]: the last row that has content. *)
Definition getLastRow (sh : Sheet) : nat :=
  fold_right
    (fun cell m => let '(r, c, _) := cell in
                   if truthy (getValue sh r c) then Nat.max r m else m)
    0 sh.

(** [sheet.getRange(row, col, numRows, numCols).getValues()] *)
Definition getValues (sh : Sheet) (row col numRows numCols : nat)
  : list (list string) :=
  map (fun r => map (fun c => getValue sh r c) (seq col numCols))
      (seq row numRows).

(** ** Record extractor *)

(** [row[i]] *)
Definition at_ (row : list string) (i : nat) : string := nth i row "".

(** The eleven-cell emptiness test shared by [isCompletelyEmpty] and
    [isDataClearedButHasId]. *)
Definition dataCellsEmpty (row : list string) : bool :=
  negb (truthy (at_ row 0)) && negb (truthy (at_ row 1)) &&
  negb (truthy (at_ row 2)) && negb (truthy (at_ row 3)) &&
  negb (truthy (at_ row 4)) && negb (truthy (at_ row 5)) &&
  negb (truthy (at_ row 6)) && negb (truthy (at_ row 7)) &&
  negb (truthy (at_ row 8)) && negb (truthy (at_ row 9)) &&
  negb (truthy (at_ row 10)).

Definition isCompletelyEmpty (row : list string) (hubdbRowId : string) : bool :=
  dataCellsEmpty row && negb (truthy hubdbRowId).

Definition isDataClearedButHasId (row : list string) (hubdbRowId : string) : bool :=
  dataCellsEmpty row && truthy hubdbRowId.

Definition coreFieldsEmpty (row : list string) : bool :=
  negb (truthy (at_ row 0)) && negb (truthy (at_ row 1)) &&
  negb (truthy (at_ row 2)) && negb (truthy (at_ row 3)) &&
  negb (truthy (at_ row 4)).

(** [hubdbRowId || `temp_${actualRow}`] *)
Definition uniqueIdFor (hubdbRowId : string) (actualRow : nat) : string :=
  if truthy hubdbRowId then hubdbRowId else "temp_" ++ decimal actualRow.

(** The callback of [values.forEach] in [getAllSheetData], acting on the two
    accumulators [allData] and [clearedRows]. *)
Definition extractRow (hubdbIds : list (list string))
    (acc : snapshot * list clearedRow) (item : list string * nat)
  : snapshot * list clearedRow :=
  let '(allData, clearedRows) := acc in
  let '(row, index) := item in
  let actualRow := DATA_START_ROW + index in
  let hubdbRowId := at_ (nth index hubdbIds []) 0 in
  if isDataClearedButHasId row hubdbRowId then
    (allData, clearedRows ++ [mkCleared actualRow hubdbRowId])
  else if isCompletelyEmpty row hubdbRowId then acc
  else if coreFieldsEmpty row then acc
  else
    let data := mkRecord (at_ row 0) (at_ row 1) (at_ row 2) (at_ row 3)
                         (at_ row 4) (at_ row 5) (at_ row 6)
                         hubdbRowId actualRow in
    (Obj.set (uniqueIdFor hubdbRowId actualRow) data allData, clearedRows).

(** [array.forEach((x, index) => ...)] over an accumulator. *)
Definition forEachIndexed (A S : Type) (f : S -> A * nat -> S) (l : list A) (s : S) : S :=
  fold_left f (combine l (seq 0 (length l))) s.

(** [getAllSheetData(sheet, lastRow)].  [getRange] throws when asked for
    fewer than one row. *)
Definition getAllSheetData (sh : Sheet) (lastRow : nat)
  : outcome (snapshot * list clearedRow) :=
  let numRows := lastRow + 1 - DATA_START_ROW in
  if (numRows =? 0)%nat then
    Throw (Error "The number of rows in the range must be at least 1.")
  else
    let hubdbIds := getValues sh DATA_START_ROW 1 numRows 1 in
    let values := getValues sh DATA_START_ROW 2 numRows 11 in
    Ok (forEachIndexed (extractRow hubdbIds) values (Obj.empty, [])).

(** ** Change detector *)

Inductive changeType : Type := NEW | UPDATED | DELETED.

(** An element of a change's [changedFields]: the markers ["ALL"] and
    ["DELETED"], or a per-field delta. *)
Inductive changedField : Type :=
| Marker (tag : string)
| Delta (field oldValue newValue : string).

(** A change object; the properties a change of some type does not carry
    are [None] ([undefined]). *)
Record change : Type := mkChange {
  type : changeType;
  uniqueId : string;
  row : option nat;
  newData : option record;
  oldData : option record;
  changedFields : list changedField
}.

Definition fieldsToCheck : list string :=
  ["date_and_time"; "category"; "stage"; "player_1"; "player_2"; "results"; "venue"].

(** [r[field]] for the tracked fields. *)
Definition getField (r : record) (field : string) : string :=
  if field =? "date_and_time" then date_and_time r
  else if field =? "category" then category r
  else if field =? "stage" then stage r
  else if field =? "player_1" then player_1 r
  else if field =? "player_2" then player_2 r
  else if field =? "results" then results r
  else if field =? "venue" then venue r
  else "".

(** What the two [forEach] callbacks of [detectChanges] close over: the two
    snapshots and the [changes] array under construction. *)
Record detectState : Type := mkDetect {
  currentData : snapshot;
  storedData : snapshot;
  changes : list change
}.

(** [changes.push(c)] *)
Definition push (c : change) (st : detectState) : detectState :=
  mkDetect (currentData st) (storedData st) (changes st ++ [c]).

(** The callback of [fieldsToCheck.forEach]. *)
Definition compareField (current stored : record)
    (changedFields : list changedField) (field : string) : list changedField :=
  if getField current field =? getField stored field then changedFields
  else changedFields ++ [Delta field (getField stored field) (getField current field)].

(** The callback of [Object.keys(currentData).forEach]. *)
Definition checkCurrent (st : detectState) (uniqueId : string) : detectState :=
  match Obj.get uniqueId (currentData st) with
  | None => st
  | Some current =>
      match Obj.get uniqueId (storedData st) with
      | None =>
          if truthy (hubdbRowId current) || prefix "temp_" uniqueId then
            push (mkChange NEW uniqueId (Some (sheetRow current)) (Some current)
                           None [Marker "ALL"]) st
          else st
      | Some stored =>
          let changedFields := fold_left (compareField current stored) fieldsToCheck [] in
          if (0 <? length changedFields)%nat then
            push (mkChange UPDATED uniqueId (Some (sheetRow current)) (Some current)
                           (Some stored) changedFields) st
          else st
      end
  end.

(** The callback of [Object.keys(storedData).forEach]. *)
Definition checkStored (st : detectState) (uniqueId : string) : detectState :=
  match Obj.get uniqueId (currentData st) with
  | Some _ => st
  | None =>
      match Obj.get uniqueId (storedData st) with
      | None => st
      | Some storedRow =>
          if truthy (hubdbRowId storedRow) then
            push (mkChange DELETED uniqueId None None (Some storedRow)
                           [Marker "DELETED"]) st
          else st
      end
  end.

(** The body of [detectChanges], run on the state its callbacks share. *)
Definition detectChanges_run (st : detectState) : detectState :=
  let st1 := fold_left checkCurrent (Obj.keys (currentData st)) st in
  fold_left checkStored (Obj.keys (storedData st1)) st1.

Definition detectChanges (currentData storedData : snapshot) : list change :=
  changes (detectChanges_run (mkDetect currentData storedData [])).

(** ** Identity provisioner: selection *)

Record rowInfo : Type := mkRowInfo {
  ri_uniqueId : string;
  ri_data : record;
  ri_sheetRow : nat
}.

(** [set.add(x)] on an insertion-ordered [Set]. *)
Definition Set_add (x : string) (s : list string) : list string :=
  if existsb (String.eqb x) s then s else s ++ [x].

Definition collectChanged (s : list string) (c : change) : list string :=
  match type c with
  | NEW | UPDATED => Set_add (uniqueId c) s
  | DELETED => s
  end.

Definition selectRow (allData : snapshot) (rows : list rowInfo) (uniqueId : string)
  : list rowInfo :=
  match Obj.get uniqueId allData with
  | None => rows
  | Some data =>
      let hasRequiredData :=
        truthy (date_and_time data) && truthy (player_1 data) && truthy (player_2 data) in
      let missingHubDBRowId := negb (truthy (hubdbRowId data)) in
      if hasRequiredData && missingHubDBRowId
      then rows ++ [mkRowInfo uniqueId data (sheetRow data)]
      else rows
  end.

(** [findRowsNeedingHubDBCreation(allData, sheet, changes)]; the [sheet]
    argument is not used by the source. *)
Definition findRowsNeedingHubDBCreation (allData : snapshot) (changes : list change)
  : list rowInfo :=
  let changedUniqueIds :=
    if (0 <? length changes)%nat
    then fold_left collectChanged changes []
    else fold_left (fun s uniqueId => Set_add uniqueId s) (Obj.keys allData) [] in
  fold_left (selectRow allData) changedUniqueIds [].

(** ** The remote endpoint and the world *)

(** One element of the [gameData] array of the combined request. *)
Record operation : Type := mkOperation {
  op_operation : changeType;
  op_uniqueId : string;
  op_data : option record;
  op_oldData : option record;
  op_changedFields : list changedField;
  op_sheetRow : option nat
}.

(** The JSON bodies the script posts to [HUBSPOT_SERVERLESS_ENDPOINT]. *)
Inductive request : Type :=
| CREATE_HUBDB_ROW (uniqueId : string) (data : list (string * string)) (sheetRow : nat)
| BATCH_DELETE_HUBDB_ROWS (hubdbRowIds : list string) (source reason : string) (total : nat)
| DELETE_HUBDB_ROW (hubdbRowId : string) (sheetRow : nat)
| gameData (operations : list operation).

(** An [HTTPResponse]; [parsed] is what [JSON.parse] makes of the text. *)
Record HTTPResponse : Type := mkResponse {
  getResponseCode : nat;
  getContentText : string;
  parsed : outcome json
}.

(** What [UrlFetchApp.fetch] does: throw, or hand back a response. *)
Inductive fetched : Type :=
| FetchThrows (e : exn)
| Responded (r : HTTPResponse).

Definition exchange : Type := request * fetched.

Record world : Type := mkWorld {
  sheet : Sheet;
  GAME_DATA : option snapshot;
  exchanges : list exchange;
  endpoint : list exchange -> request -> fetched
}.

(** ** The effect monad *)

Definition M (A : Type) : Type := world -> outcome A * world.

Definition ret (A : Type) (a : A) : M A := fun w => (Ok a, w).

Definition bind (A B : Type) (m : M A) (k : A -> M B) : M B :=
  fun w => match m w with
           | (Ok a, w') => k a w'
           | (Throw e, w') => (Throw e, w')
           end.

Definition throw (A : Type) (e : exn) : M A := fun w => (Throw e, w).
Arguments throw {A} e.

(** [try { body } catch (e) { handler(e) }] *)
Definition try_catch (A : Type) (body : M A) (handler : exn -> M A) : M A :=
  fun w => match body w with
           | (Ok a, w') => (Ok a, w')
           | (Throw e, w') => handler e w'
           end.

Definition lift (A : Type) (o : outcome A) : M A := fun w => (o, w).

Notation "x <- m ;; k" := (bind m (fun x => k))
  (at level 61, m at next level, right associativity).
Notation "m ;; k" := (bind m (fun _ => k))
  (at level 61, right associativity).

(** [l.forEach(f)] for an effectful callback. *)
Fixpoint forEach (A : Type) (f : A -> M unit) (l : list A) : M unit :=
  match l with
  | [] => ret tt
  | x :: rest => f x ;; forEach f rest
  end.

Definition when (b : bool) (m : M unit) : M unit := if b then m else ret tt.

Definition setCell (r c : nat) (v : string) : M unit :=
  fun w => (Ok tt, mkWorld (setValue r c v (sheet w)) (GAME_DATA w) (exchanges w) (endpoint w)).

(** [UrlFetchApp.fetch(HUBSPOT_SERVERLESS_ENDPOINT, {method: "POST", ...})] *)
Definition fetch (req : request) : M HTTPResponse :=
  fun w =>
    let res := endpoint w (exchanges w) req in
    let w' := mkWorld (sheet w) (GAME_DATA w) ((req, res) :: exchanges w) (endpoint w) in
    match res with
    | FetchThrows e => (Throw e, w')
    | Responded r => (Ok r, w')
    end.

(** [getStoredData()]: the stored snapshot, or [{}] when there is none. *)
Definition getStoredData : M snapshot :=
  fun w => (Ok match GAME_DATA w with Some s => s | None => Obj.empty end, w).

(** [storeData(data)] *)
Definition storeData (data : snapshot) : M unit :=
  fun w => (Ok tt, mkWorld (sheet w) (Some data) (exchanges w) (endpoint w)).

Definition is2xx (code : nat) : bool := (200 <=? code)%nat && (code <? 300)%nat.

(** ** Reading parsed responses *)

Definition js_truthy (v : option json) : bool :=
  match v with
  | None | Some JNull => false
  | Some (JBool b) => b
  | Some (JNum n) => negb (n =? 0)%Z
  | Some (JStr s) => truthy s
  | Some (JArr _) | Some (JObj _) => true
  end.

Fixpoint assoc (name : string) (fields : list (string * json)) : option json :=
  match fields with
  | [] => None
  | (k, v) :: rest => if name =? k then Some v else assoc name rest
  end.

(** [j.name]; reading a property of [null] throws. *)
Definition js_field (j : json) (name : string) : outcome (option json) :=
  match j with
  | JNull => Throw (Error ("Cannot read properties of null (reading '" ++ name ++ "')"))
  | JObj fields => Ok (assoc name fields)
  | _ => Ok None
  end.

(** [`${j}`] *)
Fixpoint js_string (j : json) : string :=
  match j with
  | JNull => "null"
  | JBool true => "true"
  | JBool false => "false"
  | JNum n => NilZero.string_of_int (Z.to_int n)
  | JStr s => s
  | JArr items =>
      String.concat ","
        (map (fun x => match x with JNull => "" | _ => js_string x end) items)
  | JObj _ => "[object Object]"
  end.

(** The text a cell shows after [setValue(v)]. *)
Definition js_text (v : option json) : string :=
  match v with
  | Some j => js_string j
  | None => ""
  end.

(** [`${responseData.message || "Unknown error"}`] *)
Definition messageOr (responseData : json) : string :=
  match js_field responseData "message" with
  | Ok (Some m) => if js_truthy (Some m) then js_string m else "Unknown error"
  | _ => "Unknown error"
  end.

(** The callback [(r) => r.status === "success"]. *)
Definition statusIsSuccess (r : json) : outcome bool :=
  match js_field r "status" with
  | Throw e => Throw e
  | Ok (Some (JStr s)) => Ok (s =? "success")
  | Ok _ => Ok false
  end.

(** [items.filter(p)] for a callback that may throw. *)
Fixpoint filterThrowing (p : json -> outcome bool) (items : list json)
  : outcome (list json) :=
  match items with
  | [] => Ok []
  | x :: rest =>
      match p x with
      | Throw e => Throw e
      | Ok b =>
          match filterThrowing p rest with
          | Throw e => Throw e
          | Ok kept => Ok (if b then x :: kept else kept)
          end
      end
  end.

(** [responseData.results?.filter((r) => r.status === "success") || []] *)
Definition successfulDeletionsOf (responseData : json) : outcome (list json) :=
  match js_field responseData "results" with
  | Throw e => Throw e
  | Ok None | Ok (Some JNull) => Ok []
  | Ok (Some (JArr items)) => filterThrowing statusIsSuccess items
  | Ok (Some _) => Throw (Error "responseData.results?.filter is not a function")
  end.

(** [successfulDeletions.some((result) => result.hubdbId === id)] *)
Definition someHubdbId (successfulDeletions : list json) (id : string) : bool :=
  existsb (fun result =>
             match js_field result "hubdbId" with
             | Ok (Some (JStr s)) => s =? id
             | _ => false
             end) successfulDeletions.

(** ** Status recorder *)

(** [clearSyncStatusForRows(sheet, rowNumbers)] *)
Definition clearSyncStatusForRows (rowNumbers : list nat) : M unit :=
  try_catch
    (if (length rowNumbers =? 0)%nat then ret tt
     else forEach (fun rowNumber =>
                     setCell rowNumber SYNC_STATUS_ID_COLUMN "" ;;
                     setCell rowNumber SYNC_MESSAGE_ID_COLUMN "") rowNumbers)
    (fun _ => ret tt).

(** [clearAllSyncStatus(sheet, lastRow)] only logs. *)
Definition clearAllSyncStatus (lastRow : nat) : M unit :=
  try_catch (ret tt) (fun _ => ret tt).

Definition updateRowAfterSuccessfulDelete (sheetRow : nat) : M unit :=
  setCell sheetRow HUBDB_ROW_ID_COLUMN "" ;;
  setCell sheetRow SYNC_STATUS_ID_COLUMN "deleted" ;;
  setCell sheetRow SYNC_MESSAGE_ID_COLUMN "Successfully deleted from HubDB".

Definition updateRowWithError (sheetRow : nat) (errorMessage : string) : M unit :=
  setCell sheetRow SYNC_STATUS_ID_COLUMN "error" ;;
  setCell sheetRow SYNC_MESSAGE_ID_COLUMN errorMessage.

(** [change.oldData?.sheetRow], with [0] for [undefined]. *)
Definition oldSheetRow (c : change) : nat :=
  match oldData c with
  | Some d => sheetRow d
  | None => 0
  end.

(** [change.oldData?.hubdbRowId], with [""] for [undefined]. *)
Definition oldHubdbRowId (c : change) : string :=
  match oldData c with
  | Some d => hubdbRowId d
  | None => ""
  end.

(** [change.newData?.hubdbRowId], with [""] for [undefined]. *)
Definition newHubdbRowId (c : change) : string :=
  match newData c with
  | Some d => hubdbRowId d
  | None => ""
  end.

(** [change.row], with [0] for [undefined]. *)
Definition rowOf (c : change) : nat :=
  match row c with
  | Some r => r
  | None => 0
  end.

(** [change.row || change.oldData?.sheetRow] *)
Definition targetRow (c : change) : nat :=
  if (rowOf c =? 0)%nat then oldSheetRow c else rowOf c.

Definition isDeleted (c : change) : bool :=
  match type c with
  | DELETED => true
  | _ => false
  end.

Definition typeName (t : changeType) : string :=
  match t with
  | NEW => "NEW"
  | UPDATED => "UPDATED"
  | DELETED => "DELETED"
  end.

Definition updateSyncStatusForChanges (changes : list change) (status : string) : M unit :=
  forEach (fun change =>
             when (negb (targetRow change =? 0)%nat)
                  (setCell (targetRow change) SYNC_STATUS_ID_COLUMN status)) changes.

Definition updateRowsAfterSuccess (changes : list change) : M unit :=
  forEach (fun change =>
             if isDeleted change && negb (oldSheetRow change =? 0)%nat then
               updateRowAfterSuccessfulDelete (oldSheetRow change)
             else if negb (rowOf change =? 0)%nat then
               setCell (rowOf change) SYNC_STATUS_ID_COLUMN "sync success" ;;
               setCell (rowOf change) SYNC_MESSAGE_ID_COLUMN
                       (typeName (type change) ++ " operation completed successfully")
             else ret tt) changes.

Definition updateRowsAfterFailure (changes : list change)
    (responseCode : nat) (responseText : string) : M unit :=
  let errorMessage := ("HTTP " ++ decimal responseCode ++ ": " ++ responseText)%string in
  forEach (fun change =>
             when (negb (targetRow change =? 0)%nat)
                  (updateRowWithError (targetRow change) errorMessage)) changes.

(** ** Identity provisioner: remote creation *)

(** The [data] object of the [CREATE_HUBDB_ROW] payload; [round] is
    [undefined] on every record and so left out by [JSON.stringify]. *)
Definition createPayloadData (data : record) : list (string * string) :=
  [("date_and_time", date_and_time data); ("venue", venue data);
   ("category", category data); ("stage", stage data);
   ("player_1", player_1 data); ("player_2", player_2 data);
   ("results", results data)].

Definition createOneRow (rowInfo : rowInfo) : M unit :=
  let sheetRow := ri_sheetRow rowInfo in
  setCell sheetRow SYNC_STATUS_ID_COLUMN "syncing" ;;
  try_catch
    (response <- fetch (CREATE_HUBDB_ROW (ri_uniqueId rowInfo)
                          (createPayloadData (ri_data rowInfo)) sheetRow) ;;
     let responseCode := getResponseCode response in
     let responseText := getContentText response in
     if is2xx responseCode then
       responseData <- lift (parsed response) ;;
       success <- lift (js_field responseData "success") ;;
       newId <- (if js_truthy success
                 then lift (js_field responseData "hubdbRowId")
                 else ret None) ;;
       if js_truthy success && js_truthy newId then
         setCell sheetRow HUBDB_ROW_ID_COLUMN (js_text newId) ;;
         setCell sheetRow SYNC_STATUS_ID_COLUMN "sync success" ;;
         setCell sheetRow SYNC_MESSAGE_ID_COLUMN "HubDB row created successfully"
       else
         setCell sheetRow SYNC_STATUS_ID_COLUMN "error" ;;
         setCell sheetRow SYNC_MESSAGE_ID_COLUMN
                 ("Creation failed: " ++ messageOr responseData)
     else
       setCell sheetRow SYNC_STATUS_ID_COLUMN "error" ;;
       setCell sheetRow SYNC_MESSAGE_ID_COLUMN
               ("HTTP " ++ decimal responseCode ++ ": " ++ responseText) ;;
       throw (Error ("HubDB creation failed: " ++ decimal responseCode ++ " - "
                       ++ responseText)))
    (fun error =>
       setCell sheetRow SYNC_STATUS_ID_COLUMN "error" ;;
       setCell sheetRow SYNC_MESSAGE_ID_COLUMN ("Exception: " ++ message error)).

(** [createHubDBRows(rowsNeedingCreation, sheet)] *)
Definition createHubDBRows (rowsNeedingCreation : list rowInfo) : M unit :=
  try_catch
    (clearSyncStatusForRows (map ri_sheetRow rowsNeedingCreation) ;;
     forEach createOneRow rowsNeedingCreation)
    (fun error => throw error).

(** ** Cleared rows *)

Definition markCleared (status msg : string) (clearedRow : clearedRow) : M unit :=
  setCell (cleared_sheetRow clearedRow) SYNC_STATUS_ID_COLUMN status ;;
  setCell (cleared_sheetRow clearedRow) SYNC_MESSAGE_ID_COLUMN msg.

(** [handleSingleClearedRow(clearedRow, sheet)] *)
Definition handleSingleClearedRow (clearedRow : clearedRow) : M unit :=
  let sheetRow := cleared_sheetRow clearedRow in
  try_catch
    (setCell sheetRow SYNC_STATUS_ID_COLUMN "syncing" ;;
     response <- fetch (DELETE_HUBDB_ROW (cleared_hubdbRowId clearedRow) sheetRow) ;;
     let responseCode := getResponseCode response in
     let responseText := getContentText response in
     if is2xx responseCode then
       responseData <- lift (parsed response) ;;
       success <- lift (js_field responseData "success") ;;
       if js_truthy success then
         setCell sheetRow HUBDB_ROW_ID_COLUMN "" ;;
         setCell sheetRow SYNC_STATUS_ID_COLUMN "deleted" ;;
         setCell sheetRow SYNC_MESSAGE_ID_COLUMN "Successfully deleted from HubDB"
       else markCleared "error" ("Deletion failed: " ++ messageOr responseData) clearedRow
     else
       markCleared "error" ("HTTP " ++ decimal responseCode ++ ": " ++ responseText)
                   clearedRow)
    (fun error => markCleared "error" ("Exception: " ++ message error) clearedRow).

(** [handleBatchClearedRows(clearedRows, sheet)] *)
Definition handleBatchClearedRows (clearedRows : list clearedRow) : M unit :=
  try_catch
    (let hubdbRowIds := filter truthy (map cleared_hubdbRowId clearedRows) in
     if (length hubdbRowIds =? 0)%nat then ret tt
     else
       forEach (fun clearedRow =>
                  setCell (cleared_sheetRow clearedRow) SYNC_STATUS_ID_COLUMN "syncing")
               clearedRows ;;
       response <- fetch (BATCH_DELETE_HUBDB_ROWS hubdbRowIds "google_sheets_sync"
                            "rows_cleared" (length clearedRows)) ;;
       let responseCode := getResponseCode response in
       let responseText := getContentText response in
       if is2xx responseCode then
         responseData <- lift (parsed response) ;;
         success <- lift (js_field responseData "success") ;;
         if js_truthy success then
           successfulDeletions <- lift (successfulDeletionsOf responseData) ;;
           forEach (fun clearedRow =>
                      if someHubdbId successfulDeletions (cleared_hubdbRowId clearedRow)
                      then
                        setCell (cleared_sheetRow clearedRow) HUBDB_ROW_ID_COLUMN "" ;;
                        markCleared "deleted" "Successfully deleted from HubDB" clearedRow
                      else markCleared "error" "Batch deletion failed" clearedRow)
                   clearedRows
         else
           forEach (markCleared "error"
                      ("Batch deletion failed: " ++ messageOr responseData)) clearedRows ;;
           forEach handleSingleClearedRow clearedRows
       else
         forEach (markCleared "error"
                    ("HTTP " ++ decimal responseCode ++ ": " ++ responseText)) clearedRows ;;
         forEach handleSingleClearedRow clearedRows)
    (fun error =>
       forEach (markCleared "error" ("Exception: " ++ message error)) clearedRows ;;
       forEach (fun clearedRow =>
                  try_catch (handleSingleClearedRow clearedRow) (fun _ => ret tt))
               clearedRows).

(** [handleClearedRows(clearedRows, sheet)] *)
Definition handleClearedRows (clearedRows : list clearedRow) : M unit :=
  try_catch
    (if (length clearedRows =? 0)%nat then ret tt
     else
       clearSyncStatusForRows (map cleared_sheetRow clearedRows) ;;
       if (1 <? length clearedRows)%nat then handleBatchClearedRows clearedRows
       else match clearedRows with
            | first :: _ => handleSingleClearedRow first
            | [] => ret tt
            end)
    (fun error => throw error).

(** ** Reconciliation dispatcher *)

Definition markDeleteTargets (deleteChanges : list change) (errorMessage : string)
  : M unit :=
  forEach (fun change =>
             when (negb (oldSheetRow change =? 0)%nat)
                  (updateRowWithError (oldSheetRow change) errorMessage))
          deleteChanges.

(** [handleBatchDeleteSuccess(deleteChanges, sheet, responseText)] *)
Definition handleBatchDeleteSuccess (deleteChanges : list change)
    (batchResponse : HTTPResponse) : M unit :=
  batchResponseData <- lift (parsed batchResponse) ;;
  success <- lift (js_field batchResponseData "success") ;;
  if js_truthy success then
    successfulDeletions <- lift (successfulDeletionsOf batchResponseData) ;;
    forEach (fun change =>
               if (oldSheetRow change =? 0)%nat then ret tt
               else
                 let wasDeleted :=
                   someHubdbId successfulDeletions (oldHubdbRowId change) in
                 if wasDeleted then updateRowAfterSuccessfulDelete (oldSheetRow change)
                 else updateRowWithError (oldSheetRow change) "Batch deletion failed")
            deleteChanges
  else
    markDeleteTargets deleteChanges
      ("Batch deletion failed: " ++ messageOr batchResponseData).

(** [handleBatchDeleteFailure]; the result is [otherChanges] after the
    [push]. *)
Definition handleBatchDeleteFailure (deleteChanges : list change)
    (responseCode : nat) (responseText : string) (otherChanges : list change)
  : M (list change) :=
  markDeleteTargets deleteChanges
    ("HTTP " ++ decimal responseCode ++ ": " ++ responseText) ;;
  ret (otherChanges ++ deleteChanges).

(** [handleBatchDeleteError]; the result is [otherChanges] after the [push]. *)
Definition handleBatchDeleteError (deleteChanges : list change)
    (batchError : exn) (otherChanges : list change) : M (list change) :=
  markDeleteTargets deleteChanges ("Exception: " ++ message batchError) ;;
  ret (otherChanges ++ deleteChanges).

(** [processBatchDeletes(deleteChanges, sheet, otherChanges)]; the result is
    [otherChanges] as the call leaves it. *)
Definition processBatchDeletes (deleteChanges otherChanges : list change)
  : M (list change) :=
  let batchDeletePayload :=
    BATCH_DELETE_HUBDB_ROWS (filter truthy (map oldHubdbRowId deleteChanges))
      "google_sheets_sync_batch" "data_changes" (length deleteChanges) in
  try_catch
    (updateSyncStatusForChanges deleteChanges "syncing" ;;
     batchResponse <- fetch batchDeletePayload ;;
     let responseCode := getResponseCode batchResponse in
     let responseText := getContentText batchResponse in
     if is2xx responseCode then
       handleBatchDeleteSuccess deleteChanges batchResponse ;;
       ret otherChanges
     else
       handleBatchDeleteFailure deleteChanges responseCode responseText otherChanges)
    (fun batchError => handleBatchDeleteError deleteChanges batchError otherChanges).

Definition toOperation (c : change) : operation :=
  mkOperation (type c) (uniqueId c) (newData c) (oldData c) (changedFields c)
              (if (targetRow c =? 0)%nat then None else Some (targetRow c)).

(** [processIndividualOperations(otherChanges, sheet)] *)
Definition processIndividualOperations (otherChanges : list change) : M json :=
  updateSyncStatusForChanges otherChanges "syncing" ;;
  response <- fetch (gameData (map toOperation otherChanges)) ;;
  let responseCode := getResponseCode response in
  let responseText := getContentText response in
  if is2xx responseCode then
    updateRowsAfterSuccess otherChanges ;;
    lift (parsed response)
  else
    updateRowsAfterFailure otherChanges responseCode responseText ;;
    throw (Error ("HubSpot API error: " ++ decimal responseCode ++ " - " ++ responseText)).

(** [sendToHubSpot(changes, sheet)] *)
Definition sendToHubSpot (changes : list change) : M json :=
  try_catch
    (let rowsToProcess :=
       map rowOf (filter (fun change => negb (rowOf change =? 0)%nat) changes) in
     when (0 <? length rowsToProcess)%nat (clearSyncStatusForRows rowsToProcess) ;;
     let deleteChanges := filter isDeleted changes in
     let otherChanges := filter (fun change => negb (isDeleted change)) changes in
     otherChanges <-
       (if (1 <? length deleteChanges)%nat
        then processBatchDeletes deleteChanges otherChanges
        else if (length deleteChanges =? 1)%nat
             then ret (otherChanges ++ deleteChanges)
             else ret otherChanges) ;;
     if (0 <? length otherChanges)%nat
     then processIndividualOperations otherChanges
     else ret (JObj [("message", JStr "All operations completed")]))
    (fun error => throw error).

(** ** The sync cycle *)

(** The filter callback of [changesWithHubDBId]. *)
Definition hasHubDBId (c : change) : bool :=
  (isDeleted c && truthy (oldHubdbRowId c))
  || (negb (isDeleted c) && truthy (newHubdbRowId c)).

(** The [try] block of [syncAllData]. *)
Definition syncAllData_body : M unit :=
  fun w0 =>
    let lastRow := getLastRow (sheet w0) in
    (clearAllSyncStatus lastRow ;;
     extracted <- (fun w => (getAllSheetData (sheet w) lastRow, w)) ;;
     let '(allData, clearedRows) := extracted in
     when (0 <? length clearedRows)%nat (handleClearedRows clearedRows) ;;
     storedData <- getStoredData ;;
     let changes := detectChanges allData storedData in
     let rowsNeedingHubDBCreation := findRowsNeedingHubDBCreation allData changes in
     when (0 <? length rowsNeedingHubDBCreation)%nat
          (createHubDBRows rowsNeedingHubDBCreation ;;
           refreshed <- (fun w => (getAllSheetData (sheet w) lastRow, w)) ;;
           storeData (fst refreshed)) ;;
     if (0 <? length changes)%nat then
       let changesWithHubDBId := filter hasHubDBId changes in
       when (0 <? length changesWithHubDBId)%nat
            (sendToHubSpot changesWithHubDBId ;; ret tt) ;;
       when (length rowsNeedingHubDBCreation =? 0)%nat (storeData allData)
     else ret tt) w0.

(** [syncAllData()]: the world after one cycle. *)
Definition syncAllData (w : world) : world :=
  snd (try_catch syncAllData_body (fun _ => ret tt) w).

(** ** Vocabulary of the statements *)

(** *** The extractor, row by row *)

(** [values[i]]: the eleven data cells of sheet row [DATA_START_ROW + i]. *)
Definition rowAt (sh : Sheet) (i : nat) : list string :=
  map (fun c => getValue sh (DATA_START_ROW + i) c) (seq 2 11).

(** [hubdbIds[i][0]] *)
Definition hubdbIdAt (sh : Sheet) (i : nat) : string :=
  getValue sh (DATA_START_ROW + i) HUBDB_ROW_ID_COLUMN.

(** Row [i] goes to [clearedRows]. *)
Definition clearedAt (sh : Sheet) (i : nat) : bool :=
  isDataClearedButHasId (rowAt sh i) (hubdbIdAt sh i).

(** Row [i] goes to [allData]. *)
Definition keptAt (sh : Sheet) (i : nat) : bool :=
  negb (dataCellsEmpty (rowAt sh i)) && negb (coreFieldsEmpty (rowAt sh i)).

(** The [data] object built for row [i]. *)
Definition recordAt (sh : Sheet) (i : nat) : record :=
  let row := rowAt sh i in
  mkRecord (at_ row 0) (at_ row 1) (at_ row 2) (at_ row 3) (at_ row 4)
           (at_ row 5) (at_ row 6) (hubdbIdAt sh i) (DATA_START_ROW + i).
(** The [clearedRows] entry built for row [i]. *)
Definition clearedRowAt (sh : Sheet) (i : nat) : clearedRow :=
  mkCleared (DATA_START_ROW + i) (hubdbIdAt sh i).

(** Every record sits under the key the extractor gives it: its HubDB row
    id, or [temp_<row>] when it has none. *)
Definition keyedByIdentity (s : snapshot) : Prop :=
  forall k r, In (k, r) s -> k = uniqueIdFor (hubdbRowId r) (sheetRow r).

(** A snapshot as [getAllSheetData] builds it. *)
Definition Snapshot (s : snapshot) : Prop := Obj.wf s /\ keyedByIdentity s.

(** *** The change detector, key by key *)

(** The changes one key of the current snapshot contributes. *)
Definition emitCurrent (cur base : snapshot) (k : string) : list change :=
  changes (checkCurrent (mkDetect cur base []) k).
(** The changes one key of the baseline contributes. *)
Definition emitStored (cur base : snapshot) (k : string) : list change :=
  changes (checkStored (mkDetect cur base []) k).

(** The change is for [uniqueId] [k]. *)
Definition forId (k : string) (c : change) : bool := uniqueId c =? k.

(** The tracked fields on which two records differ, in [fieldsToCheck] order. *)
Definition differing (current stored : record) : list string :=
  filter (fun f => negb (getField current f =? getField stored f)) fieldsToCheck.

(** One of the seven tracked fields differs between the two records. *)
Definition trackedFieldsDiffer (current stored : record) : Prop :=
  date_and_time current <> date_and_time stored
  \/ category current <> category stored
  \/ stage current <> stage stored
  \/ player_1 current <> player_1 stored
  \/ player_2 current <> player_2 stored
  \/ results current <> results stored
  \/ venue current <> venue stored.

(** One delta per differing field, old value from [stored], new value from
    [current]. *)
Definition deltasOf (current stored : record) : list changedField :=
  map (fun f => Delta f (getField stored f) (getField current f))
      (differing current stored).

(** *** Provisioning and dispatch *)

(** A record that may be created remotely: no HubDB row id yet, and
    date/time and both players filled in. *)
Definition qualifies (data : record) : Prop :=
  hubdbRowId data = "" /\ date_and_time data <> ""
  /\ player_1 data <> "" /\ player_2 data <> "".
(** [uniqueId] is the target of a NEW or UPDATED change of the list. *)
Definition targeted (changes : list change) (uniqueId' : string) : Prop :=
  exists c, In c changes /\ (type c = NEW \/ type c = UPDATED) /\ uniqueId c = uniqueId'.

(** The request is the combined individual-operations request. *)
Definition isCombined (req : request) : bool :=
  match req with
  | gameData _ => true
  | _ => false
  end.

(** A delivery failure: [fetch] threw, or the response is not 2xx. *)
Definition failedFetch (res : fetched) : bool :=
  match res with
  | FetchThrows _ => true
  | Responded r => negb (is2xx (getResponseCode r))
  end.

(** [m] only writes cells and returns normally. *)
Definition quiet (A : Type) (m : M A) : Prop :=
  forall w, exists a sh,
    m w = (Ok a, mkWorld sh (GAME_DATA w) (exchanges w) (endpoint w)).

(** [m] leaves the stored snapshot alone and sends no combined request. *)
Definition calm (A : Type) (m : M A) : Prop :=
  forall w, exists out sh new,
    m w = (out, mkWorld sh (GAME_DATA w) (new ++ exchanges w) (endpoint w))
    /\ Forall (fun x : exchange => isCombined (fst x) = false) new.

(** What [getStoredData] returns in a world. *)
Definition storedSnapshot (w : world) : snapshot :=
  match GAME_DATA w with
  | Some s => s
  | None => Obj.empty
  end.

(** The rows a cycle started in [w] selects for HubDB row creation. *)
Definition rowsNeedingCreationIn (w : world) : list rowInfo :=
  match getAllSheetData (sheet w) (getLastRow (sheet w)) with
  | Ok (allData, _) =>
      findRowsNeedingHubDBCreation allData (detectChanges allData (storedSnapshot w))
  | Throw _ => []
  end.

(** One element of the [results] array of a batch-delete response. *)
Definition resultEntry (e : string * string) : json :=
  JObj [("hubdbId", JStr (fst e)); ("status", JStr (snd e))].

(** The DELETED change [detectChanges] builds for a baseline record. *)
Definition deletedChange (uniqueId : string) (storedRow : record) : change :=
  mkChange DELETED uniqueId None None (Some storedRow) [Marker "DELETED"].

(** The request [processBatchDeletes] sends for a list of deletes. *)
Definition batchDeleteRequest (deleteChanges : list change) : request :=
  BATCH_DELETE_HUBDB_ROWS (filter truthy (map oldHubdbRowId deleteChanges))
    "google_sheets_sync_batch" "data_changes" (length deleteChanges).

(** The status a row shows. *)
Definition statusOf (sh : Sheet) (r : nat) : string := getValue sh r SYNC_STATUS_ID_COLUMN.

(** *** Response bodies *)

(** The double quote character. *)
Definition dquote : string := String "034"%char EmptyString.

(** [JSON.stringify(j)], for strings that need no escaping. *)
Fixpoint JSON_stringify (j : json) : string :=
  match j with
  | JNull => "null"
  | JBool true => "true"
  | JBool false => "false"
  | JNum n => NilZero.string_of_int (Z.to_int n)
  | JStr s => dquote ++ s ++ dquote
  | JArr items => "[" ++ String.concat "," (map JSON_stringify items) ++ "]"
  | JObj fields =>
      "{" ++ String.concat ","
               (map (fun kv : string * json =>
                       match kv with
                       | (k, v) => (dquote ++ k ++ dquote ++ ":" ++ JSON_stringify v)%string
                       end) fields) ++ "}"
  end.

(** A response whose body is the JSON text of [j]. *)
Definition jsonResponse (code : nat) (j : json) : fetched :=
  Responded (mkResponse code (JSON_stringify j) (Ok j)).

(** A response whose body is not JSON. *)
Definition textResponse (code : nat) (text : string) : fetched :=
  Responded (mkResponse code text (Throw (Error "Unexpected token in JSON at position 0"))).

(** *** Example sheets, snapshots and worlds *)

(** Row 4 a provisioned fixture, row 5 a fixture without HubDB row, row 6
    cleared but still bound to HubDB row 55, row 7 bound to HubDB row 77 with
    nothing left but the status of an earlier failure. *)
Definition sheet_example : Sheet :=
  [ (4, 1, "101"); (4, 2, "1 Jan 10:00"); (4, 3, "Men's Singles"); (4, 4, "QF");
    (4, 5, "Tan"); (4, 6, "Lee"); (4, 7, "6-4");
    (5, 2, "2 Jan 10:00"); (5, 5, "Ong"); (5, 6, "Lim");
    (6, 1, "55");
    (7, 1, "77"); (7, 9, "error"); (7, 10, "HTTP 500: unavailable") ].


Definition snapshot_current : snapshot :=
  [("101", mkRecord "1 Jan 10:00" "Men's Singles" "QF" "Tan" "Lee" "" "Court 1" "101" 4);
   ("temp_5", mkRecord "2 Jan 10:00" "" "" "Ong" "Lim" "" "" "" 5)].

Definition snapshot_baseline : snapshot :=
  [("101", mkRecord "1 Jan 10:00" "Men's Singles" "QF" "Tan" "Lee" "6-4" "Court 1" "101" 4);
   ("88", mkRecord "3 Jan 10:00" "" "" "Goh" "Teo" "" "" "88" 6);
   ("temp_7", mkRecord "4 Jan 10:00" "" "" "Ng" "Wee" "" "" "" 7)].

(** The example of the specification: the result of fixture 7 is cleared. *)
Definition spec_current : snapshot :=
  [("7", mkRecord "" "" "" "Tan" "Lee" "" "" "7" 4)].
Definition spec_baseline : snapshot :=
  [("7", mkRecord "" "" "" "Tan" "Lee" "6-4" "" "7" 4)].

Definition record_101 (results : string) : record :=
  mkRecord "1 Jan 10:00" "Men's Singles" "QF" "Tan" "Lee" results "Court 1" "101" 4.
Definition record_301 : record := mkRecord "3 Jan 10:00" "" "" "Goh" "Teo" "" "" "301" 6.
Definition record_302 : record := mkRecord "4 Jan 10:00" "" "" "Ng" "Wee" "" "" "302" 7.
Definition record_303 : record := mkRecord "5 Jan 10:00" "" "" "Sim" "Koh" "" "" "303" 8.

(** Row 4 is a provisioned fixture whose result was cleared. *)
Definition sheet_updated : Sheet :=
  [ (4, 1, "101"); (4, 2, "1 Jan 10:00"); (4, 3, "Men's Singles"); (4, 4, "QF");
    (4, 5, "Tan"); (4, 6, "Lee"); (4, 8, "Court 1") ].

(** The same, with a fixture in row 5 that has no HubDB row yet. *)
Definition sheet_provisioning : Sheet :=
  sheet_updated ++ [ (5, 2, "2 Jan 10:00"); (5, 5, "Ong"); (5, 6, "Lim") ].

Definition baseline_101 : snapshot := [("101", record_101 "6-4")].

(** The three fixtures of rows 6 to 8 were removed from the sheet. *)
Definition baseline_deleted : snapshot :=
  [("101", record_101 ""); ("301", record_301); ("302", record_302); ("303", record_303)].

(** Creation succeeds, every combined request is answered 500. *)
Definition endpoint_combined_fails (_ : list exchange) (req : request) : fetched :=
  match req with
  | CREATE_HUBDB_ROW _ _ _ =>
      jsonResponse 200 (JObj [("success", JBool true); ("hubdbRowId", JStr "202")])
  | gameData _ => textResponse 500 "Internal Server Error"
  | _ => jsonResponse 200 (JObj [("success", JBool true)])
  end.

(** Batch deletes are answered 200 with [success: false]. *)
Definition endpoint_batch_reports_failure (_ : list exchange) (req : request) : fetched :=
  match req with
  | BATCH_DELETE_HUBDB_ROWS _ _ _ _ =>
      jsonResponse 200 (JObj [("success", JBool false); ("message", JStr "HubDB unavailable")])
  | _ => jsonResponse 200 (JObj [("success", JBool true)])
  end.

(** Batch deletes succeed for 301 and 303 only. *)
Definition endpoint_batch_partial (_ : list exchange) (req : request) : fetched :=
  match req with
  | BATCH_DELETE_HUBDB_ROWS _ _ _ _ =>
      jsonResponse 200
        (JObj [("success", JBool true);
               ("results", JArr (map resultEntry
                                     [("301", "success"); ("302", "failed");
                                      ("303", "success")]))])
  | _ => jsonResponse 200 (JObj [("success", JBool true)])
  end.

Definition world_updated : world :=
  mkWorld sheet_updated (Some baseline_101) [] endpoint_combined_fails.
Definition world_provisioning : world :=
  mkWorld sheet_provisioning (Some baseline_101) [] endpoint_combined_fails.
Definition world_batch_reports_failure : world :=
  mkWorld sheet_updated (Some baseline_deleted) [] endpoint_batch_reports_failure.
Definition world_batch_partial : world :=
  mkWorld sheet_updated (Some baseline_deleted) [] endpoint_batch_partial.

Definition deletes_301_303 : list change :=
  [deletedChange "301" record_301; deletedChange "302" record_302;
   deletedChange "303" record_303].

Definition updated_101 : change :=
  mkChange UPDATED "101" (Some 4) (Some (record_101 "")) (Some (record_101 "6-4"))
           [Delta "results" "6-4" ""].

(** ** Further vocabulary *)

(** [uniqueId] of the record built for row [i]. *)
Definition keyAt (sh : Sheet) (i : nat) : string :=
  uniqueIdFor (hubdbIdAt sh i) (DATA_START_ROW + i).

(** Row [i] is kept and no later kept row among the first [n] has its
    [uniqueId]. *)
Definition lastWithKey (sh : Sheet) (n i : nat) : Prop :=
  i < n /\ keptAt sh i = true
  /\ forall j, i < j < n -> keptAt sh j = true -> keyAt sh j <> keyAt sh i.

(** The NEW change [detectChanges] builds for a current record. *)
Definition newChange (uniqueId : string) (current : record) : change :=
  mkChange NEW uniqueId (Some (sheetRow current)) (Some current) None [Marker "ALL"].

(** What a change of each type carries, for changes between [cur] and
    [base]. *)
Definition wellShaped (cur base : snapshot) (c : change) : Prop :=
  match type c with
  | NEW =>
      exists current,
        Obj.get (uniqueId c) cur = Some current /\ Obj.get (uniqueId c) base = None
        /\ c = newChange (uniqueId c) current
  | UPDATED =>
      exists current stored,
        Obj.get (uniqueId c) cur = Some current
        /\ Obj.get (uniqueId c) base = Some stored
        /\ c = mkChange UPDATED (uniqueId c) (Some (sheetRow current)) (Some current)
                        (Some stored) (deltasOf current stored)
        /\ deltasOf current stored <> []
  | DELETED =>
      exists stored,
        Obj.get (uniqueId c) cur = None /\ Obj.get (uniqueId c) base = Some stored
        /\ hubdbRowId stored <> ""
        /\ c = deletedChange (uniqueId c) stored
  end.

(** The cells a change's row gets when the combined request fails. *)
Definition failureWrites (errorMessage : string) (c : change) : Sheet :=
  if (targetRow c =? 0)%nat then []
  else [(targetRow c, SYNC_MESSAGE_ID_COLUMN, errorMessage);
        (targetRow c, SYNC_STATUS_ID_COLUMN, "error")].

(** The cells a change's row gets when the combined request succeeds. *)
Definition successWrites (c : change) : Sheet :=
  if isDeleted c && negb (oldSheetRow c =? 0)%nat then
    [(oldSheetRow c, SYNC_MESSAGE_ID_COLUMN, "Successfully deleted from HubDB");
     (oldSheetRow c, SYNC_STATUS_ID_COLUMN, "deleted");
     (oldSheetRow c, HUBDB_ROW_ID_COLUMN, "")]
  else if negb (rowOf c =? 0)%nat then
    [(rowOf c, SYNC_MESSAGE_ID_COLUMN,
      (typeName (type c) ++ " operation completed successfully")%string);
     (rowOf c, SYNC_STATUS_ID_COLUMN, "sync success")]
  else [].

(** The cell a change's row gets from [updateSyncStatusForChanges]. *)
Definition statusWrites (status : string) (c : change) : Sheet :=
  if (targetRow c =? 0)%nat then []
  else [(targetRow c, SYNC_STATUS_ID_COLUMN, status)].

(** The cells [clearSyncStatusForRows] writes for one row. *)
Definition clearWrites (rowNumber : nat) : Sheet :=
  [(rowNumber, SYNC_MESSAGE_ID_COLUMN, ""); (rowNumber, SYNC_STATUS_ID_COLUMN, "")].

(** The message of the [Error] thrown on a failed combined request. *)
Definition apiError (r : HTTPResponse) : exn :=
  Error ("HubSpot API error: " ++ decimal (getResponseCode r) ++ " - " ++ getContentText r).

(** The combined request for a list of changes. *)
Definition combinedRequest (otherChanges : list change) : request :=
  gameData (map toOperation otherChanges).

(** A change as [detectChanges] places it: a DELETED change has no [row], a
    NEW or UPDATED change has a non-zero one. *)
Definition placed (c : change) : Prop :=
  (isDeleted c = true /\ rowOf c = 0) \/ (isDeleted c = false /\ rowOf c <> 0).

(** The request [createHubDBRows] sends for one row. *)
Definition createRequest (ri : rowInfo) : request :=
  CREATE_HUBDB_ROW (ri_uniqueId ri) (createPayloadData (ri_data ri)) (ri_sheetRow ri).

(** The HubDB row id a creation request obtained: the response is 2xx, its
    body parses, and [success] and [hubdbRowId] are truthy. *)
Definition createdId (res : fetched) : option string :=
  match res with
  | FetchThrows _ => None
  | Responded r =>
      if is2xx (getResponseCode r) then
        match parsed r with
        | Throw _ => None
        | Ok j =>
            match js_field j "success" with
            | Throw _ => None
            | Ok success =>
                if js_truthy success then
                  match js_field j "hubdbRowId" with
                  | Ok id => if js_truthy id then Some (js_text id) else None
                  | Throw _ => None
                  end
                else None
            end
        end
      else None
  end.

(** The request [handleSingleClearedRow] sends. *)
Definition deleteRequest (cr : clearedRow) : request :=
  DELETE_HUBDB_ROW (cleared_hubdbRowId cr) (cleared_sheetRow cr).

(** An individual delete went through: the response is 2xx, its body parses
    and [success] is truthy. *)
Definition deleteAccepted (res : fetched) : bool :=
  match res with
  | FetchThrows _ => false
  | Responded r =>
      is2xx (getResponseCode r)
      && match parsed r with
         | Throw _ => false
         | Ok j =>
             match js_field j "success" with
             | Ok success => js_truthy success
             | Throw _ => false
             end
         end
  end.

(** What an accepted delete leaves in the id cell. *)
Definition deleteVerdict (res : fetched) : option string :=
  if deleteAccepted res then Some "" else None.

(** The id cell of a sheet row. *)
Definition idCell (sh : Sheet) (r : nat) : string := getValue sh r HUBDB_ROW_ID_COLUMN.

(** The cells [ws] a loop body writes for item [x] on the answer [res]: the
    status and message cells of its row, the id cell only with the verdict's
    id, and the status ends as [okStatus] or ["error"] by the verdict. *)
Definition itemWrites (A : Type) (rowOf : A -> nat) (verdict : fetched -> option string)
    (okStatus : string) (x : A) (res : fetched) (ws : Sheet) : Prop :=
  (forall r c v, In (r, c, v) ws ->
     r = rowOf x /\ (c = SYNC_STATUS_ID_COLUMN \/ c = SYNC_MESSAGE_ID_COLUMN
                     \/ (c = HUBDB_ROW_ID_COLUMN /\ verdict res = Some v)))
  /\ match verdict res with
     | Some id => In (rowOf x, HUBDB_ROW_ID_COLUMN, id) ws
                  /\ forall sh, statusOf (ws ++ sh) (rowOf x) = okStatus
     | None => forall sh, statusOf (ws ++ sh) (rowOf x) = "error"
     end.

(** What the row of item [x] shows in [final], given the sheet [before]: the
    verdict's id and [okStatus], or the id cell as before and ["error"]. *)
Definition itemSettled (A : Type) (rowOf : A -> nat) (verdict : fetched -> option string)
    (okStatus : string) (x : A) (res : fetched) (before final : Sheet) : Prop :=
  match verdict res with
  | Some id => idCell final (rowOf x) = id /\ statusOf final (rowOf x) = okStatus
  | None => idCell final (rowOf x) = idCell before (rowOf x)
            /\ statusOf final (rowOf x) = "error"
  end.

(** The batch request [handleBatchClearedRows] sends. *)
Definition batchClearedRequest (clearedRows : list clearedRow) : request :=
  BATCH_DELETE_HUBDB_ROWS (filter truthy (map cleared_hubdbRowId clearedRows))
    "google_sheets_sync" "rows_cleared" (length clearedRows).

(** The successful deletions a batch answer reports: the response is 2xx, its
    body parses, [success] is truthy and the [results] can be filtered. *)
Definition batchAccepted (res : fetched) : option (list json) :=
  match res with
  | FetchThrows _ => None
  | Responded r =>
      if is2xx (getResponseCode r) then
        match parsed r with
        | Throw _ => None
        | Ok j =>
            match js_field j "success" with
            | Throw _ => None
            | Ok success =>
                if js_truthy success then
                  match successfulDeletionsOf j with
                  | Ok successfulDeletions => Some successfulDeletions
                  | Throw _ => None
                  end
                else None
            end
        end
      else None
  end.

(** The cells [markCleared] writes. *)
Definition markWrites (status msg : string) (cr : clearedRow) : Sheet :=
  [(cleared_sheetRow cr, SYNC_MESSAGE_ID_COLUMN, msg);
   (cleared_sheetRow cr, SYNC_STATUS_ID_COLUMN, status)].

(** The cell a cleared row gets before the batch request. *)
Definition syncingWrites (cr : clearedRow) : Sheet :=
  [(cleared_sheetRow cr, SYNC_STATUS_ID_COLUMN, "syncing")].

(** The cells a cleared row gets from an accepted batch answer. *)
Definition batchWrites (successfulDeletions : list json) (cr : clearedRow) : Sheet :=
  if someHubdbId successfulDeletions (cleared_hubdbRowId cr) then
    markWrites "deleted" "Successfully deleted from HubDB" cr
    ++ [(cleared_sheetRow cr, HUBDB_ROW_ID_COLUMN, "")]
  else markWrites "error" "Batch deletion failed" cr.

(** The combined request got through: the response is 2xx and its body
    parses. *)
Definition delivered (res : fetched) : bool :=
  match res with
  | FetchThrows _ => false
  | Responded r =>
      is2xx (getResponseCode r)
      && match parsed r with
         | Ok _ => true
         | Throw _ => false
         end
  end.

(** An exchange that is a combined request which did not get through. *)
Definition undelivered (x : exchange) : bool :=
  isCombined (fst x) && negb (delivered (snd x)).

(** The outcome is a normal return. *)
Definition returned (A : Type) (o : outcome A) : bool :=
  match o with
  | Ok _ => true
  | Throw _ => false
  end.
Arguments returned {A} o.

(** ** Triggers *)

(** The project's triggers are a list; [ScriptApp.newTrigger(...).create()]
    adds one at the end and the [ScriptApp] calls are taken not to throw. *)

(** What fires a trigger: [.onChange()], [.onEdit()] or
    [.timeBased().everyMinutes(n)]. *)
Inductive triggerEvent : Type :=
| OnChange
| OnEdit
| EveryMinutes (n : nat).

(** A project trigger. *)
Record trigger : Type := mkTrigger {
  getHandlerFunction : string;
  getEvent : triggerEvent
}.

Definition triggerEvent_eqb (a b : triggerEvent) : bool :=
  match a, b with
  | OnChange, OnChange | OnEdit, OnEdit => true
  | EveryMinutes n, EveryMinutes m => (n =? m)%nat
  | _, _ => false
  end.

Definition trigger_eqb (a b : trigger) : bool :=
  (getHandlerFunction a =? getHandlerFunction b)
  && triggerEvent_eqb (getEvent a) (getEvent b).

(** [ScriptApp.deleteTrigger(trigger)] on the project's triggers. *)
Definition deleteTrigger (t : trigger) (project : list trigger) : list trigger :=
  filter (fun t' => negb (trigger_eqb t' t)) project.

(** The test both functions apply to a trigger's handler. *)
Definition isSyncTrigger (t : trigger) : bool :=
  (getHandlerFunction t =? "syncAllData") || (getHandlerFunction t =? "onSheetChange").

(** The loop over [ScriptApp.getProjectTriggers()] shared by
    [setupTriggers] and [removeTriggers]. *)
Definition deleteSyncTriggers (project : list trigger) : list trigger :=
  fold_left (fun project trigger =>
               if isSyncTrigger trigger then deleteTrigger trigger project else project)
            project project.

(** [removeTriggers()] *)
Definition removeTriggers (project : list trigger) : list trigger :=
  deleteSyncTriggers project.

(** The three triggers [setupTriggers] creates, in order. *)
Definition syncTriggers : list trigger :=
  [mkTrigger "onSheetChange" OnChange; mkTrigger "syncAllData" OnEdit;
   mkTrigger "syncAllData" (EveryMinutes 5)].

(** [setupTriggers()] *)
Definition setupTriggers (project : list trigger) : list trigger :=
  deleteSyncTriggers project ++ syncTriggers.

(** The batch delete was dealt with by [handleBatchDeleteSuccess]: the
    response is 2xx, its body parses to something [success] can be read from
    and, when [success] is truthy, its [results] can be filtered. *)
Definition batchSettled (res : fetched) : bool :=
  match res with
  | FetchThrows _ => false
  | Responded r =>
      is2xx (getResponseCode r)
      && match parsed r with
         | Throw _ => false
         | Ok j =>
             match js_field j "success" with
             | Throw _ => false
             | Ok success =>
                 if js_truthy success then returned (successfulDeletionsOf j) else true
             end
         end
  end.

(** Rows 4 and 5 carry the same HubDB row id. *)
Definition sheet_duplicate_id : Sheet :=
  [ (4, 1, "101"); (4, 2, "1 Jan 10:00"); (4, 5, "Tan"); (4, 6, "Lee");
    (5, 1, "101"); (5, 2, "2 Jan 10:00"); (5, 5, "Ong"); (5, 6, "Lim") ].

(** The fixture of row 5 of [sheet_provisioning]. *)
Definition rowInfo_5 : rowInfo :=
  mkRowInfo "temp_5" (mkRecord "2 Jan 10:00" "" "" "Ong" "Lim" "" "" "" 5) 5.

(** Two cleared rows still bound to HubDB rows 301 and 302. *)
Definition cleared_301_302 : list clearedRow := [mkCleared 6 "301"; mkCleared 7 "302"].

(** A sheet without any filled cell. *)
Definition world_empty : world := mkWorld [] None [] endpoint_combined_fails.

(** The sheet and the baseline agree. *)
Definition world_in_sync : world :=
  mkWorld sheet_updated (Some [("101", record_101 "")]) [] endpoint_combined_fails.

(** The result of fixture 101 was cleared and the endpoint accepts the
    combined request. *)
Definition world_delivered : world :=
  mkWorld sheet_updated (Some baseline_101) [] endpoint_batch_partial.

(** * Properties *)

Unset Implicit Arguments.

(** ** Objects *)

Lemma truthy_true (s : string) : truthy s = true <-> s <> "".
Proof.
  unfold truthy. destruct (String.eqb_spec s ""); simpl; split; congruence.
Qed.

Lemma truthy_false (s : string) : truthy s = false <-> s = "".
Proof.
  unfold truthy. destruct (String.eqb_spec s ""); simpl; split; congruence.
Qed.

Module ObjFacts.

Section ObjFacts.
Variable A : Type.
Implicit Types (o : Obj.t A) (k : string) (v : A).

Lemma get_In o k v : Obj.get k o = Some v -> In (k, v) o.
Proof.
  induction o as [|[k' v'] o IH]; simpl; [discriminate|].
  destruct (String.eqb_spec k k') as [->|Hne]; intros H.
  - injection H as ->. now left.
  - right. auto.
Qed.

Lemma get_None_keys o k : Obj.get k o = None <-> ~ In k (Obj.keys o).
Proof.
  induction o as [|[k' v'] o IH]; simpl.
  - tauto.
  - destruct (String.eqb_spec k k') as [->|Hne].
    + split; [discriminate|]. intros H. exfalso. apply H. now left.
    + rewrite IH. split; intros H; [intros [E|E]; [congruence|tauto]|tauto].
Qed.

Lemma get_Some_keys o k : (exists v, Obj.get k o = Some v) <-> In k (Obj.keys o).
Proof.
  destruct (Obj.get k o) as [v|] eqn:E.
  - split; [intros _|eauto].
    apply get_In in E. apply (in_map fst) in E. exact E.
  - split; [intros [v H]; discriminate|].
    intros H. apply get_None_keys in E. contradiction.
Qed.

Lemma In_get o k v : Obj.wf o -> In (k, v) o -> Obj.get k o = Some v.
Proof.
  unfold Obj.wf, Obj.keys.
  induction o as [|[k' v'] o IH]; simpl; [tauto|].
  intros Hnd [E|Hin].
  - injection E as -> ->. now rewrite String.eqb_refl.
  - inversion Hnd as [|? ? Hni Hnd']; subst.
    destruct (String.eqb_spec k k') as [->|Hne].
    + exfalso. apply Hni. apply (in_map fst) in Hin. exact Hin.
    + auto.
Qed.

Lemma In_replace o k v k' v' :
  In (k', v') (Obj.replace k v o) -> (k', v') = (k, v) \/ In (k', v') o.
Proof.
  induction o as [|[k0 v0] o IH]; simpl; [tauto|].
  destruct (k =? k0); simpl; intuition.
Qed.

Lemma In_insert o k v k' v' :
  In (k', v') (Obj.insert k v o) <-> (k', v') = (k, v) \/ In (k', v') o.
Proof.
  induction o as [|[k0 v0] o IH]; simpl.
  - intuition.
  - destruct (Obj.key_before k k0); simpl; rewrite ?IH; intuition.
Qed.

Lemma In_set o k v k' v' :
  In (k', v') (Obj.set k v o) -> (k', v') = (k, v) \/ In (k', v') o.
Proof.
  unfold Obj.set. destruct (Obj.get k o).
  - apply In_replace.
  - apply In_insert.
Qed.

Lemma keys_replace o k v : Obj.keys (Obj.replace k v o) = Obj.keys o.
Proof.
  unfold Obj.keys.
  induction o as [|[k0 v0] o IH]; simpl; [reflexivity|].
  destruct (String.eqb_spec k k0) as [->|Hne]; simpl; congruence.
Qed.

Lemma keys_insert o k v k' :
  In k' (Obj.keys (Obj.insert k v o)) <-> k' = k \/ In k' (Obj.keys o).
Proof.
  unfold Obj.keys.
  induction o as [|[k0 v0] o IH]; simpl.
  - intuition.
  - destruct (Obj.key_before k k0); simpl; rewrite ?IH; intuition.
Qed.

Lemma wf_insert o k v :
  Obj.wf o -> ~ In k (Obj.keys o) -> Obj.wf (Obj.insert k v o).
Proof.
  unfold Obj.wf.
  induction o as [|[k0 v0] o IH]; simpl; intros Hnd Hni.
  - constructor; [tauto|constructor].
  - destruct (Obj.key_before k k0); simpl.
    + constructor; assumption.
    + inversion Hnd as [|? ? Hni0 Hnd0]; subst.
      constructor.
      * fold (Obj.keys (Obj.insert k v o)). rewrite keys_insert.
        intros [->|H]; tauto.
      * apply IH; tauto.
Qed.

Lemma wf_set o k v : Obj.wf o -> Obj.wf (Obj.set k v o).
Proof.
  intros Hwf. unfold Obj.set. destruct (Obj.get k o) eqn:E.
  - unfold Obj.wf. now rewrite keys_replace.
  - apply wf_insert; [assumption|]. now apply get_None_keys.
Qed.

End ObjFacts.

End ObjFacts.

(** ** Record extractor *)

Section Extractor.
Variable sh : Sheet.

Lemma fold_left_map (A B S : Type) (g : S -> B -> S) (h : A -> B) (l : list A) (s : S) :
  fold_left g (map h l) s = fold_left (fun a x => g a (h x)) l s.
Proof.
  revert s. induction l as [|x l IH]; simpl; intros s; [reflexivity|apply IH].
Qed.

Lemma combine_map_seq (B : Type) (f : nat -> B) (n r s : nat) :
  combine (map f (seq r n)) (seq s n) = map (fun j => (f (r + j), s + j)) (seq 0 n).
Proof.
  revert r s. induction n as [|n IH]; intros r s; simpl; [reflexivity|].
  rewrite !Nat.add_0_r. f_equal.
  rewrite IH, <- seq_shift, map_map.
  apply map_ext. intros j. now rewrite !Nat.add_succ_r.
Qed.

Lemma nth_getValues (r c n m j : nat) :
  j < n ->
  nth j (getValues sh r c n m) [] = map (fun c' => getValue sh (r + j) c') (seq c m).
Proof.
  intros Hj. unfold getValues.
  rewrite (nth_indep _ [] (map (fun c' => getValue sh 0 c') (seq c m)))
    by now rewrite length_map, length_seq.
  rewrite (map_nth (fun r' => map (fun c' => getValue sh r' c') (seq c m)) (seq r n) 0 j).
  now rewrite seq_nth.
Qed.

Lemma forEachIndexed_getValues (S : Type) (f : S -> list string * nat -> S)
    (n : nat) (s : S) :
  forEachIndexed f (getValues sh DATA_START_ROW 2 n 11) s
  = fold_left (fun a i => f a (rowAt sh i, i)) (seq 0 n) s.
Proof.
  unfold forEachIndexed, getValues.
  rewrite length_map, length_seq, combine_map_seq, fold_left_map.
  reflexivity.
Qed.

Lemma extractRow_step (hubdbIds : list (list string)) acc i :
  at_ (nth i hubdbIds []) 0 = hubdbIdAt sh i ->
  extractRow hubdbIds acc (rowAt sh i, i)
  = if clearedAt sh i then (fst acc, snd acc ++ [clearedRowAt sh i])
    else if keptAt sh i
         then (Obj.set (uniqueIdFor (hubdbIdAt sh i) (DATA_START_ROW + i))
                       (recordAt sh i) (fst acc), snd acc)
         else acc.
Proof.
  intros Hid. destruct acc as [allData clearedRows].
  unfold extractRow. rewrite Hid.
  unfold clearedAt, keptAt, isDataClearedButHasId, isCompletelyEmpty.
  fold (rowAt sh i).
  destruct (dataCellsEmpty (rowAt sh i)); simpl.
  - destruct (truthy (hubdbIdAt sh i)); reflexivity.
  - destruct (coreFieldsEmpty (rowAt sh i)); reflexivity.
Qed.

Lemma extract_fold (hubdbIds : list (list string)) (l : list nat) acc :
  (forall i, In i l -> at_ (nth i hubdbIds []) 0 = hubdbIdAt sh i) ->
  let res := fold_left (fun a i => extractRow hubdbIds a (rowAt sh i, i)) l acc in
  snd res = snd acc ++ map (clearedRowAt sh) (filter (clearedAt sh) l)
  /\ (forall k r, In (k, r) (fst res) ->
        In (k, r) (fst acc)
        \/ exists i, In i l /\ keptAt sh i = true
                     /\ k = uniqueIdFor (hubdbIdAt sh i) (DATA_START_ROW + i)
                     /\ r = recordAt sh i)
  /\ (Obj.wf (fst acc) -> Obj.wf (fst res)).
Proof.
  revert acc. induction l as [|i l IH]; intros acc Hids; simpl.
  - rewrite app_nil_r. auto.
  - rewrite extractRow_step by (apply Hids; now left).
    specialize (IH (if clearedAt sh i then (fst acc, snd acc ++ [clearedRowAt sh i])
                    else if keptAt sh i
                         then (Obj.set (uniqueIdFor (hubdbIdAt sh i) (DATA_START_ROW + i))
                                       (recordAt sh i) (fst acc), snd acc)
                         else acc)
                   (fun j Hj => Hids j (or_intror Hj))).
    cbv zeta in IH. destruct IH as (Hc & He & Hw).
    destruct (clearedAt sh i) eqn:Ecl; [|destruct (keptAt sh i) eqn:Ek];
      simpl in *; (split; [|split]).
    + rewrite Hc, <- app_assoc. reflexivity.
    + intros k r Hin. destruct (He k r Hin) as [H|(j & Hj & H)]; [now left|].
      right. exists j. tauto.
    + assumption.
    + assumption.
    + intros k r Hin. destruct (He k r Hin) as [H|(j & Hj & H)].
      * apply ObjFacts.In_set in H. destruct H as [H|H]; [|now left].
        injection H as -> ->. right. exists i. auto.
      * right. exists j. tauto.
    + intros H. apply Hw. now apply ObjFacts.wf_set.
    + assumption.
    + intros k r Hin. destruct (He k r Hin) as [H|(j & Hj & H)]; [now left|].
      right. exists j. tauto.
    + assumption.
Qed.

Lemma getAllSheetData_spec (lastRow : nat) allData clearedRows :
  getAllSheetData sh lastRow = Ok (allData, clearedRows) ->
  let n := lastRow + 1 - DATA_START_ROW in
  clearedRows = map (clearedRowAt sh) (filter (clearedAt sh) (seq 0 n))
  /\ (forall k r, In (k, r) allData ->
        exists i, i < n /\ keptAt sh i = true
                  /\ k = uniqueIdFor (hubdbIdAt sh i) (DATA_START_ROW + i)
                  /\ r = recordAt sh i)
  /\ Obj.wf allData.
Proof.
  intros H n. unfold getAllSheetData in H. fold n in H.
  destruct (n =? 0)%nat; [discriminate|].
  injection H as H. rewrite forEachIndexed_getValues in H.
  pose proof (extract_fold (getValues sh DATA_START_ROW 1 n 1) (seq 0 n) (Obj.empty, [])) as F.
  cbv zeta in F. rewrite H in F. simpl in F.
  destruct F as (Hc & He & Hw).
  - intros i Hi. apply in_seq in Hi.
    rewrite nth_getValues by lia. reflexivity.
  - split; [assumption|]. split.
    + intros k r Hin. destruct (He k r Hin) as [[]|(i & Hi & Hk)].
      exists i. apply in_seq in Hi. split; [lia|assumption].
    + apply Hw. constructor.
Qed.

Lemma dataCellsEmpty_rowAt (i : nat) :
  dataCellsEmpty (rowAt sh i) = true
  <-> forall c, 2 <= c <= 12 -> getValue sh (DATA_START_ROW + i) c = "".
Proof.
  unfold dataCellsEmpty, rowAt, at_. simpl.
  rewrite !andb_true_iff, !negb_true_iff, !truthy_false.
  split.
  - intros H c Hc.
    assert (c = 2 \/ c = 3 \/ c = 4 \/ c = 5 \/ c = 6 \/ c = 7 \/ c = 8 \/ c = 9
            \/ c = 10 \/ c = 11 \/ c = 12) as Hcases by lia.
    decompose [and] H.
    repeat (destruct Hcases as [->|Hcases]; [assumption|]). now subst.
  - intros H. repeat split; apply H; lia.
Qed.

Lemma coreFieldsEmpty_rowAt (i : nat) :
  coreFieldsEmpty (rowAt sh i) = true
  <-> forall c, 2 <= c <= 6 -> getValue sh (DATA_START_ROW + i) c = "".
Proof.
  unfold coreFieldsEmpty, rowAt, at_. simpl.
  rewrite !andb_true_iff, !negb_true_iff, !truthy_false.
  split.
  - intros H c Hc.
    assert (c = 2 \/ c = 3 \/ c = 4 \/ c = 5 \/ c = 6) as Hcases by lia.
    decompose [and] H.
    repeat (destruct Hcases as [->|Hcases]; [assumption|]). now subst.
  - intros H. repeat split; apply H; lia.
Qed.

End Extractor.

Lemma getAllSheetData_total (sh : Sheet) (lastRow : nat) :
  DATA_START_ROW <= lastRow ->
  exists allData clearedRows, getAllSheetData sh lastRow = Ok (allData, clearedRows).
Proof.
  intros H. unfold getAllSheetData.
  destruct (Nat.eqb_spec (lastRow + 1 - DATA_START_ROW) 0) as [E|E];
    [unfold DATA_START_ROW in *; lia|].
  match goal with |- exists a c, Ok ?p = _ => exists (fst p), (snd p) end.
  now rewrite <- surjective_pairing.
Qed.

Lemma getAllSheetData_Snapshot (sh : Sheet) (lastRow : nat) allData clearedRows :
  getAllSheetData sh lastRow = Ok (allData, clearedRows) -> Snapshot allData.
Proof.
  intros H. apply getAllSheetData_spec in H. destruct H as (_ & He & Hw).
  split; [assumption|].
  intros k r Hin. destruct (He k r Hin) as (i & _ & _ & -> & ->). reflexivity.
Qed.

Lemma snapshot_row_not_kept (sh : Sheet) (lastRow : nat) allData clearedRows actualRow :
  getAllSheetData sh lastRow = Ok (allData, clearedRows) ->
  DATA_START_ROW <= actualRow ->
  keptAt sh (actualRow - DATA_START_ROW) = false ->
  forall k r, In (k, r) allData -> sheetRow r <> actualRow.
Proof.
  intros H Hge Hk k r Hin Hrow.
  apply getAllSheetData_spec in H. destruct H as (_ & He & _).
  destruct (He k r Hin) as (i & _ & Hi & _ & ->). simpl in Hrow.
  assert (actualRow - DATA_START_ROW = i) as E by (unfold DATA_START_ROW in *; lia).
  rewrite E in Hk. congruence.
Qed.

Lemma cleared_row_iff (sh : Sheet) (lastRow : nat) allData clearedRows cr :
  getAllSheetData sh lastRow = Ok (allData, clearedRows) ->
  In cr clearedRows
  <-> exists i, i < lastRow + 1 - DATA_START_ROW /\ clearedAt sh i = true
                /\ cr = clearedRowAt sh i.
Proof.
  intros H. apply getAllSheetData_spec in H. destruct H as (-> & _ & _).
  rewrite in_map_iff. split.
  - intros (i & <- & Hi). apply filter_In in Hi. destruct Hi as [Hi Hc].
    apply in_seq in Hi. exists i. repeat split; [lia|assumption].
  - intros (i & Hi & Hc & ->). exists i. split; [reflexivity|].
    apply filter_In. split; [apply in_seq; lia|assumption].
Qed.



(** C10. A row of the data range whose five core cells (date/time, category,
    stage, player 1, player 2) are empty, which has a HubDB row id and some
    non-empty cell among the remaining six data cells, is in neither the
    snapshot nor [clearedRows]. *)
Theorem C10_coreless_row_dropped (sh : Sheet) (lastRow actualRow : nat) :
  DATA_START_ROW <= actualRow <= lastRow ->
  (forall c, 2 <= c <= 6 -> getValue sh actualRow c = "") ->
  getValue sh actualRow HUBDB_ROW_ID_COLUMN <> "" ->
  (exists c, 7 <= c <= 12 /\ getValue sh actualRow c <> "") ->
  exists allData clearedRows,
    getAllSheetData sh lastRow = Ok (allData, clearedRows)
    /\ (forall k r, In (k, r) allData -> sheetRow r <> actualRow)
    /\ (forall cr, In cr clearedRows -> cleared_sheetRow cr <> actualRow).
Proof.
  intros Hrange Hcore Hid (c & Hc & Hcell).
  destruct (getAllSheetData_total sh lastRow) as (allData & clearedRows & H); [lia|].
  exists allData, clearedRows. split; [exact H|].
  set (i := actualRow - DATA_START_ROW).
  assert (Hrow : DATA_START_ROW + i = actualRow)
    by (unfold i, DATA_START_ROW in *; lia).
  assert (Hcore' : coreFieldsEmpty (rowAt sh i) = true).
  { apply coreFieldsEmpty_rowAt. rewrite Hrow. exact Hcore. }
  assert (Hdata : dataCellsEmpty (rowAt sh i) = false).
  { apply not_true_is_false. intros E.
    apply Hcell. rewrite <- Hrow. apply (proj1 (dataCellsEmpty_rowAt sh i) E). lia. }
  split.
  - apply (snapshot_row_not_kept sh lastRow allData clearedRows actualRow H);
      [unfold DATA_START_ROW in *; lia|].
    fold i. unfold keptAt. rewrite Hcore'. apply andb_false_r.
  - intros cr Hin Hcr.
    apply (cleared_row_iff sh lastRow allData clearedRows cr H) in Hin. destruct Hin as (j & _ & Hj & ->).
    simpl in Hcr. assert (j = i) as -> by (unfold DATA_START_ROW in *; lia).
    unfold clearedAt, isDataClearedButHasId in Hj. rewrite Hdata in Hj. discriminate.
Qed.


(** Row 7 of [sheet_example]. *)
Lemma C10_coreless_row_dropped_witness :
  exists allData clearedRows,
    getAllSheetData sheet_example 7 = Ok (allData, clearedRows)
    /\ (forall k r, In (k, r) allData -> sheetRow r <> 7)
    /\ (forall cr, In cr clearedRows -> cleared_sheetRow cr <> 7).
Proof.
  apply (C10_coreless_row_dropped sheet_example 7 7).
  - unfold DATA_START_ROW. lia.
  - intros c Hc.
    do 7 (destruct c as [|c]; [reflexivity || lia|]). lia.
  - discriminate.
  - exists 9. split; [lia|discriminate].
Defined.

(** ** Change detector *)

Section Detector.
Variables cur base : snapshot.

Lemma checkCurrent_emit (st : detectState) (k : string) :
  checkCurrent st k
  = mkDetect (currentData st) (storedData st)
             (changes st ++ emitCurrent (currentData st) (storedData st) k).
Proof.
  unfold emitCurrent, checkCurrent. destruct st as [c s ch]. simpl.
  destruct (Obj.get k c) as [current|]; [|now rewrite app_nil_r].
  destruct (Obj.get k s) as [stored|].
  - destruct (0 <? length _)%nat; unfold push; simpl; now rewrite ?app_nil_r.
  - destruct (_ || _); unfold push; simpl; now rewrite ?app_nil_r.
Qed.

Lemma checkStored_emit (st : detectState) (k : string) :
  checkStored st k
  = mkDetect (currentData st) (storedData st)
             (changes st ++ emitStored (currentData st) (storedData st) k).
Proof.
  unfold emitStored, checkStored. destruct st as [c s ch]. simpl.
  destruct (Obj.get k c); [now rewrite app_nil_r|].
  destruct (Obj.get k s) as [storedRow|]; [|now rewrite app_nil_r].
  destruct (truthy _); unfold push; simpl; now rewrite ?app_nil_r.
Qed.

Lemma fold_checkCurrent (l : list string) (ch : list change) :
  fold_left checkCurrent l (mkDetect cur base ch)
  = mkDetect cur base (ch ++ flat_map (emitCurrent cur base) l).
Proof.
  revert ch. induction l as [|k l IH]; intros ch; simpl.
  - now rewrite app_nil_r.
  - rewrite checkCurrent_emit. simpl. rewrite IH, <- app_assoc. reflexivity.
Qed.

Lemma fold_checkStored (l : list string) (ch : list change) :
  fold_left checkStored l (mkDetect cur base ch)
  = mkDetect cur base (ch ++ flat_map (emitStored cur base) l).
Proof.
  revert ch. induction l as [|k l IH]; intros ch; simpl.
  - now rewrite app_nil_r.
  - rewrite checkStored_emit. simpl. rewrite IH, <- app_assoc. reflexivity.
Qed.

Lemma detectChanges_run_eq (ch : list change) :
  detectChanges_run (mkDetect cur base ch)
  = mkDetect cur base
      (ch ++ flat_map (emitCurrent cur base) (Obj.keys cur)
          ++ flat_map (emitStored cur base) (Obj.keys base)).
Proof.
  unfold detectChanges_run. simpl.
  rewrite fold_checkCurrent. simpl. rewrite fold_checkStored, <- app_assoc.
  reflexivity.
Qed.

Lemma detectChanges_flat_map :
  detectChanges cur base
  = flat_map (emitCurrent cur base) (Obj.keys cur)
    ++ flat_map (emitStored cur base) (Obj.keys base).
Proof.
  unfold detectChanges. now rewrite detectChanges_run_eq.
Qed.

Lemma emitCurrent_uniqueId (k : string) (c : change) :
  In c (emitCurrent cur base k) -> uniqueId c = k.
Proof.
  unfold emitCurrent, checkCurrent. simpl.
  destruct (Obj.get k cur) as [current|]; [|intros []].
  destruct (Obj.get k base) as [stored|].
  - destruct (0 <? length _)%nat; simpl; [|tauto]. intros [<-|[]]. reflexivity.
  - destruct (_ || _); simpl; [|tauto]. intros [<-|[]]. reflexivity.
Qed.

Lemma emitStored_uniqueId (k : string) (c : change) :
  In c (emitStored cur base k) -> uniqueId c = k.
Proof.
  unfold emitStored, checkStored. simpl.
  destruct (Obj.get k cur); [intros []|].
  destruct (Obj.get k base) as [storedRow|]; [|intros []].
  destruct (truthy _); simpl; [|tauto]. intros [<-|[]]. reflexivity.
Qed.

End Detector.

Lemma filter_all (A : Type) (p : A -> bool) (l : list A) :
  (forall x, In x l -> p x = true) -> filter p l = l.
Proof.
  induction l as [|x l IH]; simpl; intros H; [reflexivity|].
  rewrite (H x (or_introl eq_refl)). f_equal. apply IH. auto.
Qed.

Lemma filter_none (A : Type) (p : A -> bool) (l : list A) :
  (forall x, In x l -> p x = false) -> filter p l = [].
Proof.
  induction l as [|x l IH]; simpl; intros H; [reflexivity|].
  rewrite (H x (or_introl eq_refl)). apply IH. auto.
Qed.

(** Among the changes a duplicate-free key list emits, those for one key
    are the ones that key emits. *)
Lemma filter_forId_flat_map (f : string -> list change) (l : list string) (k : string) :
  (forall k' c, In c (f k') -> uniqueId c = k') ->
  NoDup l ->
  filter (forId k) (flat_map f l) = if in_dec string_dec k l then f k else [].
Proof.
  intros Hid. induction 1 as [|k' l Hni Hnd IH]; simpl; [reflexivity|].
  rewrite filter_app, IH.
  destruct (string_dec k' k) as [->|Hne].
  - destruct (in_dec string_dec k l); [contradiction|].
    rewrite app_nil_r. apply filter_all.
    intros c Hc. unfold forId. rewrite (Hid _ _ Hc). apply String.eqb_refl.
  - rewrite (filter_none _ (forId k) (f k')).
    + simpl. destruct (in_dec string_dec k l); reflexivity.
    + intros c Hc. unfold forId. rewrite (Hid _ _ Hc). now apply String.eqb_neq.
Qed.

(** The changes reported for one [uniqueId]. *)
Lemma changes_forId (cur base : snapshot) (k : string) :
  Obj.wf cur -> Obj.wf base ->
  filter (forId k) (detectChanges cur base)
  = emitCurrent cur base k ++ emitStored cur base k.
Proof.
  intros Hc Hb.
  rewrite detectChanges_flat_map, filter_app.
  rewrite (filter_forId_flat_map (emitCurrent cur base) (Obj.keys cur) k
             (emitCurrent_uniqueId cur base) Hc).
  rewrite (filter_forId_flat_map (emitStored cur base) (Obj.keys base) k
             (emitStored_uniqueId cur base) Hb).
  f_equal.
  - destruct (in_dec string_dec k (Obj.keys cur)) as [Hin|Hni]; [reflexivity|].
    apply ObjFacts.get_None_keys in Hni.
    unfold emitCurrent, checkCurrent. simpl. now rewrite Hni.
  - destruct (in_dec string_dec k (Obj.keys base)) as [Hin|Hni]; [reflexivity|].
    apply ObjFacts.get_None_keys in Hni.
    unfold emitStored, checkStored. simpl. rewrite Hni.
    destruct (Obj.get k cur); reflexivity.
Qed.

Lemma In_detectChanges_forId (cur base : snapshot) (c : change) :
  In c (detectChanges cur base) <->
  In c (filter (forId (uniqueId c)) (detectChanges cur base)).
Proof.
  rewrite filter_In. unfold forId. rewrite String.eqb_refl. tauto.
Qed.

Lemma keyed_guard (k : string) (r : record) :
  k = uniqueIdFor (hubdbRowId r) (sheetRow r) ->
  truthy (hubdbRowId r) || prefix "temp_" k = true.
Proof.
  intros ->. unfold uniqueIdFor.
  destruct (truthy (hubdbRowId r)); [reflexivity|].
  simpl. now destruct (decimal (sheetRow r)).
Qed.

Lemma fold_compareField (current stored : record) (l : list string)
    (acc : list changedField) :
  fold_left (compareField current stored) l acc
  = acc ++ map (fun f => Delta f (getField stored f) (getField current f))
               (filter (fun f => negb (getField current f =? getField stored f)) l).
Proof.
  revert acc. induction l as [|f l IH]; intros acc; simpl.
  - now rewrite app_nil_r.
  - rewrite IH. unfold compareField.
    destruct (getField current f =? getField stored f); simpl.
    + reflexivity.
    + now rewrite <- app_assoc.
Qed.

Lemma filter_nil_iff (A : Type) (p : A -> bool) (l : list A) :
  filter p l = [] <-> Forall (fun x => p x = false) l.
Proof.
  induction l as [|x l IH]; simpl.
  - split; constructor.
  - destruct (p x) eqn:E.
    + split; [discriminate|]. intros H. inversion H. congruence.
    + rewrite IH. split; [now constructor|]. intros H. now inversion H.
Qed.

Lemma differing_nil_iff (current stored : record) :
  differing current stored = [] <-> ~ trackedFieldsDiffer current stored.
Proof.
  unfold differing. rewrite filter_nil_iff. unfold fieldsToCheck.
  rewrite !Forall_cons_iff, Forall_nil_iff.
  change (getField current "date_and_time") with (date_and_time current).
  change (getField stored "date_and_time") with (date_and_time stored).
  change (getField current "category") with (category current).
  change (getField stored "category") with (category stored).
  change (getField current "stage") with (stage current).
  change (getField stored "stage") with (stage stored).
  change (getField current "player_1") with (player_1 current).
  change (getField stored "player_1") with (player_1 stored).
  change (getField current "player_2") with (player_2 current).
  change (getField stored "player_2") with (player_2 stored).
  change (getField current "results") with (results current).
  change (getField stored "results") with (results stored).
  change (getField current "venue") with (venue current).
  change (getField stored "venue") with (venue stored).
  rewrite !negb_false_iff, !String.eqb_eq.
  unfold trackedFieldsDiffer.
  destruct (string_dec (date_and_time current) (date_and_time stored));
  destruct (string_dec (category current) (category stored));
  destruct (string_dec (stage current) (stage stored));
  destruct (string_dec (player_1 current) (player_1 stored));
  destruct (string_dec (player_2 current) (player_2 stored));
  destruct (string_dec (results current) (results stored));
  destruct (string_dec (venue current) (venue stored)); tauto.
Qed.

Lemma emitCurrent_both (cur base : snapshot) (k : string) (current stored : record) :
  Obj.get k cur = Some current -> Obj.get k base = Some stored ->
  emitCurrent cur base k
  = match differing current stored with
    | [] => []
    | _ :: _ => [mkChange UPDATED k (Some (sheetRow current)) (Some current)
                          (Some stored) (deltasOf current stored)]
    end.
Proof.
  intros Hc Hb. unfold emitCurrent, checkCurrent.
  cbn [currentData storedData]. rewrite Hc, Hb, fold_compareField.
  cbn [app]. fold (differing current stored). fold (deltasOf current stored).
  unfold deltasOf. destruct (differing current stored); reflexivity.
Qed.

(** C3. For a current snapshot as the extractor keys it and any baseline:
    a [uniqueId] in current only has exactly one change, a NEW one; a
    [uniqueId] in the baseline only has exactly one change, a DELETED one,
    when its baseline record has a HubDB row id, and no change at all when it
    has none.  Conversely every NEW change is for a current-only key and every
    DELETED change for a baseline-only key whose record has a HubDB row id. *)
Theorem C3_new_and_deleted_exactly_once (cur base : snapshot) (k : string) :
  Snapshot cur -> Obj.wf base ->
  (forall r, Obj.get k cur = Some r -> Obj.get k base = None ->
     filter (forId k) (detectChanges cur base)
     = [mkChange NEW k (Some (sheetRow r)) (Some r) None [Marker "ALL"]])
  /\ (forall r, Obj.get k cur = None -> Obj.get k base = Some r ->
        hubdbRowId r <> "" ->
        filter (forId k) (detectChanges cur base)
        = [mkChange DELETED k None None (Some r) [Marker "DELETED"]])
  /\ (forall r, Obj.get k cur = None -> Obj.get k base = Some r ->
        hubdbRowId r = "" ->
        filter (forId k) (detectChanges cur base) = [])
  /\ (forall c, In c (detectChanges cur base) -> uniqueId c = k -> type c = NEW ->
        Obj.get k cur <> None /\ Obj.get k base = None)
  /\ (forall c, In c (detectChanges cur base) -> uniqueId c = k -> type c = DELETED ->
        Obj.get k cur = None
        /\ exists r, Obj.get k base = Some r /\ hubdbRowId r <> "").
Proof.
  intros [Hwf Hkey] Hb.
  pose proof (changes_forId cur base k Hwf Hb) as Hk.
  unfold emitCurrent, emitStored, checkCurrent, checkStored in Hk. simpl in Hk.
  assert (Hin : forall c, In c (detectChanges cur base) -> uniqueId c = k ->
                  In c (filter (forId k) (detectChanges cur base))).
  { intros c Hc <-. now apply In_detectChanges_forId. }
  split; [|split; [|split; [|split]]].
  - intros r Hc Hn. rewrite Hk, Hc, Hn.
    rewrite (keyed_guard k r) by (apply Hkey, ObjFacts.get_In, Hc). reflexivity.
  - intros r Hc Hn Hid. rewrite Hk, Hc, Hn.
    apply truthy_true in Hid. now rewrite Hid.
  - intros r Hc Hn Hid. rewrite Hk, Hc, Hn.
    apply truthy_false in Hid. now rewrite Hid.
  - intros c Hc Hu Hty. apply Hin in Hc; [|exact Hu]. rewrite Hk in Hc.
    destruct (Obj.get k cur) as [r|].
    + split; [discriminate|].
      destruct (Obj.get k base) as [s|]; [|reflexivity].
      rewrite app_nil_r in Hc.
      destruct (0 <? length _)%nat; simpl in Hc; [|destruct Hc].
      destruct Hc as [<-|[]]. discriminate.
    + destruct (Obj.get k base) as [s|]; [|destruct Hc].
      destruct (truthy (hubdbRowId s)); simpl in Hc; [|destruct Hc].
      destruct Hc as [<-|[]]. discriminate.
  - intros c Hc Hu Hty. apply Hin in Hc; [|exact Hu]. rewrite Hk in Hc.
    destruct (Obj.get k cur) as [r|].
    + destruct (Obj.get k base) as [s|]; rewrite app_nil_r in Hc.
      * destruct (0 <? length _)%nat; simpl in Hc; [|destruct Hc].
        destruct Hc as [<-|[]]. discriminate.
      * destruct (_ || _); simpl in Hc; [|destruct Hc].
        destruct Hc as [<-|[]]. discriminate.
    + split; [reflexivity|].
      destruct (Obj.get k base) as [s|]; [|destruct Hc].
      exists s. split; [reflexivity|].
      destruct (truthy (hubdbRowId s)) eqn:E; [now apply truthy_true|destruct Hc].
Qed.

Lemma trackedFieldsDiffer_dec (current stored : record) :
  trackedFieldsDiffer current stored \/ ~ trackedFieldsDiffer current stored.
Proof.
  unfold trackedFieldsDiffer.
  destruct (string_dec (date_and_time current) (date_and_time stored));
  destruct (string_dec (category current) (category stored));
  destruct (string_dec (stage current) (stage stored));
  destruct (string_dec (player_1 current) (player_1 stored));
  destruct (string_dec (player_2 current) (player_2 stored));
  destruct (string_dec (results current) (results stored));
  destruct (string_dec (venue current) (venue stored)); tauto.
Qed.

Lemma NoDup_fieldsToCheck : NoDup fieldsToCheck.
Proof.
  unfold fieldsToCheck.
  repeat (constructor; [simpl; intuition discriminate|]). constructor.
Qed.

Lemma NoDup_map_injective (A B : Type) (f : A -> B) (l : list A) :
  (forall x y, f x = f y -> x = y) -> NoDup l -> NoDup (map f l).
Proof.
  intros Hinj. induction 1 as [|x l Hni Hnd IH]; simpl; constructor; [|exact IH].
  rewrite in_map_iff. intros (y & Hy & Hin). apply Hinj in Hy. now subst.
Qed.

(** C4. For a [uniqueId] in both snapshots, an UPDATED change is reported if
    and only if one of the seven tracked fields differs; it is then the only
    change for that [uniqueId], and its [changedFields] are the deltas of the
    differing fields, one each, old value from the baseline record and new
    value from the current one. *)
Theorem C4_updated_iff_tracked_field_differs (cur base : snapshot) (k : string)
    (current stored : record) :
  Obj.wf cur -> Obj.wf base ->
  Obj.get k cur = Some current -> Obj.get k base = Some stored ->
  ((exists c, In c (detectChanges cur base) /\ type c = UPDATED /\ uniqueId c = k)
   <-> trackedFieldsDiffer current stored)
  /\ (trackedFieldsDiffer current stored ->
      filter (forId k) (detectChanges cur base)
      = [mkChange UPDATED k (Some (sheetRow current)) (Some current) (Some stored)
                  (deltasOf current stored)])
  /\ (~ trackedFieldsDiffer current stored ->
      filter (forId k) (detectChanges cur base) = [])
  /\ (forall f o n,
        In (Delta f o n) (deltasOf current stored)
        <-> In f fieldsToCheck /\ getField current f <> getField stored f
            /\ o = getField stored f /\ n = getField current f)
  /\ NoDup (deltasOf current stored).
Proof.
  intros Hwf Hb Hc Hs.
  pose proof (changes_forId cur base k Hwf Hb) as Hk.
  rewrite (emitCurrent_both cur base k current stored Hc Hs) in Hk.
  assert (Hst : emitStored cur base k = []).
  { unfold emitStored, checkStored. cbn [currentData]. now rewrite Hc. }
  rewrite Hst, app_nil_r in Hk.
  pose proof (differing_nil_iff current stored) as Hd.
  assert (Hyes : trackedFieldsDiffer current stored ->
                 filter (forId k) (detectChanges cur base)
                 = [mkChange UPDATED k (Some (sheetRow current)) (Some current)
                             (Some stored) (deltasOf current stored)]).
  { intros Hdiff. rewrite Hk.
    destruct (differing current stored); [|reflexivity].
    exfalso. now apply (proj1 Hd). }
  assert (Hno : ~ trackedFieldsDiffer current stored ->
                filter (forId k) (detectChanges cur base) = []).
  { intros Hsame. rewrite Hk. now rewrite (proj2 Hd Hsame). }
  split; [|split; [exact Hyes|split; [exact Hno|split]]].
  - split.
    + intros (c & Hin & _ & Hu).
      destruct (trackedFieldsDiffer_dec current stored) as [Hdiff|Hsame];
        [exact Hdiff|].
      apply In_detectChanges_forId in Hin.
      rewrite Hu, (Hno Hsame) in Hin. destruct Hin.
    + intros Hdiff.
      exists (mkChange UPDATED k (Some (sheetRow current)) (Some current)
                       (Some stored) (deltasOf current stored)).
      split; [|split; reflexivity].
      apply (proj1 (filter_In (forId k) _ (detectChanges cur base))).
      rewrite (Hyes Hdiff). now left.
  - intros f o n. unfold deltasOf, differing.
    rewrite in_map_iff. split.
    + intros (x & Heq & Hin). injection Heq as -> <- <-.
      apply filter_In in Hin. destruct Hin as [Hin Hne].
      apply negb_true_iff, String.eqb_neq in Hne. auto.
    + intros (Hin & Hne & -> & ->). exists f. split; [reflexivity|].
      apply filter_In. split; [exact Hin|].
      now apply negb_true_iff, String.eqb_neq.
  - unfold deltasOf, differing. apply NoDup_map_injective.
    + intros x y Heq. now injection Heq.
    + apply NoDup_filter, NoDup_fieldsToCheck.
Qed.

(** C9. [detectChanges] leaves both snapshots as they were, and a second run
    on them returns the list the first run returned. *)
Theorem C9_detectChanges_repeatable (cur base : snapshot) :
  let first := detectChanges_run (mkDetect cur base []) in
  let second := detectChanges_run (mkDetect (currentData first) (storedData first) []) in
  currentData first = cur /\ storedData first = base
  /\ changes second = changes first
  /\ changes first = detectChanges cur base.
Proof.
  cbv zeta. rewrite detectChanges_run_eq. cbn [currentData storedData changes].
  rewrite detectChanges_run_eq. cbn [changes].
  repeat split. unfold detectChanges. now rewrite detectChanges_run_eq.
Qed.

(** The three kinds of key of [snapshot_current] and [snapshot_baseline]. *)
Lemma C3_new_and_deleted_exactly_once_witness :
  filter (forId "temp_5") (detectChanges snapshot_current snapshot_baseline)
  = [mkChange NEW "temp_5" (Some 5)
              (Some (mkRecord "2 Jan 10:00" "" "" "Ong" "Lim" "" "" "" 5))
              None [Marker "ALL"]]
  /\ filter (forId "88") (detectChanges snapshot_current snapshot_baseline)
     = [mkChange DELETED "88" None None
                 (Some (mkRecord "3 Jan 10:00" "" "" "Goh" "Teo" "" "" "88" 6))
                 [Marker "DELETED"]]
  /\ filter (forId "temp_7") (detectChanges snapshot_current snapshot_baseline) = [].
Proof.
  assert (Hs : Snapshot snapshot_current).
  { split.
    - unfold Obj.wf. simpl.
      repeat (constructor; [simpl; intuition discriminate|]). constructor.
    - intros k r [H|[H|[]]]; injection H as <- <-; reflexivity. }
  assert (Hb : Obj.wf snapshot_baseline).
  { unfold Obj.wf. simpl.
    repeat (constructor; [simpl; intuition discriminate|]). constructor. }
  split; [|split].
  - apply (proj1 (C3_new_and_deleted_exactly_once snapshot_current
             snapshot_baseline "temp_5" Hs Hb)
             (mkRecord "2 Jan 10:00" "" "" "Ong" "Lim" "" "" "" 5)); reflexivity.
  - apply (proj1 (proj2 (C3_new_and_deleted_exactly_once snapshot_current
             snapshot_baseline "88" Hs Hb))
             (mkRecord "3 Jan 10:00" "" "" "Goh" "Teo" "" "" "88" 6));
      [reflexivity|reflexivity|discriminate].
  - apply (proj1 (proj2 (proj2 (C3_new_and_deleted_exactly_once snapshot_current
             snapshot_baseline "temp_7" Hs Hb)))
             (mkRecord "4 Jan 10:00" "" "" "Ng" "Wee" "" "" "" 7)); reflexivity.
Defined.

(** The example of the specification. *)
Lemma C4_updated_iff_tracked_field_differs_witness :
  filter (forId "7") (detectChanges spec_current spec_baseline)
  = [mkChange UPDATED "7" (Some 4)
              (Some (mkRecord "" "" "" "Tan" "Lee" "" "" "7" 4))
              (Some (mkRecord "" "" "" "Tan" "Lee" "6-4" "" "7" 4))
              [Delta "results" "6-4" ""]].
Proof.
  refine (proj1 (proj2 (C4_updated_iff_tracked_field_differs spec_current spec_baseline
            "7" (mkRecord "" "" "" "Tan" "Lee" "" "" "7" 4)
            (mkRecord "" "" "" "Tan" "Lee" "6-4" "" "7" 4) _ _ eq_refl eq_refl)) _).
  - unfold Obj.wf. simpl. constructor; [simpl; tauto|constructor].
  - unfold Obj.wf. simpl. constructor; [simpl; tauto|constructor].
  - unfold trackedFieldsDiffer. simpl. do 5 right. left. discriminate.
Defined.

(** The example of the specification, evaluated. *)
Example detectChanges_results_cleared :
  detectChanges spec_current spec_baseline
  = [mkChange UPDATED "7" (Some 4)
              (Some (mkRecord "" "" "" "Tan" "Lee" "" "" "7" 4))
              (Some (mkRecord "" "" "" "Tan" "Lee" "6-4" "" "7" 4))
              [Delta "results" "6-4" ""]].
Proof. reflexivity. Qed.

(** ** Selection for HubDB row creation *)

Lemma Set_add_In (x y : string) (s : list string) :
  In y (Set_add x s) <-> y = x \/ In y s.
Proof.
  unfold Set_add. destruct (existsb (String.eqb x) s) eqn:E.
  - split; [tauto|]. intros [->|H]; [|exact H].
    apply existsb_exists in E. destruct E as (z & Hz & Hxz).
    apply String.eqb_eq in Hxz. now subst.
  - rewrite in_app_iff. simpl. intuition.
Qed.

Lemma Set_add_NoDup (x : string) (s : list string) : NoDup s -> NoDup (Set_add x s).
Proof.
  intros H. unfold Set_add. destruct (existsb (String.eqb x) s) eqn:E; [exact H|].
  apply NoDup_app; [exact H|repeat constructor; simpl; tauto|].
  intros y Hy [<-|[]].
  assert (existsb (String.eqb x) s = true) as E'.
  { apply existsb_exists. exists x. split; [exact Hy|apply String.eqb_refl]. }
  congruence.
Qed.

Lemma fold_Set_add (l acc : list string) :
  let s := fold_left (fun s uniqueId => Set_add uniqueId s) l acc in
  (forall y, In y s <-> In y acc \/ In y l) /\ (NoDup acc -> NoDup s).
Proof.
  revert acc. induction l as [|x l IH]; intros acc; simpl.
  - split; [tauto|auto].
  - destruct (IH (Set_add x acc)) as [Hin Hnd]. split.
    + intros y. rewrite Hin, Set_add_In. intuition.
    + intros H. now apply Hnd, Set_add_NoDup.
Qed.

Lemma fold_collectChanged (l : list change) (acc : list string) :
  let s := fold_left collectChanged l acc in
  (forall y, In y s <-> In y acc \/ targeted l y) /\ (NoDup acc -> NoDup s).
Proof.
  revert acc. induction l as [|c l IH]; intros acc; simpl.
  - split; [|auto]. intros y. split; [tauto|].
    intros [H|(c & [] & _)]. exact H.
  - destruct (IH (collectChanged acc c)) as [Hin Hnd]. split.
    + intros y. rewrite Hin. unfold collectChanged, targeted.
      destruct (type c) eqn:Ety; rewrite ?Set_add_In; split.
      * intros [[->|H]|(c' & Hc' & Ht & Hu)]; [right|now left|right].
        -- exists c. simpl. auto.
        -- exists c'. simpl. auto.
      * intros [H|(c' & [<-|Hc'] & Ht & Hu)]; [tauto|now left; left|right].
        exists c'. auto.
      * intros [[->|H]|(c' & Hc' & Ht & Hu)]; [right|now left|right].
        -- exists c. simpl. auto.
        -- exists c'. simpl. auto.
      * intros [H|(c' & [<-|Hc'] & Ht & Hu)]; [tauto|now left; left|right].
        exists c'. auto.
      * intros [H|(c' & Hc' & Ht & Hu)]; [now left|right].
        exists c'. simpl. auto.
      * intros [H|(c' & [<-|Hc'] & Ht & Hu)]; [tauto| |right].
        -- rewrite Ety in Ht. destruct Ht; discriminate.
        -- exists c'. auto.
    + intros H. apply Hnd. unfold collectChanged.
      destruct (type c); auto using Set_add_NoDup.
Qed.

Lemma selectRow_In (allData : snapshot) (ids : list string) (acc : list rowInfo)
    (ri : rowInfo) :
  In ri (fold_left (selectRow allData) ids acc)
  <-> In ri acc
      \/ exists uniqueId' data,
           In uniqueId' ids /\ Obj.get uniqueId' allData = Some data
           /\ qualifies data /\ ri = mkRowInfo uniqueId' data (sheetRow data).
Proof.
  revert acc. induction ids as [|k ids IH]; intros acc; simpl.
  - split; [tauto|]. intros [H|(u & d & [] & _)]. exact H.
  - rewrite IH. unfold selectRow, qualifies.
    destruct (Obj.get k allData) as [data|] eqn:Eg.
    + destruct (truthy (date_and_time data)) eqn:E1;
      destruct (truthy (player_1 data)) eqn:E2;
      destruct (truthy (player_2 data)) eqn:E3;
      destruct (truthy (hubdbRowId data)) eqn:E4; simpl;
      rewrite ?truthy_true, ?truthy_false in *;
      rewrite ?in_app_iff; simpl; split;
      try (intros [H|(u & d & Hu & Hg & Hq & ->)];
           [now left|right; exists u, d; tauto]);
      try (intros [H|(u & d & [<-|Hu] & Hg & Hq & ->)];
           [now left| rewrite Eg in Hg; injection Hg as <-; tauto
           |right; exists u, d; tauto]).
      * intros [[H|[<-|[]]]|(u & d & Hu & Hg & Hq & ->)];
          [now left|right; exists k, data; tauto|right; exists u, d; tauto].
      * intros [H|(u & d & [<-|Hu] & Hg & Hq & ->)];
          [now left; left
          |rewrite Eg in Hg; injection Hg as <-; left; right; now left
          |right; exists u, d; tauto].
    + split.
      * intros [H|(u & d & Hu & Hg & Hq & ->)]; [now left|right; exists u, d; tauto].
      * intros [H|(u & d & [<-|Hu] & Hg & Hq & ->)];
          [now left|congruence|right; exists u, d; tauto].
Qed.

(** C8. The rows selected for HubDB row creation are exactly the records of
    the current snapshot that lack a HubDB row id, have date/time, player 1
    and player 2 filled in and, when the change list is non-empty, are the
    target of one of its NEW or UPDATED changes (with an empty change list,
    every such record of the snapshot). *)
Theorem C8_rows_needing_creation (allData : snapshot) (changes : list change)
    (ri : rowInfo) :
  In ri (findRowsNeedingHubDBCreation allData changes)
  <-> exists uniqueId' data,
        ri = mkRowInfo uniqueId' data (sheetRow data)
        /\ Obj.get uniqueId' allData = Some data
        /\ qualifies data
        /\ (changes = [] \/ (changes <> [] /\ targeted changes uniqueId')).
Proof.
  unfold findRowsNeedingHubDBCreation. rewrite selectRow_In.
  destruct changes as [|c changes]; cbn [length Nat.ltb Nat.leb].
  - destruct (fold_Set_add (Obj.keys allData) []) as [Hin _]. cbv zeta in Hin.
    split.
    + intros [[]|(u & d & Hu & Hg & Hq & ->)]. exists u, d. auto.
    + intros (u & d & -> & Hg & Hq & _). right. exists u, d.
      repeat split; try assumption; try apply Hq.
      apply Hin. right. apply ObjFacts.get_Some_keys. eauto.
  - destruct (fold_collectChanged (c :: changes) []) as [Hin _]. cbv zeta in Hin.
    split.
    + intros [[]|(u & d & Hu & Hg & Hq & ->)]. exists u, d.
      repeat split; try assumption; try apply Hq.
      right. split; [discriminate|]. apply Hin in Hu. destruct Hu as [[]|Hu]. exact Hu.
    + intros (u & d & -> & Hg & Hq & [Hnil|[_ Ht]]); [discriminate|].
      right. exists u, d. repeat split; try assumption; try apply Hq.
      apply Hin. now right.
Qed.

(** ** Effects: what a call may touch *)

Section Effects.

Lemma world_eta (w : world) :
  w = mkWorld (sheet w) (GAME_DATA w) (exchanges w) (endpoint w).
Proof. now destruct w. Qed.

Lemma quiet_ret (A : Type) (a : A) : quiet (ret a).
Proof. intros w. exists a, (sheet w). unfold ret. now rewrite <- world_eta. Qed.

Lemma quiet_setCell (r c : nat) (v : string) : quiet (setCell r c v).
Proof. intros w. exists tt, (setValue r c v (sheet w)). reflexivity. Qed.

Lemma quiet_bind (A B : Type) (m : M A) (k : A -> M B) :
  quiet m -> (forall a, quiet (k a)) -> quiet (bind m k).
Proof.
  intros Hm Hk w. destruct (Hm w) as (a & sh & E).
  destruct (Hk a (mkWorld sh (GAME_DATA w) (exchanges w) (endpoint w)))
    as (b & sh' & E').
  exists b, sh'. unfold bind. rewrite E, E'. reflexivity.
Qed.

Lemma quiet_try_catch (A : Type) (m : M A) (h : exn -> M A) :
  quiet m -> quiet (try_catch m h).
Proof.
  intros Hm w. destruct (Hm w) as (a & sh & E).
  exists a, sh. unfold try_catch. now rewrite E.
Qed.

Lemma quiet_forEach (A : Type) (f : A -> M unit) (l : list A) :
  (forall x, quiet (f x)) -> quiet (forEach f l).
Proof.
  intros Hf. induction l as [|x l IH]; simpl.
  - apply quiet_ret.
  - apply quiet_bind; [apply Hf|intros _; exact IH].
Qed.

Lemma quiet_when (b : bool) (m : M unit) : quiet m -> quiet (when b m).
Proof. intros H. destruct b; simpl; [exact H|apply quiet_ret]. Qed.

Lemma quiet_calm (A : Type) (m : M A) : quiet m -> calm m.
Proof.
  intros H w. destruct (H w) as (a & sh & E).
  exists (Ok a), sh, []. split; [exact E|constructor].
Qed.

Lemma calm_bind (A B : Type) (m : M A) (k : A -> M B) :
  calm m -> (forall a, calm (k a)) -> calm (bind m k).
Proof.
  intros Hm Hk w. destruct (Hm w) as (out & sh & new & E & Hn).
  unfold bind. rewrite E. destruct out as [a|e].
  - destruct (Hk a (mkWorld sh (GAME_DATA w) (new ++ exchanges w) (endpoint w)))
      as (out' & sh' & new' & E' & Hn').
    simpl in E'. exists out', sh', (new' ++ new). rewrite E', <- app_assoc.
    split; [reflexivity|]. apply Forall_app. auto.
  - exists (Throw e), sh, new. auto.
Qed.

Lemma calm_try_catch (A : Type) (m : M A) (h : exn -> M A) :
  calm m -> (forall e, calm (h e)) -> calm (try_catch m h).
Proof.
  intros Hm Hh w. destruct (Hm w) as (out & sh & new & E & Hn).
  unfold try_catch. rewrite E. destruct out as [a|e].
  - exists (Ok a), sh, new. auto.
  - destruct (Hh e (mkWorld sh (GAME_DATA w) (new ++ exchanges w) (endpoint w)))
      as (out' & sh' & new' & E' & Hn').
    simpl in E'. exists out', sh', (new' ++ new). rewrite E', <- app_assoc.
    split; [reflexivity|]. apply Forall_app. auto.
Qed.

Lemma calm_forEach (A : Type) (f : A -> M unit) (l : list A) :
  (forall x, calm (f x)) -> calm (forEach f l).
Proof.
  intros Hf. induction l as [|x l IH]; simpl.
  - apply quiet_calm, quiet_ret.
  - apply calm_bind; [apply Hf|intros _; exact IH].
Qed.

Lemma calm_lift (A : Type) (o : outcome A) : calm (lift o).
Proof.
  intros w. exists o, (sheet w), []. simpl. unfold lift.
  rewrite <- world_eta. split; [reflexivity|constructor].
Qed.

Lemma calm_throw (A : Type) (e : exn) : calm (@throw A e).
Proof. apply (calm_lift A (Throw e)). Qed.

Lemma calm_fetch (req : request) : isCombined req = false -> calm (fetch req).
Proof.
  intros Hreq w. unfold fetch.
  destruct (endpoint w (exchanges w) req) as [e|r] eqn:E.
  - exists (Throw e), (sheet w), [(req, FetchThrows e)]. split; [reflexivity|].
    repeat constructor. exact Hreq.
  - exists (Ok r), (sheet w), [(req, Responded r)]. split; [reflexivity|].
    repeat constructor. exact Hreq.
Qed.

End Effects.

Create HintDb effects.
#[export] Hint Resolve quiet_ret quiet_setCell quiet_bind quiet_try_catch quiet_forEach
  quiet_when : effects.

Ltac quiet_tac :=
  repeat first
    [ progress cbv zeta
    | solve [auto 1 with effects nocore]
    | match goal with
      | |- quiet (bind _ _) => apply quiet_bind; [|intros ?]
      | |- quiet (try_catch _ _) => apply quiet_try_catch
      | |- quiet (forEach _ _) => apply quiet_forEach; intros ?
      | |- quiet (when _ _) => apply quiet_when
      | |- quiet (if ?b then _ else _) => destruct b
      end ].

Lemma quiet_clearSyncStatusForRows (rowNumbers : list nat) :
  quiet (clearSyncStatusForRows rowNumbers).
Proof. unfold clearSyncStatusForRows. quiet_tac. Qed.

Lemma quiet_updateRowAfterSuccessfulDelete (r : nat) :
  quiet (updateRowAfterSuccessfulDelete r).
Proof. unfold updateRowAfterSuccessfulDelete. quiet_tac. Qed.

Lemma quiet_updateRowWithError (r : nat) (msg : string) :
  quiet (updateRowWithError r msg).
Proof. unfold updateRowWithError. quiet_tac. Qed.

#[export] Hint Resolve quiet_clearSyncStatusForRows quiet_updateRowAfterSuccessfulDelete
  quiet_updateRowWithError : effects.

Lemma quiet_updateSyncStatusForChanges (cs : list change) (status : string) :
  quiet (updateSyncStatusForChanges cs status).
Proof. unfold updateSyncStatusForChanges. quiet_tac. Qed.

Lemma quiet_updateRowsAfterSuccess (cs : list change) :
  quiet (updateRowsAfterSuccess cs).
Proof. unfold updateRowsAfterSuccess. quiet_tac. Qed.

Lemma quiet_updateRowsAfterFailure (cs : list change) (code : nat) (text : string) :
  quiet (updateRowsAfterFailure cs code text).
Proof. unfold updateRowsAfterFailure. quiet_tac. Qed.

Lemma quiet_markDeleteTargets (ds : list change) (msg : string) :
  quiet (markDeleteTargets ds msg).
Proof. unfold markDeleteTargets. quiet_tac. Qed.

Lemma quiet_markCleared (status msg : string) (cr : clearedRow) :
  quiet (markCleared status msg cr).
Proof. unfold markCleared. quiet_tac. Qed.

#[export] Hint Resolve quiet_updateSyncStatusForChanges quiet_updateRowsAfterSuccess
  quiet_updateRowsAfterFailure quiet_markDeleteTargets quiet_markCleared : effects.

Lemma calm_fetch_create (u : string) (d : list (string * string)) (r : nat) :
  calm (fetch (CREATE_HUBDB_ROW u d r)).
Proof. now apply calm_fetch. Qed.

Lemma calm_fetch_batch (ids : list string) (s r : string) (n : nat) :
  calm (fetch (BATCH_DELETE_HUBDB_ROWS ids s r n)).
Proof. now apply calm_fetch. Qed.

Lemma calm_fetch_delete (id : string) (r : nat) :
  calm (fetch (DELETE_HUBDB_ROW id r)).
Proof. now apply calm_fetch. Qed.

#[export] Hint Resolve calm_lift calm_throw calm_fetch_create calm_fetch_batch
  calm_fetch_delete : effects.

Ltac calm_tac :=
  repeat first
    [ progress cbv zeta
    | solve [auto 1 with effects nocore]
    | apply quiet_calm; solve [auto 1 with effects nocore]
    | match goal with
      | |- calm (bind _ _) => apply calm_bind; [|intros ?]
      | |- calm (try_catch _ _) => apply calm_try_catch; [|intros ?]
      | |- calm (forEach _ _) => apply calm_forEach; intros ?
      | |- calm (if ?b then _ else _) => destruct b
      | |- calm (match ?x with _ => _ end) => destruct x
      | |- calm (when ?b _) => destruct b; simpl
      end ].

Lemma calm_handleSingleClearedRow (cr : clearedRow) : calm (handleSingleClearedRow cr).
Proof. unfold handleSingleClearedRow. calm_tac. Qed.

#[export] Hint Resolve calm_handleSingleClearedRow : effects.

Lemma calm_handleBatchClearedRows (crs : list clearedRow) :
  calm (handleBatchClearedRows crs).
Proof. unfold handleBatchClearedRows. calm_tac. Qed.

#[export] Hint Resolve calm_handleBatchClearedRows : effects.

Lemma calm_handleClearedRows (crs : list clearedRow) : calm (handleClearedRows crs).
Proof. unfold handleClearedRows. calm_tac. Qed.

Lemma calm_handleBatchDeleteSuccess (ds : list change) (r : HTTPResponse) :
  calm (handleBatchDeleteSuccess ds r).
Proof. unfold handleBatchDeleteSuccess. calm_tac. Qed.

#[export] Hint Resolve calm_handleBatchDeleteSuccess : effects.

Lemma calm_processBatchDeletes (ds os : list change) : calm (processBatchDeletes ds os).
Proof.
  unfold processBatchDeletes, handleBatchDeleteFailure, handleBatchDeleteError.
  calm_tac.
Qed.

Lemma calm_createOneRow (ri : rowInfo) : calm (createOneRow ri).
Proof. unfold createOneRow. calm_tac. Qed.

#[export] Hint Resolve calm_createOneRow : effects.

Lemma calm_createHubDBRows (rows : list rowInfo) : calm (createHubDBRows rows).
Proof. unfold createHubDBRows. calm_tac. Qed.

(** ** Dispatch *)

Lemma try_catch_rethrow (A : Type) (m : M A) (w : world) :
  try_catch m (fun error => throw error) w = m w.
Proof.
  unfold try_catch, throw. destruct (m w) as [[a|e] w']; reflexivity.
Qed.

Lemma processIndividualOperations_spec (otherChanges : list change) (w : world) :
  let req := gameData (map toOperation otherChanges) in
  let res := endpoint w (exchanges w) req in
  exists out sh,
    processIndividualOperations otherChanges w
    = (out, mkWorld sh (GAME_DATA w) ((req, res) :: exchanges w) (endpoint w))
    /\ (failedFetch res = true -> exists e, out = Throw e).
Proof.
  cbv zeta. unfold processIndividualOperations.
  destruct (quiet_updateSyncStatusForChanges otherChanges "syncing" w) as (u & sh1 & E1).
  unfold bind at 1. rewrite E1.
  unfold bind at 1. unfold fetch. cbn [sheet GAME_DATA exchanges endpoint].
  destruct (endpoint w (exchanges w) (gameData (map toOperation otherChanges)))
    as [e|r] eqn:E.
  - exists (Throw e), sh1. split; [reflexivity|]. eauto.
  - cbv zeta. destruct (is2xx (getResponseCode r)) eqn:E2.
    + destruct (quiet_updateRowsAfterSuccess otherChanges
                  (mkWorld sh1 (GAME_DATA w)
                     ((gameData (map toOperation otherChanges), Responded r)
                        :: exchanges w) (endpoint w))) as (u2 & sh2 & E3).
      unfold bind. rewrite E3. cbn [sheet GAME_DATA exchanges endpoint].
      exists (parsed r), sh2. split; [reflexivity|].
      simpl. rewrite E2. discriminate.
    + destruct (quiet_updateRowsAfterFailure otherChanges (getResponseCode r)
                  (getContentText r)
                  (mkWorld sh1 (GAME_DATA w)
                     ((gameData (map toOperation otherChanges), Responded r)
                        :: exchanges w) (endpoint w))) as (u2 & sh2 & E3).
      unfold bind. rewrite E3. cbn [sheet GAME_DATA exchanges endpoint].
      eexists _, sh2. split; [reflexivity|]. eauto.
Qed.

(** The individual-operations list [sendToHubSpot] ends up with is sent, if
    at all, as the last request; a failure of that request is thrown. *)
Lemma sendToHubSpot_spec (cs : list change) (w : world) :
  exists out sh new,
    sendToHubSpot cs w
    = (out, mkWorld sh (GAME_DATA w) (new ++ exchanges w) (endpoint w))
    /\ (forall ops res, In (gameData ops, res) new -> failedFetch res = true ->
          exists e, out = Throw e).
Proof.
  unfold sendToHubSpot. rewrite try_catch_rethrow.
  set (rowsToProcess := map rowOf (filter (fun c => negb (rowOf c =? 0)%nat) cs)).
  set (deleteChanges := filter isDeleted cs).
  set (otherChanges := filter (fun c => negb (isDeleted c)) cs).
  destruct (quiet_when (0 <? length rowsToProcess)%nat _
              (quiet_clearSyncStatusForRows rowsToProcess) w) as (u & sh1 & E1).
  unfold bind at 1. rewrite E1.
  assert (Hcalm : calm (if (1 <? length deleteChanges)%nat
                        then processBatchDeletes deleteChanges otherChanges
                        else if (length deleteChanges =? 1)%nat
                             then ret (otherChanges ++ deleteChanges)
                             else ret otherChanges)).
  { destruct (1 <? length deleteChanges)%nat; [apply calm_processBatchDeletes|].
    destruct (length deleteChanges =? 1)%nat; apply quiet_calm, quiet_ret. }
  destruct (Hcalm (mkWorld sh1 (GAME_DATA w) (exchanges w) (endpoint w)))
    as (out2 & sh2 & new2 & E2 & Hn2).
  cbn [sheet GAME_DATA exchanges endpoint] in E2.
  unfold bind at 1. rewrite E2.
  destruct out2 as [oc|e].
  - destruct (0 <? length oc)%nat.
    + destruct (processIndividualOperations_spec oc
                  (mkWorld sh2 (GAME_DATA w) (new2 ++ exchanges w) (endpoint w)))
        as (out3 & sh3 & E3 & H3).
      cbn [sheet GAME_DATA exchanges endpoint] in E3, H3.
      rewrite E3. exists out3, sh3, ((gameData (map toOperation oc),
        endpoint w (new2 ++ exchanges w) (gameData (map toOperation oc))) :: new2).
      split; [reflexivity|].
      intros ops res [Hhd|Hin] Hfail.
      * injection Hhd as <- <-. auto.
      * rewrite Forall_forall in Hn2. apply Hn2 in Hin. discriminate.
    + exists (Ok (JObj [("message", JStr "All operations completed")])), sh2, new2.
      split; [reflexivity|].
      intros ops res Hin _. rewrite Forall_forall in Hn2. apply Hn2 in Hin. discriminate.
  - exists (Throw e), sh2, new2. split; [reflexivity|]. eauto.
Qed.

(** Every element of the [gameData] array carries its change's type,
    [uniqueId], [newData], [oldData] and [changedFields], and as [sheetRow]
    the change's row, else the row of its baseline record, else [null]. *)
Lemma toOperation_fields (l : list change) :
  Forall2 (fun c op =>
             op_operation op = type c
             /\ op_uniqueId op = uniqueId c
             /\ op_data op = newData c
             /\ op_oldData op = oldData c
             /\ op_changedFields op = changedFields c
             /\ op_sheetRow op = match row c, oldData c with
                                 | Some (S r), _ => Some (S r)
                                 | _, Some stored =>
                                     match sheetRow stored with
                                     | S r => Some (S r)
                                     | 0 => None
                                     end
                                 | _, None => None
                                 end)
          l (map toOperation l).
Proof.
  induction l as [|c l IH]; cbn [map]; constructor; [|exact IH].
  cbn [toOperation op_operation op_uniqueId op_data op_oldData op_changedFields
       op_sheetRow].
  repeat (split; [reflexivity|]).
  unfold targetRow, rowOf, oldSheetRow.
  destruct (row c) as [[|r]|]; destruct (oldData c) as [stored|]; cbn;
    try reflexivity; destruct (sheetRow stored); reflexivity.
Qed.

(** C6. When the dispatched changes contain exactly one DELETED change, the
    only request [sendToHubSpot] issues is the combined one: no batch delete
    is requested.  Its operations are, in order, those of the non-delete
    changes followed by that of the delete, each carrying its change's type,
    [uniqueId], [newData], [oldData], [changedFields] and row; so the delete
    is delivered as a DELETED operation with its [uniqueId] and baseline
    record. *)
Theorem C6_single_delete_goes_individually (cs : list change) (d : change) (w : world) :
  filter isDeleted cs = [d] ->
  let otherChanges := filter (fun c => negb (isDeleted c)) cs in
  let req := gameData (map toOperation (otherChanges ++ [d])) in
  exists out sh,
    sendToHubSpot cs w
    = (out, mkWorld sh (GAME_DATA w)
              ((req, endpoint w (exchanges w) req) :: exchanges w) (endpoint w))
    /\ In (toOperation d) (map toOperation (otherChanges ++ [d]))
    /\ Forall2 (fun c op =>
                  op_operation op = type c
                  /\ op_uniqueId op = uniqueId c
                  /\ op_data op = newData c
                  /\ op_oldData op = oldData c
                  /\ op_changedFields op = changedFields c
                  /\ op_sheetRow op = match row c, oldData c with
                                      | Some (S r), _ => Some (S r)
                                      | _, Some stored =>
                                          match sheetRow stored with
                                          | S r => Some (S r)
                                          | 0 => None
                                          end
                                      | _, None => None
                                      end)
               (otherChanges ++ [d]) (map toOperation (otherChanges ++ [d]))
    /\ op_operation (toOperation d) = DELETED
    /\ op_uniqueId (toOperation d) = uniqueId d
    /\ op_oldData (toOperation d) = oldData d.
Proof.
  intros Hd. cbv zeta. unfold sendToHubSpot. rewrite try_catch_rethrow.
  rewrite Hd.
  change (1 <? length [d])%nat with false.
  change (length [d] =? 1)%nat with true. cbv iota.
  set (rowsToProcess := map rowOf (filter (fun c => negb (rowOf c =? 0)%nat) cs)).
  set (otherChanges := filter (fun c => negb (isDeleted c)) cs).
  destruct (quiet_when (0 <? length rowsToProcess)%nat _
              (quiet_clearSyncStatusForRows rowsToProcess) w) as (u & sh1 & E1).
  unfold bind at 1. rewrite E1.
  unfold bind at 1. unfold ret at 1.
  assert (Hlen : (0 <? length (otherChanges ++ [d]))%nat = true).
  { rewrite length_app. simpl. apply Nat.ltb_lt. lia. }
  rewrite Hlen.
  destruct (processIndividualOperations_spec (otherChanges ++ [d])
              (mkWorld sh1 (GAME_DATA w) (exchanges w) (endpoint w)))
    as (out3 & sh3 & E3 & _).
  cbn [sheet GAME_DATA exchanges endpoint] in E3.
  exists out3, sh3. split; [exact E3|].
  split; [apply in_map, in_or_app; right; now left|].
  assert (Hdel : isDeleted d = true).
  { assert (Hin : In d (filter isDeleted cs)) by (rewrite Hd; now left).
    now apply filter_In in Hin. }
  split; [|split; [|split; reflexivity]].
  - apply toOperation_fields.
  - cbn [toOperation op_operation]. unfold isDeleted in Hdel.
    destruct (type d); try discriminate Hdel. reflexivity.
Qed.

(** ** The sync cycle *)

Lemma no_combined_in (new : list exchange) (ops : list operation) (res : fetched) :
  Forall (fun x : exchange => isCombined (fst x) = false) new ->
  ~ In (gameData ops, res) new.
Proof.
  intros H Hin. rewrite Forall_forall in H. apply H in Hin. discriminate.
Qed.

Lemma bind_ok (A B : Type) (m : M A) (k : A -> M B) (w w' : world) (a : A) :
  m w = (Ok a, w') -> bind m k w = k a w'.
Proof. intros E. unfold bind. now rewrite E. Qed.

Lemma bind_throw (A B : Type) (m : M A) (k : A -> M B) (w w' : world) (e : exn) :
  m w = (Throw e, w') -> bind m k w = (Throw e, w').
Proof. intros E. unfold bind. now rewrite E. Qed.

Lemma calm_when_handleClearedRows (clearedRows : list clearedRow) :
  calm (when (0 <? length clearedRows)%nat (handleClearedRows clearedRows)).
Proof.
  destruct (0 <? length clearedRows)%nat; simpl;
    [apply calm_handleClearedRows|apply quiet_calm, quiet_ret].
Qed.

(** The [try] block of a cycle that selects no row for creation: the stored
    snapshot survives whenever a combined request failed. *)
Lemma syncAllData_body_spec (w : world) :
  rowsNeedingCreationIn w = [] ->
  exists out sh store new,
    syncAllData_body w = (out, mkWorld sh store (new ++ exchanges w) (endpoint w))
    /\ ((exists ops res, In (gameData ops, res) new /\ failedFetch res = true) ->
        store = GAME_DATA w).
Proof.
  unfold rowsNeedingCreationIn, syncAllData_body. intros Hrows.
  rewrite (bind_ok _ _ _ _ w w tt) by reflexivity.
  destruct (getAllSheetData (sheet w) (getLastRow (sheet w)))
    as [[allData clearedRows]|e] eqn:Eg.
  2:{ rewrite (bind_throw _ _ _ _ w w e) by now rewrite Eg.
      exists (Throw e), (sheet w), (GAME_DATA w), []. simpl.
      rewrite <- world_eta. split; [reflexivity|]. intros (? & ? & [] & _). }
  rewrite (bind_ok _ _ _ _ w w (allData, clearedRows)) by now rewrite Eg.
  cbv beta iota.
  destruct (calm_when_handleClearedRows clearedRows w) as (out1 & sh1 & new1 & E1 & Hn1).
  destruct out1 as [u|e].
  2:{ rewrite (bind_throw _ _ _ _ _ _ e E1).
      exists (Throw e), sh1, (GAME_DATA w), new1. auto. }
  rewrite (bind_ok _ _ _ _ _ _ u E1).
  set (w1 := mkWorld sh1 (GAME_DATA w) (new1 ++ exchanges w) (endpoint w)).
  rewrite (bind_ok _ _ getStoredData _ w1 w1 (storedSnapshot w)) by reflexivity.
  cbv zeta. rewrite Hrows.
  change (0 <? length (@nil rowInfo))%nat with false.
  change (length (@nil rowInfo) =? 0)%nat with true.
  rewrite (bind_ok _ _ (when false _) _ w1 w1 tt) by reflexivity.
  set (changes := detectChanges allData (storedSnapshot w)).
  destruct (0 <? length changes)%nat.
  2:{ exists (Ok tt), sh1, (GAME_DATA w), new1. split; [reflexivity|].
      intros (ops & res & Hin & _). now apply no_combined_in in Hin. }
  set (cw := filter hasHubDBId changes).
  destruct (0 <? length cw)%nat.
  - destruct (sendToHubSpot_spec cw w1) as (out2 & sh2 & new2 & E2 & H2).
    cbn [sheet GAME_DATA exchanges endpoint w1] in E2.
    destruct out2 as [j|e].
    + rewrite (bind_ok _ _ (when true _) _ w1 _ tt)
        by (unfold when; rewrite (bind_ok _ _ _ _ _ _ j E2); reflexivity).
      exists (Ok tt), sh2, (Some allData), (new2 ++ new1).
      rewrite <- app_assoc. split; [reflexivity|].
      intros (ops & res & Hin & Hfail). apply in_app_or in Hin.
      destruct Hin as [Hin|Hin].
      * destruct (H2 ops res Hin Hfail) as (e & He). discriminate.
      * now apply no_combined_in in Hin.
    + rewrite (bind_throw _ _ (when true _) _ w1 _ e)
        by (unfold when; rewrite (bind_throw _ _ _ _ _ _ e E2); reflexivity).
      exists (Throw e), sh2, (GAME_DATA w), (new2 ++ new1).
      rewrite <- app_assoc. split; [reflexivity|]. reflexivity.
  - rewrite (bind_ok _ _ (when false _) _ w1 w1 tt) by reflexivity.
    exists (Ok tt), sh1, (Some allData), new1. split; [reflexivity|].
    intros (ops & res & Hin & _). now apply no_combined_in in Hin.
Qed.

(** C1, as the code has it.  In a cycle that selects no row for HubDB row
    creation, a failed combined request (the fetch throws or the response is
    not 2xx) leaves the stored snapshot as it was, so [detectChanges] against
    it gives the same changes as before the cycle. *)
Theorem C1_failed_dispatch_keeps_baseline (w : world) (new : list exchange) :
  rowsNeedingCreationIn w = [] ->
  exchanges (syncAllData w) = new ++ exchanges w ->
  (exists ops res, In (gameData ops, res) new /\ failedFetch res = true) ->
  GAME_DATA (syncAllData w) = GAME_DATA w
  /\ forall cur, detectChanges cur (storedSnapshot (syncAllData w))
                 = detectChanges cur (storedSnapshot w).
Proof.
  intros Hrows Hnew Hfail.
  assert (Hgoal : GAME_DATA (syncAllData w) = GAME_DATA w);
    [|split; [exact Hgoal|intros cur; unfold storedSnapshot; now rewrite Hgoal]].
  destruct (syncAllData_body_spec w Hrows) as (out & sh & store & new' & E & Hstore).
  revert Hnew. unfold syncAllData, try_catch. rewrite E.
  destruct out as [u|e]; cbn [snd exchanges GAME_DATA ret];
    intros Hnew; apply app_inv_tail in Hnew; subst new'; auto.
Qed.

(** ** Batch delete *)

Lemma filterThrowing_entries (entries : list (string * string)) :
  filterThrowing statusIsSuccess (map resultEntry entries)
  = Ok (map resultEntry (filter (fun e => snd e =? "success") entries)).
Proof.
  induction entries as [|[id st] entries IH]; [reflexivity|].
  cbn [map filterThrowing filter snd]. rewrite IH.
  unfold statusIsSuccess, resultEntry at 1. cbn [js_field assoc fst snd].
  change ("status" =? "hubdbId") with false. change ("status" =? "status") with true.
  cbv iota. destruct (st =? "success"); reflexivity.
Qed.

Lemma someHubdbId_entries (entries : list (string * string)) (id : string) :
  someHubdbId (map resultEntry entries) id = existsb (fun e => fst e =? id) entries.
Proof.
  unfold someHubdbId. induction entries as [|[id' st] entries IH]; [reflexivity|].
  cbn [map existsb]. rewrite IH. reflexivity.
Qed.

Lemma wasDeleted_iff (entries : list (string * string)) (id : string) :
  someHubdbId (map resultEntry (filter (fun e => snd e =? "success") entries)) id = true
  <-> In (id, "success") entries.
Proof.
  rewrite someHubdbId_entries, existsb_exists. split.
  - intros ([id' st] & Hin & Hid). apply filter_In in Hin. destruct Hin as [Hin Hst].
    simpl in *. apply String.eqb_eq in Hid, Hst. now subst.
  - intros Hin. exists (id, "success"). split.
    + apply filter_In. split; [exact Hin|reflexivity].
    + apply String.eqb_refl.
Qed.

(** C5. A batch delete of three DELETED changes whose 2xx response has
    [success] set and reports the first and third id with status
    ["success"] but not the second: the first and third rows get their
    HubDB row id cleared and status ["deleted"], the second row gets status
    ["error"] and keeps its id, the batch request is the only request sent and
    the individual-operations list comes back unchanged. *)
Theorem C5_partial_batch_delete (w : world) (kA kB kC : string) (a b c : record)
    (otherChanges : list change) (r : HTTPResponse) (fields : list (string * json))
    (entries : list (string * string)) :
  let deleteChanges := [deletedChange kA a; deletedChange kB b; deletedChange kC c] in
  hubdbRowId a <> "" -> hubdbRowId b <> "" -> hubdbRowId c <> "" ->
  sheetRow a <> 0 -> sheetRow b <> 0 -> sheetRow c <> 0 ->
  sheetRow a <> sheetRow b -> sheetRow a <> sheetRow c -> sheetRow b <> sheetRow c ->
  endpoint w (exchanges w) (batchDeleteRequest deleteChanges) = Responded r ->
  is2xx (getResponseCode r) = true ->
  parsed r = Ok (JObj fields) ->
  js_truthy (assoc "success" fields) = true ->
  assoc "results" fields = Some (JArr (map resultEntry entries)) ->
  In (hubdbRowId a, "success") entries ->
  ~ In (hubdbRowId b, "success") entries ->
  In (hubdbRowId c, "success") entries ->
  batchDeleteRequest deleteChanges
  = BATCH_DELETE_HUBDB_ROWS [hubdbRowId a; hubdbRowId b; hubdbRowId c]
      "google_sheets_sync_batch" "data_changes" 3
  /\ exists sh,
      processBatchDeletes deleteChanges otherChanges w
      = (Ok otherChanges,
         mkWorld sh (GAME_DATA w)
           ((batchDeleteRequest deleteChanges, Responded r) :: exchanges w) (endpoint w))
      /\ getValue sh (sheetRow a) HUBDB_ROW_ID_COLUMN = ""
      /\ statusOf sh (sheetRow a) = "deleted"
      /\ getValue sh (sheetRow c) HUBDB_ROW_ID_COLUMN = ""
      /\ statusOf sh (sheetRow c) = "deleted"
      /\ statusOf sh (sheetRow b) = "error"
      /\ getValue sh (sheetRow b) HUBDB_ROW_ID_COLUMN
         = getValue (sheet w) (sheetRow b) HUBDB_ROW_ID_COLUMN.
Proof.
  intros deleteChanges Ha Hb Hc Ra Rb Rc Rab Rac Rbc Hep H2xx Hparsed Hsucc Hres
         Ia Ib Ic.
  apply truthy_true in Ha, Hb, Hc.
  apply Nat.eqb_neq in Ra, Rb, Rc.
  assert (Rba : sheetRow b <> sheetRow a) by congruence.
  assert (Rca : sheetRow c <> sheetRow a) by congruence.
  assert (Rcb : sheetRow c <> sheetRow b) by congruence.
  apply Nat.eqb_neq in Rab, Rac, Rbc, Rba, Rca, Rcb.
  apply wasDeleted_iff in Ia, Ic.
  rewrite <- wasDeleted_iff in Ib. apply not_true_is_false in Ib.
  split.
  { unfold batchDeleteRequest, deleteChanges.
    cbn [map filter length oldHubdbRowId deletedChange oldData].
    now rewrite Ha, Hb, Hc. }
  unfold processBatchDeletes. fold (batchDeleteRequest deleteChanges).
  assert (E1 : updateSyncStatusForChanges deleteChanges "syncing" w
               = (Ok tt, mkWorld
                    (setValue (sheetRow c) SYNC_STATUS_ID_COLUMN "syncing"
                       (setValue (sheetRow b) SYNC_STATUS_ID_COLUMN "syncing"
                          (setValue (sheetRow a) SYNC_STATUS_ID_COLUMN "syncing" (sheet w))))
                    (GAME_DATA w) (exchanges w) (endpoint w))).
  { unfold updateSyncStatusForChanges, deleteChanges, targetRow.
    cbn [forEach rowOf row deletedChange oldSheetRow oldData Nat.eqb].
    rewrite Ra, Rb, Rc. reflexivity. }
  unfold try_catch. rewrite (bind_ok _ _ _ _ _ _ tt E1).
  set (sh1 := setValue (sheetRow c) SYNC_STATUS_ID_COLUMN "syncing" _).
  assert (E2 : fetch (batchDeleteRequest deleteChanges)
                 (mkWorld sh1 (GAME_DATA w) (exchanges w) (endpoint w))
               = (Ok r, mkWorld sh1 (GAME_DATA w)
                          ((batchDeleteRequest deleteChanges, Responded r) :: exchanges w)
                          (endpoint w))).
  { unfold fetch. cbn [sheet GAME_DATA exchanges endpoint]. now rewrite Hep. }
  rewrite (bind_ok _ _ _ _ _ _ r E2). rewrite H2xx.
  set (w2 := mkWorld sh1 _ _ _).
  set (sh3 :=
         setValue (sheetRow c) SYNC_MESSAGE_ID_COLUMN "Successfully deleted from HubDB"
           (setValue (sheetRow c) SYNC_STATUS_ID_COLUMN "deleted"
              (setValue (sheetRow c) HUBDB_ROW_ID_COLUMN ""
                 (setValue (sheetRow b) SYNC_MESSAGE_ID_COLUMN "Batch deletion failed"
                    (setValue (sheetRow b) SYNC_STATUS_ID_COLUMN "error"
                       (setValue (sheetRow a) SYNC_MESSAGE_ID_COLUMN
                                 "Successfully deleted from HubDB"
                          (setValue (sheetRow a) SYNC_STATUS_ID_COLUMN "deleted"
                             (setValue (sheetRow a) HUBDB_ROW_ID_COLUMN "" sh1)))))))).
  assert (E3 : handleBatchDeleteSuccess deleteChanges r w2
               = (Ok tt, mkWorld sh3 (GAME_DATA w)
                           ((batchDeleteRequest deleteChanges, Responded r) :: exchanges w)
                           (endpoint w))).
  { unfold handleBatchDeleteSuccess.
    rewrite (bind_ok _ _ (lift (parsed r)) _ w2 w2 (JObj fields))
      by (unfold lift; now rewrite Hparsed).
    rewrite (bind_ok _ _ (lift (js_field (JObj fields) "success")) _ w2 w2
               (assoc "success" fields)) by reflexivity.
    rewrite Hsucc.
    rewrite (bind_ok _ _ (lift (successfulDeletionsOf (JObj fields))) _ w2 w2
               (map resultEntry (filter (fun e => snd e =? "success") entries)))
      by (unfold lift, successfulDeletionsOf; cbn [js_field];
          now rewrite Hres, filterThrowing_entries).
    unfold deleteChanges.
    cbn [forEach oldSheetRow oldHubdbRowId oldData deletedChange].
    rewrite Ra, Rb, Rc, Ia, Ib, Ic. reflexivity. }
  rewrite (bind_ok _ _ _ _ _ _ tt E3). unfold ret.
  exists sh3. split; [reflexivity|].
  unfold statusOf, sh3, sh1, setValue, getValue, HUBDB_ROW_ID_COLUMN,
    SYNC_STATUS_ID_COLUMN, SYNC_MESSAGE_ID_COLUMN.
  rewrite ?Nat.eqb_refl, ?Rab, ?Rac, ?Rbc, ?Rba, ?Rca, ?Rcb.
  cbn [Nat.eqb andb]. rewrite ?andb_false_r. cbn [andb].
  repeat split; reflexivity.
Qed.

(** *** Failures of the batch request *)

Lemma statusOf_marked (sh : Sheet) (row : nat) (msg : string) (r : nat) :
  statusOf (setValue row SYNC_MESSAGE_ID_COLUMN msg
              (setValue row SYNC_STATUS_ID_COLUMN "error" sh)) r
  = if (r =? row)%nat then "error" else statusOf sh r.
Proof.
  unfold statusOf, setValue. cbn [getValue].
  change (SYNC_STATUS_ID_COLUMN =? SYNC_MESSAGE_ID_COLUMN)%nat with false.
  change (SYNC_STATUS_ID_COLUMN =? SYNC_STATUS_ID_COLUMN)%nat with true.
  rewrite andb_false_r, andb_true_r. reflexivity.
Qed.

(** [markDeleteTargets] leaves every delete target with status ["error"]. *)
Lemma markDeleteTargets_spec (ds : list change) (msg : string) (w : world) :
  exists sh,
    markDeleteTargets ds msg w
    = (Ok tt, mkWorld sh (GAME_DATA w) (exchanges w) (endpoint w))
    /\ (forall d, In d ds -> oldSheetRow d <> 0 -> statusOf sh (oldSheetRow d) = "error")
    /\ (forall r, statusOf (sheet w) r = "error" -> statusOf sh r = "error").
Proof.
  revert w. induction ds as [|d ds IH]; intros w.
  - exists (sheet w). unfold markDeleteTargets, forEach, ret.
    rewrite <- world_eta. split; [reflexivity|]. split; [intros d []|auto].
  - unfold markDeleteTargets. cbn [forEach]. fold (markDeleteTargets ds msg).
    destruct (Nat.eqb_spec (oldSheetRow d) 0) as [E0|E0]; cbn [negb when].
    + rewrite (bind_ok _ _ _ _ w w tt) by reflexivity.
      destruct (IH w) as (sh & E & Hm & Hp). exists sh. split; [exact E|].
      split; [|exact Hp]. intros d' [<-|Hin] Hrow; [contradiction|auto].
    + set (w1 := mkWorld (setValue (oldSheetRow d) SYNC_MESSAGE_ID_COLUMN msg
                            (setValue (oldSheetRow d) SYNC_STATUS_ID_COLUMN "error"
                               (sheet w)))
                         (GAME_DATA w) (exchanges w) (endpoint w)).
      rewrite (bind_ok _ _ _ _ w w1 tt) by reflexivity.
      destruct (IH w1) as (sh & E & Hm & Hp). exists sh. split; [exact E|].
      assert (Hp1 : forall r, statusOf (sheet w) r = "error"
                              -> statusOf (sheet w1) r = "error").
      { intros r Hr. unfold w1. cbn [sheet]. rewrite statusOf_marked.
        now destruct (r =? oldSheetRow d)%nat. }
      split.
      * intros d' [<-|Hin] Hrow; [|auto].
        apply Hp. unfold w1. cbn [sheet]. rewrite statusOf_marked.
        now rewrite Nat.eqb_refl.
      * auto.
Qed.

(** A batch delete answered with a non-2xx response: every target is marked
    and the deletes join the individual operations. *)
Lemma batch_http_failure_falls_back (w : world) (ds os : list change) (r : HTTPResponse) :
  endpoint w (exchanges w) (batchDeleteRequest ds) = Responded r ->
  is2xx (getResponseCode r) = false ->
  exists sh,
    processBatchDeletes ds os w
    = (Ok (os ++ ds),
       mkWorld sh (GAME_DATA w) ((batchDeleteRequest ds, Responded r) :: exchanges w)
               (endpoint w))
    /\ forall d, In d ds -> oldSheetRow d <> 0 -> statusOf sh (oldSheetRow d) = "error".
Proof.
  intros Hep Hcode. unfold processBatchDeletes. fold (batchDeleteRequest ds).
  destruct (quiet_updateSyncStatusForChanges ds "syncing" w) as (u & sh1 & E1).
  unfold try_catch. rewrite (bind_ok _ _ _ _ _ _ u E1).
  set (w2 := mkWorld sh1 (GAME_DATA w)
                     ((batchDeleteRequest ds, Responded r) :: exchanges w) (endpoint w)).
  rewrite (bind_ok _ _ (fetch _) _ _ w2 r)
    by (unfold fetch; cbn [sheet GAME_DATA exchanges endpoint]; now rewrite Hep).
  rewrite Hcode. unfold handleBatchDeleteFailure.
  destruct (markDeleteTargets_spec ds
              ("HTTP " ++ decimal (getResponseCode r) ++ ": " ++ getContentText r) w2)
    as (sh & E & Hm & _).
  rewrite (bind_ok _ _ _ _ _ _ tt E). exists sh. split; [reflexivity|exact Hm].
Qed.

(** A batch delete whose fetch throws: the same fallback. *)
Lemma batch_exception_falls_back (w : world) (ds os : list change) (e : exn) :
  endpoint w (exchanges w) (batchDeleteRequest ds) = FetchThrows e ->
  exists sh,
    processBatchDeletes ds os w
    = (Ok (os ++ ds),
       mkWorld sh (GAME_DATA w) ((batchDeleteRequest ds, FetchThrows e) :: exchanges w)
               (endpoint w))
    /\ forall d, In d ds -> oldSheetRow d <> 0 -> statusOf sh (oldSheetRow d) = "error".
Proof.
  intros Hep. unfold processBatchDeletes. fold (batchDeleteRequest ds).
  destruct (quiet_updateSyncStatusForChanges ds "syncing" w) as (u & sh1 & E1).
  unfold try_catch. rewrite (bind_ok _ _ _ _ _ _ u E1).
  set (w2 := mkWorld sh1 (GAME_DATA w)
                     ((batchDeleteRequest ds, FetchThrows e) :: exchanges w) (endpoint w)).
  rewrite (bind_throw _ _ (fetch _) _ _ w2 e)
    by (unfold fetch; cbn [sheet GAME_DATA exchanges endpoint]; now rewrite Hep).
  unfold handleBatchDeleteError.
  destruct (markDeleteTargets_spec ds ("Exception: " ++ message e) w2)
    as (sh & E & Hm & _).
  rewrite (bind_ok _ _ _ _ _ _ tt E). exists sh. split; [reflexivity|exact Hm].
Qed.

(** A batch delete answered 2xx with a falsy [success]: every target is
    marked, but the individual operations come back as they were. *)
Lemma batch_reported_failure_keeps_others (w : world) (ds os : list change)
    (r : HTTPResponse) (fields : list (string * json)) :
  endpoint w (exchanges w) (batchDeleteRequest ds) = Responded r ->
  is2xx (getResponseCode r) = true ->
  parsed r = Ok (JObj fields) ->
  js_truthy (assoc "success" fields) = false ->
  exists sh,
    processBatchDeletes ds os w
    = (Ok os,
       mkWorld sh (GAME_DATA w) ((batchDeleteRequest ds, Responded r) :: exchanges w)
               (endpoint w))
    /\ forall d, In d ds -> oldSheetRow d <> 0 -> statusOf sh (oldSheetRow d) = "error".
Proof.
  intros Hep Hcode Hparsed Hsucc. unfold processBatchDeletes.
  fold (batchDeleteRequest ds).
  destruct (quiet_updateSyncStatusForChanges ds "syncing" w) as (u & sh1 & E1).
  unfold try_catch. rewrite (bind_ok _ _ _ _ _ _ u E1).
  set (w2 := mkWorld sh1 (GAME_DATA w)
                     ((batchDeleteRequest ds, Responded r) :: exchanges w) (endpoint w)).
  rewrite (bind_ok _ _ (fetch _) _ _ w2 r)
    by (unfold fetch; cbn [sheet GAME_DATA exchanges endpoint]; now rewrite Hep).
  rewrite Hcode.
  destruct (markDeleteTargets_spec ds
              ("Batch deletion failed: " ++ messageOr (JObj fields)) w2)
    as (sh & E & Hm & _).
  assert (E3 : handleBatchDeleteSuccess ds r w2
               = (Ok tt, mkWorld sh (GAME_DATA w2) (exchanges w2) (endpoint w2))).
  { unfold handleBatchDeleteSuccess.
    rewrite (bind_ok _ _ (lift (parsed r)) _ w2 w2 (JObj fields))
      by (unfold lift; now rewrite Hparsed).
    rewrite (bind_ok _ _ (lift (js_field (JObj fields) "success")) _ w2 w2
               (assoc "success" fields)) by reflexivity.
    rewrite Hsucc. exact E. }
  rewrite (bind_ok _ _ _ _ _ _ tt E3). exists sh. split; [reflexivity|exact Hm].
Qed.

(** ** Evaluations on the example worlds *)

(** C2, at a failing input.  The batch delete of rows 301, 302 and 303 is
    answered 200 with [success: false].  The three rows are marked
    ["error"], but the deletes are not moved into the individual
    operations: the batch request is the only request of the dispatch, and
    the cycle then stores a baseline without the three records. *)
Theorem C2_reported_batch_failure_not_retried :
  fst (processBatchDeletes deletes_301_303 [] world_batch_reports_failure) = Ok []
  /\ exchanges (snd (sendToHubSpot deletes_301_303 world_batch_reports_failure))
     = [(batchDeleteRequest deletes_301_303,
         jsonResponse 200 (JObj [("success", JBool false);
                                 ("message", JStr "HubDB unavailable")]))]
  /\ statusOf (sheet (snd (sendToHubSpot deletes_301_303 world_batch_reports_failure))) 6
     = "error"
  /\ statusOf (sheet (snd (sendToHubSpot deletes_301_303 world_batch_reports_failure))) 7
     = "error"
  /\ statusOf (sheet (snd (sendToHubSpot deletes_301_303 world_batch_reports_failure))) 8
     = "error"
  /\ filter hasHubDBId
       (detectChanges [("101", record_101 "")] (storedSnapshot world_batch_reports_failure))
     = deletes_301_303
  /\ GAME_DATA (syncAllData world_batch_reports_failure) = Some [("101", record_101 "")].
Proof. vm_compute. repeat split. Qed.

(** C1 as stated fails: in a cycle that creates a HubDB row, the stored
    snapshot is overwritten before the combined request is sent, and stays
    overwritten when that request is answered 500. *)
Lemma C1_counterexample :
  ~ (forall (w : world) (new : list exchange),
       exchanges (syncAllData w) = new ++ exchanges w ->
       (exists ops res, In (gameData ops, res) new /\ failedFetch res = true) ->
       GAME_DATA (syncAllData w) = GAME_DATA w).
Proof.
  intros H.
  specialize (H world_provisioning (exchanges (syncAllData world_provisioning))).
  assert (E : GAME_DATA (syncAllData world_provisioning) = GAME_DATA world_provisioning).
  { apply H.
    - symmetry. apply app_nil_r.
    - vm_compute. eexists _, _. split; [left; reflexivity|reflexivity]. }
  vm_compute in E. discriminate E.
Qed.

(** A cycle without provisioning whose combined request is answered 500. *)
Lemma C1_failed_dispatch_keeps_baseline_witness :
  GAME_DATA (syncAllData world_updated) = GAME_DATA world_updated
  /\ forall cur, detectChanges cur (storedSnapshot (syncAllData world_updated))
                 = detectChanges cur (storedSnapshot world_updated).
Proof.
  apply (C1_failed_dispatch_keeps_baseline world_updated
           (exchanges (syncAllData world_updated))).
  - vm_compute. reflexivity.
  - symmetry. apply app_nil_r.
  - vm_compute. eexists _, _. split; [left; reflexivity|reflexivity].
Defined.

(** Rows 301 and 303 deleted, row 302 refused. *)
Lemma C5_partial_batch_delete_witness :
  batchDeleteRequest deletes_301_303
  = BATCH_DELETE_HUBDB_ROWS ["301"; "302"; "303"]
      "google_sheets_sync_batch" "data_changes" 3
  /\ exists sh,
      processBatchDeletes deletes_301_303 [updated_101] world_batch_partial
      = (Ok [updated_101],
         mkWorld sh (GAME_DATA world_batch_partial)
           ((batchDeleteRequest deletes_301_303,
             endpoint_batch_partial [] (batchDeleteRequest deletes_301_303))
              :: exchanges world_batch_partial)
           (endpoint world_batch_partial))
      /\ getValue sh 6 HUBDB_ROW_ID_COLUMN = ""
      /\ statusOf sh 6 = "deleted"
      /\ getValue sh 8 HUBDB_ROW_ID_COLUMN = ""
      /\ statusOf sh 8 = "deleted"
      /\ statusOf sh 7 = "error"
      /\ getValue sh 7 HUBDB_ROW_ID_COLUMN
         = getValue (sheet world_batch_partial) 7 HUBDB_ROW_ID_COLUMN.
Proof.
  apply (C5_partial_batch_delete world_batch_partial "301" "302" "303"
           record_301 record_302 record_303 [updated_101]
           (mkResponse 200 _ _)
           [("success", JBool true);
            ("results", JArr (map resultEntry
                                  [("301", "success"); ("302", "failed");
                                   ("303", "success")]))]
           [("301", "success"); ("302", "failed"); ("303", "success")]);
    try discriminate; try reflexivity.
  - simpl. tauto.
  - simpl. intuition discriminate.
  - simpl. tauto.
Defined.

(** One update and one delete. *)
Lemma C6_single_delete_goes_individually_witness :
  exists out sh,
    sendToHubSpot [updated_101; deletedChange "301" record_301] world_updated
    = (out, mkWorld sh (GAME_DATA world_updated)
              [(gameData
                  [mkOperation UPDATED "101" (Some (record_101 "")) (Some (record_101 "6-4"))
                               [Delta "results" "6-4" ""] (Some 4);
                   mkOperation DELETED "301" None (Some record_301) [Marker "DELETED"]
                               (Some 6)],
                textResponse 500 "Internal Server Error")]
              (endpoint world_updated)).
Proof.
  destruct (C6_single_delete_goes_individually
              [updated_101; deletedChange "301" record_301]
              (deletedChange "301" record_301) world_updated eq_refl)
    as (out & sh & E & _).
  exists out, sh. exact E.
Defined.

(** * Further properties *)

(** ** Objects: lookup after assignment *)

Module ObjLaws.

Section ObjLaws.
Variable A : Type.
Implicit Types (o : Obj.t A) (k : string) (v : A).

Lemma get_replace_same o k v v0 :
  Obj.get k o = Some v0 -> Obj.get k (Obj.replace k v o) = Some v.
Proof.
  induction o as [|[k0 v1] o IH]; simpl; [discriminate|].
  destruct (String.eqb_spec k k0) as [->|Hne]; simpl.
  - now rewrite String.eqb_refl.
  - intros H. destruct (String.eqb_spec k k0); [contradiction|]. auto.
Qed.

Lemma get_replace_other o k k' v :
  k' <> k -> Obj.get k' (Obj.replace k v o) = Obj.get k' o.
Proof.
  intros Hne. induction o as [|[k0 v1] o IH]; simpl; [reflexivity|].
  destruct (String.eqb_spec k k0) as [->|Hk]; simpl.
  - destruct (String.eqb_spec k' k0); [contradiction|reflexivity].
  - destruct (k' =? k0); [reflexivity|exact IH].
Qed.

Lemma get_insert_same o k v :
  Obj.get k o = None -> Obj.get k (Obj.insert k v o) = Some v.
Proof.
  induction o as [|[k0 v1] o IH]; simpl.
  - now rewrite String.eqb_refl.
  - destruct (String.eqb_spec k k0) as [->|Hne]; [discriminate|].
    intros H. destruct (Obj.key_before k k0); simpl.
    + now rewrite String.eqb_refl.
    + destruct (String.eqb_spec k k0); [contradiction|]. auto.
Qed.

Lemma get_insert_other o k k' v :
  k' <> k -> Obj.get k' (Obj.insert k v o) = Obj.get k' o.
Proof.
  intros Hne. induction o as [|[k0 v1] o IH]; simpl.
  - destruct (String.eqb_spec k' k); [contradiction|reflexivity].
  - destruct (Obj.key_before k k0); simpl.
    + destruct (String.eqb_spec k' k); [contradiction|reflexivity].
    + destruct (k' =? k0); [reflexivity|exact IH].
Qed.

Lemma get_set o k k' v :
  Obj.get k' (Obj.set k v o) = if k' =? k then Some v else Obj.get k' o.
Proof.
  unfold Obj.set. destruct (String.eqb_spec k' k) as [->|Hne].
  - destruct (Obj.get k o) eqn:E.
    + now apply get_replace_same with (v0 := a).
    + now apply get_insert_same.
  - destruct (Obj.get k o); [now apply get_replace_other|now apply get_insert_other].
Qed.

End ObjLaws.

End ObjLaws.

(** ** Record extractor: what the snapshot holds *)

Lemma keptAt_core (sh : Sheet) (i : nat) :
  keptAt sh i = negb (coreFieldsEmpty (rowAt sh i)).
Proof.
  unfold keptAt. destruct (coreFieldsEmpty (rowAt sh i)) eqn:Ec; [apply andb_false_r|].
  rewrite andb_true_r. apply negb_true_iff, not_true_is_false. intros Hd.
  apply not_true_iff_false in Ec. apply Ec.
  apply coreFieldsEmpty_rowAt. intros c Hc.
  apply (proj1 (dataCellsEmpty_rowAt sh i) Hd). lia.
Qed.

Lemma clearedAt_not_kept (sh : Sheet) (i : nat) :
  clearedAt sh i = true -> keptAt sh i = false.
Proof.
  unfold clearedAt, isDataClearedButHasId, keptAt. intros H.
  apply andb_true_iff in H. destruct H as [-> _]. reflexivity.
Qed.

Lemma lastWithKey_skip (sh : Sheet) (m i : nat) :
  keptAt sh m = false -> (lastWithKey sh (S m) i <-> lastWithKey sh m i).
Proof.
  intros Hm. unfold lastWithKey. split.
  - intros (Hi & Hk & Hl). split; [|split; [exact Hk|]].
    + destruct (Nat.eq_dec i m) as [->|]; [congruence|lia].
    + intros j Hj. apply Hl. lia.
  - intros (Hi & Hk & Hl). split; [lia|split; [exact Hk|]].
    intros j Hj Hkj. destruct (Nat.eq_dec j m) as [->|]; [congruence|].
    apply Hl; [lia|exact Hkj].
Qed.

(** The snapshot after the first [m] rows. *)
Lemma extract_prefix (sh : Sheet) (hubdbIds : list (list string)) (m : nat) :
  (forall i, i < m -> at_ (nth i hubdbIds []) 0 = hubdbIdAt sh i) ->
  forall k r,
    Obj.get k (fst (fold_left (fun a i => extractRow hubdbIds a (rowAt sh i, i))
                              (seq 0 m) (Obj.empty, [])))
    = Some r
    <-> exists i, lastWithKey sh m i /\ k = keyAt sh i /\ r = recordAt sh i.
Proof.
  induction m as [|m IH]; intros Hids k r.
  - simpl. split; [discriminate|]. intros (i & (Hi & _) & _). lia.
  - rewrite seq_S, fold_left_app. cbn [fold_left Nat.add].
    set (acc := fold_left _ (seq 0 m) _) in *.
    assert (IH' := IH (fun i Hi => Hids i (Nat.lt_lt_succ_r _ _ Hi))). clear IH.
    rewrite (extractRow_step sh hubdbIds acc m) by (apply Hids; lia).
    destruct (clearedAt sh m) eqn:Ecl.
    + cbn [fst]. rewrite IH'.
      pose proof (clearedAt_not_kept sh m Ecl) as Hm.
      split; intros (i & Hl & Hk); exists i;
        (split; [now apply (lastWithKey_skip sh m i Hm)|exact Hk]).
    + destruct (keptAt sh m) eqn:Ek.
      * cbn [fst]. fold (keyAt sh m). rewrite ObjLaws.get_set.
        destruct (String.eqb_spec k (keyAt sh m)) as [->|Hne].
        -- split.
           ++ intros H. injection H as <-. exists m. split; [|auto].
              split; [lia|split; [exact Ek|]]. intros j Hj. lia.
           ++ intros (i & (Hi & Hki & Hl) & Hkey & ->).
              destruct (Nat.eq_dec i m) as [->|Hne]; [reflexivity|].
              exfalso. apply (Hl m); [lia|exact Ek|congruence].
        -- rewrite IH'. split.
           ++ intros (i & (Hi & Hki & Hl) & -> & ->). exists i. split; [|auto].
              split; [lia|split; [exact Hki|]]. intros j Hj Hkj.
              destruct (Nat.eq_dec j m) as [->|]; [congruence|].
              apply Hl; [lia|exact Hkj].
           ++ intros (i & (Hi & Hki & Hl) & -> & ->). exists i. split; [|auto].
              assert (i <> m) by congruence.
              split; [lia|split; [exact Hki|]]. intros j Hj. apply Hl. lia.
      * cbn [fst]. rewrite IH'.
        split; intros (i & Hl & Hk); exists i;
          (split; [now apply (lastWithKey_skip sh m i Ek)|exact Hk]).
Qed.

(** X1. The records of the extracted snapshot are those of the kept rows that
    are the last with their [uniqueId]: when two kept rows carry the same
    HubDB row id, the later row replaces the earlier one. *)
Theorem getAllSheetData_last_row_wins (sh : Sheet) (lastRow : nat)
    (allData : snapshot) (clearedRows : list clearedRow) :
  getAllSheetData sh lastRow = Ok (allData, clearedRows) ->
  forall k r,
    In (k, r) allData
    <-> exists i, lastWithKey sh (lastRow + 1 - DATA_START_ROW) i
                  /\ k = keyAt sh i /\ r = recordAt sh i.
Proof.
  intros H k r.
  pose proof (getAllSheetData_spec sh lastRow allData clearedRows H) as (_ & _ & Hwf).
  unfold getAllSheetData in H.
  set (n := lastRow + 1 - DATA_START_ROW) in *.
  destruct (n =? 0)%nat; [discriminate|].
  injection H as H. rewrite forEachIndexed_getValues in H.
  pose proof (extract_prefix sh (getValues sh DATA_START_ROW 1 n 1) n) as P.
  rewrite <- (P (fun i Hi => f_equal (fun row => at_ row 0)
                               (nth_getValues sh DATA_START_ROW 1 n 1 i Hi)) k r).
  rewrite H. cbn [fst]. split.
  - now apply ObjFacts.In_get.
  - apply ObjFacts.get_In.
Qed.

(** X2. [getAllSheetData] throws exactly when the sheet's last row is above
    the data area; otherwise every record of the snapshot it returns sits
    under its own [uniqueId], no key twice, comes from a row of the data
    range with at least one of its five core cells (date/time, category,
    stage, player 1, player 2) filled in, and holds the cells of that row. *)
Theorem getAllSheetData_outcome (sh : Sheet) (lastRow : nat) :
  match getAllSheetData sh lastRow with
  | Throw _ => lastRow < DATA_START_ROW
  | Ok (allData, _) =>
      DATA_START_ROW <= lastRow
      /\ Snapshot allData
      /\ forall k r, In (k, r) allData ->
           DATA_START_ROW <= sheetRow r <= lastRow
           /\ (exists c, 2 <= c <= 6 /\ getValue sh (sheetRow r) c <> "")
           /\ hubdbRowId r = getValue sh (sheetRow r) HUBDB_ROW_ID_COLUMN
           /\ date_and_time r = getValue sh (sheetRow r) 2
           /\ category r = getValue sh (sheetRow r) 3
           /\ stage r = getValue sh (sheetRow r) 4
           /\ player_1 r = getValue sh (sheetRow r) 5
           /\ player_2 r = getValue sh (sheetRow r) 6
           /\ results r = getValue sh (sheetRow r) 7
           /\ venue r = getValue sh (sheetRow r) 8
  end.
Proof.
  destruct (getAllSheetData sh lastRow) as [[allData clearedRows]|e] eqn:E.
  - assert (Hn : DATA_START_ROW <= lastRow).
    { unfold getAllSheetData in E.
      destruct (Nat.eqb_spec (lastRow + 1 - DATA_START_ROW) 0) as [E0|E0];
        [discriminate|]. unfold DATA_START_ROW in *. lia. }
    split; [exact Hn|]. split; [exact (getAllSheetData_Snapshot _ _ _ _ E)|].
    intros k r Hin.
    destruct (getAllSheetData_spec sh lastRow allData clearedRows E) as (_ & He & _).
    destruct (He k r Hin) as (i & Hi & Hk & _ & ->).
    cbn [sheetRow recordAt hubdbRowId date_and_time category stage player_1
         player_2 results venue].
    split; [unfold DATA_START_ROW in *; lia|]. split; [|repeat split].
    rewrite keptAt_core in Hk. apply negb_true_iff in Hk.
    destruct (List.existsb (fun c => truthy (getValue sh (DATA_START_ROW + i) c))
                           (seq 2 5)) eqn:Ex.
    + apply existsb_exists in Ex. destruct Ex as (c & Hc & Ht).
      apply in_seq in Hc. exists c. split; [lia|now apply truthy_true].
    + exfalso. apply not_true_iff_false in Hk. apply Hk.
      apply coreFieldsEmpty_rowAt. intros c Hc. apply truthy_false.
      destruct (truthy (getValue sh (DATA_START_ROW + i) c)) eqn:Et; [|reflexivity].
      assert (existsb (fun c => truthy (getValue sh (DATA_START_ROW + i) c)) (seq 2 5)
              = true) as Ex'.
      { apply existsb_exists. exists c. split; [apply in_seq; lia|exact Et]. }
      congruence.
  - unfold getAllSheetData in E.
    destruct (Nat.eqb_spec (lastRow + 1 - DATA_START_ROW) 0) as [E0|E0];
      [|discriminate]. unfold DATA_START_ROW in *. lia.
Qed.

(** X3. The cleared rows come out in ascending row order, each from the data
    range, with the non-empty HubDB row id of its row and all eleven data
    cells of that row empty. *)
Theorem getAllSheetData_clearedRows (sh : Sheet) (lastRow : nat)
    (allData : snapshot) (clearedRows : list clearedRow) :
  getAllSheetData sh lastRow = Ok (allData, clearedRows) ->
  (forall cr, In cr clearedRows ->
     DATA_START_ROW <= cleared_sheetRow cr <= lastRow
     /\ cleared_hubdbRowId cr = getValue sh (cleared_sheetRow cr) HUBDB_ROW_ID_COLUMN
     /\ cleared_hubdbRowId cr <> ""
     /\ forall c, 2 <= c <= 12 -> getValue sh (cleared_sheetRow cr) c = "")
  /\ (forall p q, p < q < length clearedRows ->
        cleared_sheetRow (nth p clearedRows (mkCleared 0 ""))
        < cleared_sheetRow (nth q clearedRows (mkCleared 0 ""))).
Proof.
  intros H. split.
  - intros cr Hin.
    apply (cleared_row_iff sh lastRow allData clearedRows cr H) in Hin.
    destruct Hin as (i & Hi & Hc & ->). cbn [cleared_sheetRow cleared_hubdbRowId clearedRowAt].
    unfold clearedAt, isDataClearedButHasId in Hc. apply andb_true_iff in Hc.
    destruct Hc as [Hd Ht].
    split; [unfold DATA_START_ROW in *; lia|]. split; [reflexivity|].
    split; [now apply truthy_true|]. now apply dataCellsEmpty_rowAt.
  - destruct (getAllSheetData_spec sh lastRow allData clearedRows H) as (-> & _ & _).
    generalize (lastRow + 1 - DATA_START_ROW). intros n.
    assert (Hs : forall (l : list nat) p q,
               (forall a b, a < b < length l -> nth a l 0 < nth b l 0) ->
               p < q < length (filter (clearedAt sh) l) ->
               nth p (filter (clearedAt sh) l) 0 < nth q (filter (clearedAt sh) l) 0).
    { induction l as [|x l IH]; intros p q Hl Hpq; [simpl in Hpq; lia|].
      assert (Hl' : forall a b, a < b < length l -> nth a l 0 < nth b l 0).
      { intros a b Hab. apply (Hl (S a) (S b)). simpl. lia. }
      simpl in *. destruct (clearedAt sh x).
      - simpl in Hpq. destruct q as [|q]; [lia|]. destruct p as [|p].
        + simpl. assert (Hin : In (nth q (filter (clearedAt sh) l) 0) l).
          { eapply (proj1 (filter_In _ _ _)). apply nth_In. lia. }
          apply In_nth with (d := 0) in Hin. destruct Hin as (b & Hb & <-).
          apply (Hl 0 (S b)). lia.
        + simpl. apply IH; [exact Hl'|lia].
      - apply IH; [exact Hl'|exact Hpq]. }
    intros p q Hpq. rewrite length_map in Hpq.
    rewrite (nth_indep _ (mkCleared 0 "") (clearedRowAt sh 0)),
            (nth_indep _ (mkCleared 0 "") (clearedRowAt sh 0))
      by (rewrite length_map; lia).
    rewrite !(map_nth (clearedRowAt sh)). cbn [clearedRowAt cleared_sheetRow].
    apply Nat.add_lt_mono_l. apply Hs; [|exact Hpq].
    intros a b Hab. rewrite length_seq in Hab. rewrite !seq_nth by lia. lia.
Qed.

(** ** Change detector: further properties *)

Lemma flat_map_nil (A B : Type) (f : A -> list B) (l : list A) :
  (forall x, In x l -> f x = []) -> flat_map f l = [].
Proof.
  induction l as [|x l IH]; simpl; intros H; [reflexivity|].
  rewrite (H x (or_introl eq_refl)). apply IH. auto.
Qed.

Lemma differing_same (r : record) : differing r r = [].
Proof.
  unfold differing. apply filter_none. intros f _. now rewrite String.eqb_refl.
Qed.

(** X4. Comparing a snapshot with itself reports no change. *)
Theorem detectChanges_same (s : snapshot) : detectChanges s s = [].
Proof.
  rewrite detectChanges_flat_map.
  assert (Hk : forall k, In k (Obj.keys s) -> exists r, Obj.get k s = Some r).
  { intros k Hk. now apply ObjFacts.get_Some_keys. }
  rewrite !flat_map_nil; [reflexivity| |].
  - intros k Hin. destruct (Hk k Hin) as (r & Hr).
    unfold emitStored, checkStored. cbn [currentData]. now rewrite Hr.
  - intros k Hin. destruct (Hk k Hin) as (r & Hr).
    rewrite (emitCurrent_both s s k r r Hr Hr). now rewrite differing_same.
Qed.

Lemma flat_map_singletons (A B C : Type) (f : B -> list C) (g : A -> C) (h : A -> B)
    (l : list A) :
  (forall x, In x l -> f (h x) = [g x]) -> flat_map f (map h l) = map g l.
Proof.
  induction l as [|x l IH]; simpl; intros H; [reflexivity|].
  rewrite (H x (or_introl eq_refl)). simpl. f_equal. apply IH. auto.
Qed.

(** X5. Against an empty baseline (the first run, or unreadable stored data)
    every record of an extracted snapshot is reported NEW, in the order of the
    snapshot, and nothing else is reported. *)
Theorem detectChanges_first_run (cur : snapshot) :
  Snapshot cur ->
  detectChanges cur Obj.empty = map (fun kr => newChange (fst kr) (snd kr)) cur.
Proof.
  intros [Hwf Hkey]. rewrite detectChanges_flat_map. simpl flat_map at 2.
  rewrite app_nil_r. unfold Obj.keys.
  apply flat_map_singletons. intros [k r] Hin.
  unfold emitCurrent, checkCurrent. cbn [currentData storedData fst snd].
  rewrite (ObjFacts.In_get _ cur k r Hwf Hin). cbn [Obj.get].
  now rewrite (keyed_guard k r (Hkey k r Hin)).
Qed.

Lemma In_emitCurrent (cur base : snapshot) (k : string) (c : change) :
  In c (emitCurrent cur base k) -> isDeleted c = false /\ wellShaped cur base c.
Proof.
  unfold emitCurrent, checkCurrent. cbn [currentData storedData].
  destruct (Obj.get k cur) as [current|] eqn:Ec; [|intros []].
  destruct (Obj.get k base) as [stored|] eqn:Eb.
  - rewrite fold_compareField. cbn [app]. fold (differing current stored).
    fold (deltasOf current stored).
    destruct (deltasOf current stored) eqn:Ed; cbn [length Nat.ltb Nat.leb changes push app];
      [intros []|].
    intros [<-|[]]. split; [reflexivity|]. unfold wellShaped. cbn [type uniqueId].
    exists current, stored. rewrite Ed. repeat split; try assumption. discriminate.
  - destruct (_ || _); cbn [changes push app]; [|intros []].
    intros [<-|[]]. split; [reflexivity|]. unfold wellShaped. cbn [type uniqueId].
    exists current. auto.
Qed.

Lemma In_emitStored (cur base : snapshot) (k : string) (c : change) :
  In c (emitStored cur base k) -> isDeleted c = true /\ wellShaped cur base c.
Proof.
  unfold emitStored, checkStored. cbn [currentData storedData].
  destruct (Obj.get k cur) as [current|] eqn:Ec; [intros []|].
  destruct (Obj.get k base) as [stored|] eqn:Eb; [|intros []].
  destruct (truthy (hubdbRowId stored)) eqn:Et; cbn [changes push app]; [|intros []].
  intros [<-|[]]. split; [reflexivity|]. unfold wellShaped. cbn [type uniqueId].
  exists stored. repeat split; try assumption. now apply truthy_true.
Qed.

(** X6. Every reported change has the shape of its type: a NEW change carries
    the current record of a key absent from the baseline, an UPDATED change
    both records of a common key and a non-empty list of deltas, a DELETED
    change the baseline record, which has a HubDB row id, of a key absent
    from the current snapshot and no row of its own. *)
Theorem detectChanges_shape (cur base : snapshot) (c : change) :
  In c (detectChanges cur base) -> wellShaped cur base c.
Proof.
  rewrite detectChanges_flat_map, in_app_iff, !in_flat_map.
  intros [(k & _ & Hc)|(k & _ & Hc)].
  - now apply In_emitCurrent in Hc.
  - now apply In_emitStored in Hc.
Qed.

Lemma filter_app_split (A : Type) (p : A -> bool) (l1 l2 : list A) :
  (forall x, In x l1 -> p x = false) -> (forall x, In x l2 -> p x = true) ->
  l1 ++ l2 = filter (fun x => negb (p x)) (l1 ++ l2) ++ filter p (l1 ++ l2).
Proof.
  intros H1 H2. rewrite !filter_app.
  rewrite (filter_all _ (fun x => negb (p x)) l1)
    by (intros x Hx; now rewrite (H1 x Hx)).
  rewrite (filter_none _ (fun x => negb (p x)) l2)
    by (intros x Hx; now rewrite (H2 x Hx)).
  rewrite (filter_none _ p l1 H1), (filter_all _ p l2 H2).
  now rewrite app_nil_r.
Qed.

(** X7. In the list of changes all NEW and UPDATED changes come before all
    DELETED changes. *)
Theorem detectChanges_deletes_last (cur base : snapshot) :
  detectChanges cur base
  = filter (fun c => negb (isDeleted c)) (detectChanges cur base)
    ++ filter isDeleted (detectChanges cur base).
Proof.
  rewrite detectChanges_flat_map. apply filter_app_split.
  - intros c Hc. apply in_flat_map in Hc. destruct Hc as (k & _ & Hc).
    now apply In_emitCurrent in Hc.
  - intros c Hc. apply in_flat_map in Hc. destruct Hc as (k & _ & Hc).
    now apply In_emitStored in Hc.
Qed.

Lemma NoDup_uniqueId_flat_map (f : string -> list change) (l : list string) :
  (forall k c, In c (f k) -> uniqueId c = k) ->
  (forall k, length (f k) <= 1) ->
  NoDup l -> NoDup (map uniqueId (flat_map f l)).
Proof.
  intros Hid Hlen. induction 1 as [|k l Hni Hnd IH]; simpl; [constructor|].
  rewrite map_app. apply NoDup_app; [|exact IH|].
  - specialize (Hlen k). destruct (f k) as [|c [|c' rest]]; simpl in *;
      [constructor|repeat constructor; tauto|lia].
  - intros u Hu Hu'. apply in_map_iff in Hu, Hu'.
    destruct Hu as (c & <- & Hc). destruct Hu' as (c' & Hcc & Hc').
    apply in_flat_map in Hc'. destruct Hc' as (k' & Hk' & Hc').
    apply Hid in Hc, Hc'. congruence.
Qed.

Lemma emitCurrent_length (cur base : snapshot) (k : string) :
  length (emitCurrent cur base k) <= 1.
Proof.
  unfold emitCurrent, checkCurrent. cbn [currentData storedData].
  destruct (Obj.get k cur); [|simpl; lia].
  destruct (Obj.get k base).
  - destruct (0 <? length _)%nat; simpl; lia.
  - destruct (_ || _); simpl; lia.
Qed.

Lemma emitStored_length (cur base : snapshot) (k : string) :
  length (emitStored cur base k) <= 1.
Proof.
  unfold emitStored, checkStored. cbn [currentData storedData].
  destruct (Obj.get k cur); [simpl; lia|].
  destruct (Obj.get k base); [|simpl; lia].
  destruct (truthy _); simpl; lia.
Qed.

(** X8. No two reported changes are for the same [uniqueId]. *)
Theorem detectChanges_one_change_per_key (cur base : snapshot) :
  Obj.wf cur -> Obj.wf base -> NoDup (map uniqueId (detectChanges cur base)).
Proof.
  intros Hc Hb. rewrite detectChanges_flat_map, map_app. apply NoDup_app.
  - apply NoDup_uniqueId_flat_map;
      [apply emitCurrent_uniqueId|apply emitCurrent_length|exact Hc].
  - apply NoDup_uniqueId_flat_map;
      [apply emitStored_uniqueId|apply emitStored_length|exact Hb].
  - intros u Hu Hu'. apply in_map_iff in Hu, Hu'.
    destruct Hu as (c & <- & Hcin). destruct Hu' as (c' & Hcc & Hc').
    apply in_flat_map in Hcin, Hc'.
    destruct Hcin as (k & _ & Hk). destruct Hc' as (k' & _ & Hk').
    apply In_emitCurrent in Hk. apply In_emitStored in Hk'.
    destruct Hk as [Hd Hs]. destruct Hk' as [Hd' Hs'].
    unfold wellShaped in Hs, Hs'. unfold isDeleted in Hd, Hd'.
    destruct (type c') eqn:Et'; try discriminate.
    destruct Hs' as (stored & Hnone & _). rewrite Hcc in Hnone.
    destruct (type c) eqn:Et; try discriminate.
    + destruct Hs as (current & Hsome & _). congruence.
    + destruct Hs as (current & st & Hsome & _). congruence.
Qed.

(** ** Selection for HubDB row creation: further properties *)

Lemma selectRow_cases (allData : snapshot) (acc : list rowInfo) (k : string) :
  selectRow allData acc k = acc
  \/ exists data, selectRow allData acc k = acc ++ [mkRowInfo k data (sheetRow data)].
Proof.
  unfold selectRow. destruct (Obj.get k allData) as [data|]; [|now left].
  destruct (_ && _); [right; now exists data|now left].
Qed.

Lemma selectRow_uniqueIds (allData : snapshot) (ids : list string) (acc : list rowInfo) :
  exists kept,
    map ri_uniqueId (fold_left (selectRow allData) ids acc)
    = map ri_uniqueId acc ++ kept
    /\ (forall k, In k kept -> In k ids)
    /\ (NoDup ids -> NoDup kept).
Proof.
  revert acc. induction ids as [|k ids IH]; intros acc; simpl.
  - exists []. rewrite app_nil_r. split; [reflexivity|]. split; [tauto|constructor].
  - destruct (IH (selectRow allData acc k)) as (kept & E & Hin & Hnd).
    destruct (selectRow_cases allData acc k) as [Hs|(data & Hs)]; rewrite Hs in *.
    + exists kept. split; [exact E|]. split; [auto|].
      intros Hd. inversion Hd; auto.
    + exists (k :: kept). rewrite E, map_app, <- app_assoc. simpl.
      split; [reflexivity|]. split.
      * intros k' [<-|H]; auto.
      * intros Hd. inversion Hd as [|? ? Hni Hd']; subst.
        constructor; [intros H; apply Hni; auto|auto].
Qed.

(** X9. No record is selected twice for creation; and in a snapshot keyed as
    the extractor keys it, every selected record sits under the placeholder
    [temp_<row>] of its own sheet row. *)
Theorem findRowsNeedingHubDBCreation_placeholders (allData : snapshot)
    (changes : list change) :
  NoDup (map ri_uniqueId (findRowsNeedingHubDBCreation allData changes))
  /\ (keyedByIdentity allData ->
      forall ri, In ri (findRowsNeedingHubDBCreation allData changes) ->
        ri_sheetRow ri = sheetRow (ri_data ri)
        /\ hubdbRowId (ri_data ri) = ""
        /\ ri_uniqueId ri = ("temp_" ++ decimal (ri_sheetRow ri))%string).
Proof.
  split.
  - unfold findRowsNeedingHubDBCreation.
    set (ids := if (0 <? length changes)%nat then _ else _).
    assert (Hids : NoDup ids).
    { unfold ids. destruct (0 <? length changes)%nat.
      - apply (proj2 (fold_collectChanged changes [])). constructor.
      - apply (proj2 (fold_Set_add (Obj.keys allData) [])). constructor. }
    destruct (selectRow_uniqueIds allData ids []) as (kept & E & _ & Hnd).
    rewrite E. simpl. auto.
  - intros Hkey ri Hin.
    unfold findRowsNeedingHubDBCreation in Hin. apply selectRow_In in Hin.
    destruct Hin as [[]|(k & data & _ & Hget & (Hid & _) & ->)].
    cbn [ri_sheetRow ri_data ri_uniqueId]. split; [reflexivity|]. split; [exact Hid|].
    rewrite (Hkey k data (ObjFacts.get_In _ allData k data Hget)).
    unfold uniqueIdFor. now rewrite Hid.
Qed.

(** ** Cells *)

Lemma getValue_app_other (ws sh : Sheet) (r c : nat) :
  (forall r' c' v, In (r', c', v) ws -> r' <> r \/ c' <> c) ->
  getValue (ws ++ sh) r c = getValue sh r c.
Proof.
  induction ws as [|[[r' c'] v] ws IH]; simpl; intros H; [reflexivity|].
  destruct (Nat.eqb_spec r r') as [->|Hr]; destruct (Nat.eqb_spec c c') as [->|Hc];
    simpl; try (apply IH; intros; eapply H; right; eassumption).
  destruct (H r' c' v (or_introl eq_refl)); congruence.
Qed.

Lemma getValue_app_written (P : string -> Prop) (ws sh : Sheet) (r c : nat) :
  (exists v, In (r, c, v) ws) ->
  (forall v, In (r, c, v) ws -> P v) ->
  P (getValue (ws ++ sh) r c).
Proof.
  induction ws as [|[[r' c'] v'] ws IH]; simpl; intros (v & Hin) HP; [destruct Hin|].
  destruct (Nat.eqb_spec r r') as [->|Hr]; destruct (Nat.eqb_spec c c') as [->|Hc];
    simpl; try (apply IH; [destruct Hin as [E|Hin]; [congruence|eauto]|eauto]).
  apply HP. now left.
Qed.

Lemma getValue_app_kept (P : string -> Prop) (ws sh : Sheet) (r c : nat) :
  P (getValue sh r c) ->
  (forall v, In (r, c, v) ws -> P v) ->
  P (getValue (ws ++ sh) r c).
Proof.
  induction ws as [|[[r' c'] v'] ws IH]; simpl; intros Hsh HP; [exact Hsh|].
  destruct (Nat.eqb_spec r r') as [->|Hr]; destruct (Nat.eqb_spec c c') as [->|Hc];
    simpl; try (apply IH; eauto).
  apply HP. now left.
Qed.

(** ** Loops that only write cells *)

Lemma forEach_writes (A : Type) (f : A -> M unit) (ws : A -> Sheet) (l : list A) :
  (forall x w, f x w = (Ok tt, mkWorld (ws x ++ sheet w) (GAME_DATA w) (exchanges w)
                               (endpoint w))) ->
  forall w, forEach f l w
            = (Ok tt, mkWorld (flat_map ws (rev l) ++ sheet w) (GAME_DATA w)
                              (exchanges w) (endpoint w)).
Proof.
  intros Hf. induction l as [|x l IH]; intros w.
  - simpl. unfold ret. now rewrite <- world_eta.
  - cbn [forEach]. rewrite (bind_ok _ _ _ _ _ _ tt (Hf x w)). rewrite IH.
    cbn [sheet GAME_DATA exchanges endpoint rev].
    rewrite flat_map_app. simpl. rewrite app_nil_r, <- app_assoc. reflexivity.
Qed.

Lemma updateRowsAfterFailure_writes (cs : list change) (code : nat) (text : string)
    (w : world) :
  updateRowsAfterFailure cs code text w
  = (Ok tt, mkWorld (flat_map (failureWrites
                                 ("HTTP " ++ decimal code ++ ": " ++ text)%string)
                              (rev cs) ++ sheet w)
                    (GAME_DATA w) (exchanges w) (endpoint w)).
Proof.
  unfold updateRowsAfterFailure. apply forEach_writes. clear w.
  intros c w. unfold failureWrites. destruct (targetRow c =? 0)%nat; [|reflexivity].
  simpl. unfold ret. now rewrite <- world_eta.
Qed.

Lemma updateRowsAfterSuccess_writes (cs : list change) (w : world) :
  updateRowsAfterSuccess cs w
  = (Ok tt, mkWorld (flat_map successWrites (rev cs) ++ sheet w)
                    (GAME_DATA w) (exchanges w) (endpoint w)).
Proof.
  unfold updateRowsAfterSuccess. apply forEach_writes. clear w.
  intros c w. unfold successWrites.
  destruct (isDeleted c && negb (oldSheetRow c =? 0)%nat); [reflexivity|].
  destruct (negb (rowOf c =? 0)%nat); [reflexivity|].
  unfold ret. simpl. now rewrite <- world_eta.
Qed.

Lemma updateSyncStatusForChanges_writes (cs : list change) (status : string) (w : world) :
  updateSyncStatusForChanges cs status w
  = (Ok tt, mkWorld (flat_map (statusWrites status) (rev cs) ++ sheet w)
                    (GAME_DATA w) (exchanges w) (endpoint w)).
Proof.
  unfold updateSyncStatusForChanges. apply forEach_writes. clear w.
  intros c w. unfold statusWrites. destruct (targetRow c =? 0)%nat; [|reflexivity].
  simpl. unfold ret. now rewrite <- world_eta.
Qed.

Lemma clearSyncStatusForRows_writes (rows : list nat) (w : world) :
  clearSyncStatusForRows rows w
  = (Ok tt, mkWorld (flat_map clearWrites (rev rows) ++ sheet w)
                    (GAME_DATA w) (exchanges w) (endpoint w)).
Proof.
  unfold clearSyncStatusForRows, try_catch.
  destruct rows as [|r rows].
  - simpl. unfold ret. now rewrite <- world_eta.
  - change (length (r :: rows) =? 0)%nat with false. cbv iota.
    rewrite (forEach_writes nat _ clearWrites); [reflexivity|].
    intros x w0. reflexivity.
Qed.

(** X10. [clearSyncStatusForRows] empties the status and message cells of the
    rows it is given and changes no other cell. *)
Theorem clearSyncStatusForRows_clears (rows : list nat) (w : world) :
  exists sh,
    clearSyncStatusForRows rows w
    = (Ok tt, mkWorld sh (GAME_DATA w) (exchanges w) (endpoint w))
    /\ (forall r, In r rows ->
          getValue sh r SYNC_STATUS_ID_COLUMN = ""
          /\ getValue sh r SYNC_MESSAGE_ID_COLUMN = "")
    /\ (forall r c,
          ~ In r rows \/ (c <> SYNC_STATUS_ID_COLUMN /\ c <> SYNC_MESSAGE_ID_COLUMN) ->
          getValue sh r c = getValue (sheet w) r c).
Proof.
  eexists. split; [apply clearSyncStatusForRows_writes|].
  assert (Hw : forall r c v, In (r, c, v) (flat_map clearWrites (rev rows)) ->
                 In r rows /\ (c = SYNC_STATUS_ID_COLUMN \/ c = SYNC_MESSAGE_ID_COLUMN)
                 /\ v = "").
  { intros r c v Hin. apply in_flat_map in Hin. destruct Hin as (x & Hx & Hin).
    apply in_rev in Hx. unfold clearWrites in Hin.
    destruct Hin as [E|[E|[]]]; injection E as <- <- <-; auto. }
  assert (Hin : forall r c, In r rows ->
                  c = SYNC_STATUS_ID_COLUMN \/ c = SYNC_MESSAGE_ID_COLUMN ->
                  In (r, c, "") (flat_map clearWrites (rev rows))).
  { intros r c Hr Hc. apply in_flat_map. exists r. split; [now apply -> in_rev|].
    unfold clearWrites. destruct Hc as [->| ->]; simpl; auto. }
  split.
  - intros r Hr. split.
    + apply (getValue_app_written (fun v => v = "")); [eexists; apply Hin; auto|].
      intros v Hv. now apply Hw in Hv.
    + apply (getValue_app_written (fun v => v = "")); [eexists; apply Hin; auto|].
      intros v Hv. now apply Hw in Hv.
  - intros r c Hrc. apply getValue_app_other. intros r' c' v Hv.
    apply Hw in Hv. destruct Hv as (Hr & Hc & _).
    destruct (Nat.eq_dec r' r) as [->|]; [|now left]. right.
    destruct Hrc as [Hn|[H9 H10]]; [contradiction|]. destruct Hc; congruence.
Qed.

(** ** The combined request *)

Lemma In_statusWrites (status : string) (cs : list change) (r c : nat) (v : string) :
  In (r, c, v) (flat_map (statusWrites status) (rev cs)) ->
  c = SYNC_STATUS_ID_COLUMN /\ v = status
  /\ exists x, In x cs /\ r = targetRow x /\ targetRow x <> 0.
Proof.
  intros Hin. apply in_flat_map in Hin. destruct Hin as (x & Hx & Hin).
  apply in_rev in Hx. unfold statusWrites in Hin.
  destruct (Nat.eqb_spec (targetRow x) 0) as [E|E]; [destruct Hin|].
  destruct Hin as [H|[]]. injection H as <- <- <-.
  split; [reflexivity|]. split; [reflexivity|]. exists x. auto.
Qed.

Lemma statusWrites_In (status : string) (cs : list change) (x : change) :
  In x cs -> targetRow x <> 0 ->
  In (targetRow x, SYNC_STATUS_ID_COLUMN, status) (flat_map (statusWrites status) (rev cs)).
Proof.
  intros Hx Ht. apply in_flat_map. exists x. split; [now apply -> in_rev|].
  unfold statusWrites. destruct (Nat.eqb_spec (targetRow x) 0); [contradiction|].
  now left.
Qed.

Lemma In_failureWrites (msg : string) (cs : list change) (r c : nat) (v : string) :
  In (r, c, v) (flat_map (failureWrites msg) (rev cs)) ->
  (c = SYNC_STATUS_ID_COLUMN /\ v = "error") \/ c = SYNC_MESSAGE_ID_COLUMN.
Proof.
  intros Hin. apply in_flat_map in Hin. destruct Hin as (x & Hx & Hin).
  unfold failureWrites in Hin. destruct (targetRow x =? 0)%nat; [destruct Hin|].
  destruct Hin as [H|[H|[]]]; injection H as <- <- <-; auto.
Qed.

Lemma failureWrites_In (msg : string) (cs : list change) (x : change) :
  In x cs -> targetRow x <> 0 ->
  In (targetRow x, SYNC_STATUS_ID_COLUMN, "error") (flat_map (failureWrites msg) (rev cs)).
Proof.
  intros Hx Ht. apply in_flat_map. exists x. split; [now apply -> in_rev|].
  unfold failureWrites. destruct (Nat.eqb_spec (targetRow x) 0); [contradiction|].
  right. now left.
Qed.

Lemma In_successWrites (cs : list change) (r c : nat) (v : string) :
  In (r, c, v) (flat_map successWrites (rev cs)) ->
  (c = SYNC_STATUS_ID_COLUMN /\ (v = "deleted" \/ v = "sync success"))
  \/ c = SYNC_MESSAGE_ID_COLUMN
  \/ (c = HUBDB_ROW_ID_COLUMN /\ v = "").
Proof.
  intros Hin. apply in_flat_map in Hin. destruct Hin as (x & Hx & Hin).
  unfold successWrites in Hin.
  destruct (isDeleted x && negb (oldSheetRow x =? 0)%nat).
  - destruct Hin as [H|[H|[H|[]]]]; injection H as <- <- <-; auto.
  - destruct (negb (rowOf x =? 0)%nat); [|destruct Hin].
    destruct Hin as [H|[H|[]]]; injection H as <- <- <-; auto.
Qed.

Lemma placed_targetRow (c : change) :
  placed c -> targetRow c <> 0 ->
  exists v, In (targetRow c, SYNC_STATUS_ID_COLUMN, v) (successWrites c).
Proof.
  unfold placed, targetRow, successWrites.
  intros [[Hd Hr]|[Hd Hr]] Ht.
  - rewrite Hr in *. cbn [Nat.eqb] in *. rewrite Hd.
    destruct (Nat.eqb_spec (oldSheetRow c) 0); [contradiction|].
    cbn [andb negb]. eexists. right. now left.
  - destruct (Nat.eqb_spec (rowOf c) 0); [contradiction|].
    rewrite Hd. cbn [andb negb]. eexists. right. now left.
Qed.

Lemma processIndividualOperations_run (otherChanges : list change) (w : world) :
  let req := combinedRequest otherChanges in
  let syncing := flat_map (statusWrites "syncing") (rev otherChanges) ++ sheet w in
  let after sh out :=
    (out, mkWorld sh (GAME_DATA w) ((req, endpoint w (exchanges w) req) :: exchanges w)
                  (endpoint w)) in
  processIndividualOperations otherChanges w
  = match endpoint w (exchanges w) req with
    | FetchThrows e => after syncing (Throw e)
    | Responded r =>
        if is2xx (getResponseCode r)
        then after (flat_map successWrites (rev otherChanges) ++ syncing) (parsed r)
        else after (flat_map (failureWrites
                                ("HTTP " ++ decimal (getResponseCode r) ++ ": "
                                   ++ getContentText r)%string)
                             (rev otherChanges) ++ syncing)
                   (Throw (apiError r))
    end.
Proof.
  cbv zeta. unfold processIndividualOperations. fold (combinedRequest otherChanges).
  rewrite (bind_ok _ _ _ _ _ _ tt
             (updateSyncStatusForChanges_writes otherChanges "syncing" w)).
  unfold bind at 1. unfold fetch. cbn [sheet GAME_DATA exchanges endpoint].
  destruct (endpoint w (exchanges w) (combinedRequest otherChanges)) as [e|r];
    [reflexivity|].
  cbv zeta. destruct (is2xx (getResponseCode r)).
  - rewrite (bind_ok _ _ _ _ _ _ tt (updateRowsAfterSuccess_writes otherChanges _)).
    reflexivity.
  - rewrite (bind_ok _ _ _ _ _ _ tt
               (updateRowsAfterFailure_writes otherChanges _ _ _)).
    reflexivity.
Qed.

(** X11. When the combined request is answered with a non-2xx response,
    [processIndividualOperations] throws ["HubSpot API error: <code> -
    <text>"] and the row of every change shows status ["error"]; when the
    fetch itself throws, that exception propagates and the rows are left at
    ["syncing"]. *)
Theorem processIndividualOperations_failure (otherChanges : list change) (w : world) :
  failedFetch (endpoint w (exchanges w) (combinedRequest otherChanges)) = true ->
  exists e sh,
    processIndividualOperations otherChanges w
    = (Throw e,
       mkWorld sh (GAME_DATA w)
         ((combinedRequest otherChanges,
           endpoint w (exchanges w) (combinedRequest otherChanges)) :: exchanges w)
         (endpoint w))
    /\ match endpoint w (exchanges w) (combinedRequest otherChanges) with
       | FetchThrows e' =>
           e = e'
           /\ forall c, In c otherChanges -> targetRow c <> 0 ->
                statusOf sh (targetRow c) = "syncing"
       | Responded r =>
           e = apiError r
           /\ forall c, In c otherChanges -> targetRow c <> 0 ->
                statusOf sh (targetRow c) = "error"
       end.
Proof.
  intros Hfail. rewrite processIndividualOperations_run. cbv zeta.
  destruct (endpoint w (exchanges w) (combinedRequest otherChanges)) as [e|r].
  - eexists _, _. split; [reflexivity|]. split; [reflexivity|].
    intros c Hc Ht. unfold statusOf.
    apply (getValue_app_written (fun v => v = "syncing")).
    + eexists. now apply statusWrites_In.
    + intros v Hv. now apply In_statusWrites in Hv.
  - simpl in Hfail. apply negb_true_iff in Hfail. rewrite Hfail.
    eexists _, _. split; [reflexivity|]. split; [reflexivity|].
    intros c Hc Ht. unfold statusOf.
    apply (getValue_app_written (fun v => v = "error")).
    + eexists. now apply failureWrites_In.
    + intros v Hv. apply In_failureWrites in Hv.
      destruct Hv as [[_ ->]|Hcol]; [reflexivity|discriminate].
Qed.

(** X12. When the combined request is answered 2xx, the rows are updated
    before the body is read: the row of every placed change shows
    ["deleted"] or ["sync success"], and the call returns what [JSON.parse]
    makes of the body, so a body that is not JSON is thrown after the rows
    were marked. *)
Theorem processIndividualOperations_success (otherChanges : list change) (w : world)
    (r : HTTPResponse) :
  endpoint w (exchanges w) (combinedRequest otherChanges) = Responded r ->
  is2xx (getResponseCode r) = true ->
  exists sh,
    processIndividualOperations otherChanges w
    = (parsed r,
       mkWorld sh (GAME_DATA w)
         ((combinedRequest otherChanges, Responded r) :: exchanges w) (endpoint w))
    /\ forall c, In c otherChanges -> placed c -> targetRow c <> 0 ->
         statusOf sh (targetRow c) = "deleted"
         \/ statusOf sh (targetRow c) = "sync success".
Proof.
  intros Hep Hcode. rewrite processIndividualOperations_run. cbv zeta.
  rewrite Hep, Hcode. eexists. split; [reflexivity|].
  intros c Hc Hp Ht. unfold statusOf.
  apply (getValue_app_written (fun v => v = "deleted" \/ v = "sync success")).
  - destruct (placed_targetRow c Hp Ht) as (v & Hv). exists v.
    apply in_flat_map. exists c. split; [now apply -> in_rev|exact Hv].
  - intros v Hv. apply In_successWrites in Hv.
    destruct Hv as [[_ Hv]|[Hcol|[Hcol _]]]; [exact Hv|discriminate|discriminate].
Qed.

(** X13. After a combined request answered 2xx, the HubDB row id cell of the
    baseline row of every DELETED change is empty, whatever the sheet held in
    that row. *)
Theorem delivered_delete_clears_id_cell (otherChanges : list change) (w : world)
    (r : HTTPResponse) (d : change) :
  endpoint w (exchanges w) (combinedRequest otherChanges) = Responded r ->
  is2xx (getResponseCode r) = true ->
  In d otherChanges -> isDeleted d = true -> oldSheetRow d <> 0 ->
  getValue (sheet (snd (processIndividualOperations otherChanges w)))
           (oldSheetRow d) HUBDB_ROW_ID_COLUMN = "".
Proof.
  intros Hep Hcode Hd Hdel Hrow. rewrite processIndividualOperations_run. cbv zeta.
  rewrite Hep, Hcode. cbn [snd sheet].
  apply (getValue_app_written (fun v => v = "")).
  - exists "". apply in_flat_map. exists d. split; [now apply -> in_rev|].
    unfold successWrites. rewrite Hdel.
    destruct (Nat.eqb_spec (oldSheetRow d) 0); [contradiction|].
    cbn [andb negb]. right. right. now left.
  - intros v Hv. apply In_successWrites in Hv.
    destruct Hv as [[Hcol _]|[Hcol|[_ Hv]]]; [discriminate|discriminate|exact Hv].
Qed.

(** ** What a dispatch sends *)

Lemma lift_run (A : Type) (o : outcome A) (w : world) : lift o w = (o, w).
Proof. reflexivity. Qed.

(** [handleBatchDeleteSuccess] either only writes cells or throws before
    writing any. *)
Lemma handleBatchDeleteSuccess_cases (ds : list change) (r : HTTPResponse) (w : world) :
  (exists sh, handleBatchDeleteSuccess ds r w
              = (Ok tt, mkWorld sh (GAME_DATA w) (exchanges w) (endpoint w)))
  \/ (exists e, handleBatchDeleteSuccess ds r w = (Throw e, w)).
Proof.
  unfold handleBatchDeleteSuccess.
  destruct (parsed r) as [j|e];
    [|right; exists e; now rewrite (bind_throw _ _ _ _ w w e (lift_run _ _ w))].
  rewrite (bind_ok _ _ _ _ w w j (lift_run _ _ w)).
  destruct (js_field j "success") as [s|e];
    [|right; exists e; now rewrite (bind_throw _ _ _ _ w w e (lift_run _ _ w))].
  rewrite (bind_ok _ _ _ _ w w s (lift_run _ _ w)).
  destruct (js_truthy s).
  - destruct (successfulDeletionsOf j) as [sd|e];
      [|right; exists e; now rewrite (bind_throw _ _ _ _ w w e (lift_run _ _ w))].
    rewrite (bind_ok _ _ _ _ w w sd (lift_run _ _ w)).
    left. match goal with |- exists sh, ?m w = _ => assert (Hq : quiet m) end.
    { quiet_tac. }
    destruct (Hq w) as ([] & sh & E). eauto.
  - left. destruct (quiet_markDeleteTargets ds
                      ("Batch deletion failed: " ++ messageOr j) w) as ([] & sh & E).
    eauto.
Qed.

Lemma handleBatchDeleteError_run (ds os : list change) (e : exn) (w : world) :
  exists sh, handleBatchDeleteError ds e os w
             = (Ok (os ++ ds), mkWorld sh (GAME_DATA w) (exchanges w) (endpoint w)).
Proof.
  unfold handleBatchDeleteError.
  destruct (quiet_markDeleteTargets ds ("Exception: " ++ message e) w) as ([] & sh & E).
  rewrite (bind_ok _ _ _ _ _ _ tt E). unfold ret. eauto.
Qed.

Lemma handleBatchDeleteFailure_run (ds os : list change) (code : nat) (text : string)
    (w : world) :
  exists sh, handleBatchDeleteFailure ds code text os w
             = (Ok (os ++ ds), mkWorld sh (GAME_DATA w) (exchanges w) (endpoint w)).
Proof.
  unfold handleBatchDeleteFailure.
  destruct (quiet_markDeleteTargets ds ("HTTP " ++ decimal code ++ ": " ++ text) w)
    as ([] & sh & E).
  rewrite (bind_ok _ _ _ _ _ _ tt E). unfold ret. eauto.
Qed.

(** [processBatchDeletes] never throws, sends exactly the batch request, and
    hands back the individual operations with or without the deletes. *)
Lemma processBatchDeletes_total (ds os : list change) (w : world) :
  exists sh oc,
    processBatchDeletes ds os w
    = (Ok oc,
       mkWorld sh (GAME_DATA w)
         ((batchDeleteRequest ds, endpoint w (exchanges w) (batchDeleteRequest ds))
            :: exchanges w) (endpoint w))
    /\ (oc = os \/ oc = os ++ ds).
Proof.
  unfold processBatchDeletes. fold (batchDeleteRequest ds).
  destruct (quiet_updateSyncStatusForChanges ds "syncing" w) as (u & sh1 & E1).
  unfold try_catch. rewrite (bind_ok _ _ _ _ _ _ u E1).
  unfold bind at 1. unfold fetch. cbn [sheet GAME_DATA exchanges endpoint].
  destruct (endpoint w (exchanges w) (batchDeleteRequest ds)) as [e|r].
  - match goal with |- context [handleBatchDeleteError ds e os ?w1] =>
      destruct (handleBatchDeleteError_run ds os e w1) as (sh & E) end.
    rewrite E. eauto.
  - cbv zeta. destruct (is2xx (getResponseCode r)).
    + match goal with |- context [bind (handleBatchDeleteSuccess ds r) _ ?w1] =>
        destruct (handleBatchDeleteSuccess_cases ds r w1) as [(sh & E)|(e & E)] end.
      * rewrite (bind_ok _ _ _ _ _ _ tt E). unfold ret. eauto.
      * rewrite (bind_throw _ _ _ _ _ _ e E).
        match goal with |- context [handleBatchDeleteError ds e os ?w1] =>
          destruct (handleBatchDeleteError_run ds os e w1) as (sh & E') end.
        rewrite E'. eauto.
    + match goal with |- context [handleBatchDeleteFailure ds ?c ?t os ?w1] =>
        destruct (handleBatchDeleteFailure_run ds os c t w1) as (sh & E) end.
      rewrite E. eauto.
Qed.

(** X14. A dispatch sends at most two requests: a batch delete, exactly when
    there are two or more DELETED changes, and then one combined request
    carrying every non-delete change, followed by the deletes when there is
    exactly one or when they fell back from the batch.  The combined request
    is left out only when its list is empty. *)
Theorem sendToHubSpot_requests (cs : list change) (w : world) :
  let deleteChanges := filter isDeleted cs in
  let otherChanges := filter (fun c => negb (isDeleted c)) cs in
  exists out sh new sent,
    sendToHubSpot cs w
    = (out, mkWorld sh (GAME_DATA w) (new ++ exchanges w) (endpoint w))
    /\ (sent = otherChanges \/ sent = otherChanges ++ deleteChanges)
    /\ (length deleteChanges <= 1 -> sent = otherChanges ++ deleteChanges)
    /\ map fst (rev new)
       = (if (1 <? length deleteChanges)%nat
          then [batchDeleteRequest deleteChanges] else [])
         ++ match sent with
            | [] => []
            | _ :: _ => [combinedRequest sent]
            end.
Proof.
  cbv zeta. unfold sendToHubSpot. rewrite try_catch_rethrow.
  set (deleteChanges := filter isDeleted cs).
  set (otherChanges := filter (fun c => negb (isDeleted c)) cs).
  set (rowsToProcess := map rowOf (filter (fun c => negb (rowOf c =? 0)%nat) cs)).
  destruct (quiet_when (0 <? length rowsToProcess)%nat _
              (quiet_clearSyncStatusForRows rowsToProcess) w) as (u & sh1 & E1).
  rewrite (bind_ok _ _ _ _ _ _ u E1).
  set (w1 := mkWorld sh1 (GAME_DATA w) (exchanges w) (endpoint w)).
  assert (Hmid : exists sh2 new2 sent,
            (if (1 <? length deleteChanges)%nat
             then processBatchDeletes deleteChanges otherChanges
             else if (length deleteChanges =? 1)%nat
                  then ret (otherChanges ++ deleteChanges)
                  else ret otherChanges) w1
            = (Ok sent, mkWorld sh2 (GAME_DATA w) (new2 ++ exchanges w) (endpoint w))
            /\ (sent = otherChanges \/ sent = otherChanges ++ deleteChanges)
            /\ (length deleteChanges <= 1 -> sent = otherChanges ++ deleteChanges)
            /\ map fst (rev new2)
               = if (1 <? length deleteChanges)%nat
                 then [batchDeleteRequest deleteChanges] else []).
  { destruct (Nat.ltb_spec 1 (length deleteChanges)) as [Hl|Hl].
    - destruct (processBatchDeletes_total deleteChanges otherChanges w1)
        as (sh2 & oc & E & Hoc).
      exists sh2, [(batchDeleteRequest deleteChanges,
                    endpoint w1 (exchanges w1) (batchDeleteRequest deleteChanges))], oc.
      split; [exact E|]. split; [exact Hoc|]. split; [lia|reflexivity].
    - destruct (Nat.eqb_spec (length deleteChanges) 1) as [H1|H1].
      + exists sh1, [], (otherChanges ++ deleteChanges). repeat split; auto.
      + exists sh1, [], otherChanges. split; [reflexivity|]. split; [now left|].
        split; [|reflexivity]. intros _.
        destruct deleteChanges as [|d ds]; [now rewrite app_nil_r|simpl in *; lia]. }
  destruct Hmid as (sh2 & new2 & sent & E2 & Hsent & Hone & Hreq).
  rewrite (bind_ok _ _ _ _ _ _ sent E2).
  destruct sent as [|c sent].
  - change (0 <? length (@nil change))%nat with false. cbv iota.
    exists (Ok (JObj [("message", JStr "All operations completed")])), sh2, new2, [].
    split; [reflexivity|]. split; [exact Hsent|]. split; [exact Hone|].
    now rewrite Hreq, app_nil_r.
  - change (0 <? length (c :: sent))%nat with true. cbv iota.
    destruct (processIndividualOperations_spec (c :: sent)
                (mkWorld sh2 (GAME_DATA w) (new2 ++ exchanges w) (endpoint w)))
      as (out3 & sh3 & E3 & _).
    cbn [sheet GAME_DATA exchanges endpoint] in E3. rewrite E3.
    eexists out3, sh3, (_ :: new2), (c :: sent).
    split; [reflexivity|]. split; [exact Hsent|]. split; [exact Hone|].
    cbn [rev]. rewrite map_app. apply f_equal2; [exact Hreq|reflexivity].
Qed.

(** ** Loops that send one request per item *)

Section RequestPerItem.
Variables (A : Type) (f : A -> M unit) (req : A -> request) (rowOf : A -> nat).
Variables (verdict : fetched -> option string) (okStatus : string).

Hypothesis f_run : forall x w,
  let res := endpoint w (exchanges w) (req x) in
  exists ws,
    f x w = (Ok tt, mkWorld (ws ++ sheet w) (GAME_DATA w)
                            ((req x, res) :: exchanges w) (endpoint w))
    /\ itemWrites rowOf verdict okStatus x res ws.

Lemma itemWrites_settled (x : A) (res : fetched) (ws sh : Sheet) :
  itemWrites rowOf verdict okStatus x res ws ->
  itemSettled rowOf verdict okStatus x res sh (ws ++ sh).
Proof.
  intros [Hw Hv]. unfold itemSettled. destruct (verdict res) as [id|] eqn:V.
  - destruct Hv as [Hin Hst]. split; [|apply Hst].
    unfold idCell. apply (getValue_app_written (fun v => v = id)).
    + now exists id.
    + intros v Hv. destruct (Hw _ _ _ Hv) as [_ [C|[C|[_ C]]]];
        try discriminate C. congruence.
  - split; [|apply Hv]. unfold idCell. apply getValue_app_other.
    intros r c v Hin. destruct (Hw _ _ _ Hin) as [_ [C|[C|[_ C]]]];
      try discriminate C; right; rewrite C; discriminate.
Qed.

Lemma forEach_request_per_item (l : list A) :
  forall w, exists ws answers,
    forEach f l w
    = (Ok tt, mkWorld (ws ++ sheet w) (GAME_DATA w)
                      (rev (combine (map req l) answers) ++ exchanges w) (endpoint w))
    /\ length answers = length l
    /\ (forall r c v, In (r, c, v) ws ->
          In r (map rowOf l)
          /\ (c = SYNC_STATUS_ID_COLUMN \/ c = SYNC_MESSAGE_ID_COLUMN
              \/ c = HUBDB_ROW_ID_COLUMN))
    /\ (NoDup (map rowOf l) ->
        forall x res, In (x, res) (combine l answers) ->
        forall sh, itemSettled rowOf verdict okStatus x res sh (ws ++ sh)).
Proof.
  induction l as [|x l IH]; intros w.
  - exists [], []. split; [simpl; unfold ret; now rewrite <- world_eta|].
    split; [reflexivity|]. split; [intros r c v []|]. intros _ x res [].
  - destruct (f_run x w) as (wsx & Ex & Hx). cbv zeta in Ex.
    set (a := endpoint w (exchanges w) (req x)) in *.
    match type of Ex with _ = (_, ?w1) => destruct (IH w1) as (wsl & ans & El & Hlen & Hrows & Hset) end.
    cbn [sheet GAME_DATA exchanges endpoint] in El.
    exists (wsl ++ wsx), (a :: ans).
    split.
    { cbn [forEach]. rewrite (bind_ok _ _ _ _ _ _ tt Ex), El.
      cbn [map combine rev]. now rewrite <- !app_assoc. }
    split; [simpl; now rewrite Hlen|].
    split.
    { intros r c v Hin. apply in_app_or in Hin as [Hin|Hin].
      - destruct (Hrows _ _ _ Hin) as [Hr Hc]. split; [now right|exact Hc].
      - destruct (proj1 Hx _ _ _ Hin) as [Hr Hc].
        split; [now left|intuition auto]. }
    intros Hnd y res Hin sh. cbn [map] in Hnd. inversion Hnd as [|? ? Hnotin Hnd']; subst.
    rewrite <- app_assoc.
    destruct Hin as [E|Hin].
    + injection E as <- <-.
      pose proof (itemWrites_settled x a wsx sh Hx) as S.
      assert (G : forall c, getValue (wsl ++ wsx ++ sh) (rowOf x) c
                            = getValue (wsx ++ sh) (rowOf x) c).
      { intros c. apply getValue_app_other. intros r' c' v Hin'. left.
        intros ->. apply Hnotin. eapply (proj1 (Hrows _ _ _ Hin')). }
      unfold itemSettled, idCell, statusOf in *. rewrite !G. exact S.
    + pose proof (Hset Hnd' y res Hin (wsx ++ sh)) as S.
      unfold itemSettled in *. destruct (verdict res); [exact S|].
      destruct S as [S1 S2]. split; [|exact S2]. rewrite S1.
      unfold idCell. apply getValue_app_other. intros r' c' v Hin'. left.
      rewrite (proj1 (proj1 Hx _ _ _ Hin')). intros E. apply Hnotin.
      rewrite E. apply in_map. eapply in_combine_l, Hin.
Qed.
End RequestPerItem.

(** ** Creating HubDB rows *)

Ltac leaf :=
  first [ eexists [_; _; _]; split; [reflexivity|]
        | eexists [_; _; _; _]; split; [reflexivity|]
        | eexists [_; _; _; _; _]; split; [reflexivity|] ].

Ltac writes_only :=
  let H := fresh in
  intros ? ? ? H; cbn [In] in H;
  repeat (destruct H as [H|H]; [injection H as <- <- <-; auto|]); destruct H.

Lemma createOneRow_run (ri : rowInfo) (w : world) :
  let res := endpoint w (exchanges w) (createRequest ri) in
  exists ws,
    createOneRow ri w
    = (Ok tt, mkWorld (ws ++ sheet w) (GAME_DATA w)
                      ((createRequest ri, res) :: exchanges w) (endpoint w))
    /\ itemWrites ri_sheetRow createdId "sync success" ri res ws.
Proof.
  cbv zeta. unfold createOneRow. fold (createRequest ri).
  unfold try_catch, bind, setCell, fetch, lift, throw, ret, itemWrites, statusOf.
  cbn [sheet GAME_DATA exchanges endpoint].
  destruct (endpoint w (exchanges w) (createRequest ri)) as [e|r]; cbn [createdId].
  2: destruct (is2xx (getResponseCode r)).
  2: destruct (parsed r) as [j|e].
  2: destruct (js_field j "success") as [s|e].
  2: destruct (js_truthy s); cbn [andb].
  2: destruct (js_field j "hubdbRowId") as [i|e].
  2: destruct (js_truthy i).
  all: cbn [sheet GAME_DATA exchanges endpoint]; leaf.
  all: (split; [writes_only|]).
  all: try (intros sh; cbn [getValue app]; now rewrite Nat.eqb_refl).
  all: try (split; [cbn [In]; auto|intros sh; cbn [getValue app]; now rewrite Nat.eqb_refl]).
Qed.

Lemma createHubDBRows_run (rows : list rowInfo) (w : world) :
  exists ws answers,
    createHubDBRows rows w
    = (Ok tt, mkWorld (ws ++ flat_map clearWrites (rev (map ri_sheetRow rows)) ++ sheet w)
                      (GAME_DATA w)
                      (rev (combine (map createRequest rows) answers) ++ exchanges w)
                      (endpoint w))
    /\ length answers = length rows
    /\ (forall r c v, In (r, c, v) ws ->
          In r (map ri_sheetRow rows)
          /\ (c = SYNC_STATUS_ID_COLUMN \/ c = SYNC_MESSAGE_ID_COLUMN
              \/ c = HUBDB_ROW_ID_COLUMN))
    /\ (NoDup (map ri_sheetRow rows) ->
        forall ri res, In (ri, res) (combine rows answers) ->
        forall sh, itemSettled ri_sheetRow createdId "sync success" ri res sh (ws ++ sh)).
Proof.
  unfold createHubDBRows, try_catch.
  rewrite (bind_ok _ _ _ _ _ _ tt (clearSyncStatusForRows_writes _ w)).
  match goal with |- context [forEach createOneRow rows ?w1] =>
    destruct (forEach_request_per_item _ createOneRow createRequest ri_sheetRow
                createdId "sync success" createOneRow_run rows w1)
      as (ws & answers & E & Hlen & Hw & Hset)
  end.
  cbn [sheet GAME_DATA exchanges endpoint] in E.
  exists ws, answers. rewrite E. auto.
Qed.

Lemma In_clearWrites (rows : list nat) (r c : nat) (v : string) :
  In (r, c, v) (flat_map clearWrites (rev rows)) ->
  In r rows /\ (c = SYNC_STATUS_ID_COLUMN \/ c = SYNC_MESSAGE_ID_COLUMN) /\ v = "".
Proof.
  intros Hin. apply in_flat_map in Hin. destruct Hin as (x & Hx & Hin).
  apply in_rev in Hx. unfold clearWrites in Hin.
  destruct Hin as [E|[E|[]]]; injection E as <- <- <-; auto.
Qed.

(** X15. [createHubDBRows] never throws and leaves the stored baseline alone;
    whatever the endpoint answers, it sends exactly one creation request per
    row, in order; and it writes only to the id, status and message cells of
    the rows it was given. *)
Theorem createHubDBRows_requests (rows : list rowInfo) (w : world) :
  exists sh answers,
    createHubDBRows rows w
    = (Ok tt, mkWorld sh (GAME_DATA w)
                      (rev (combine (map createRequest rows) answers) ++ exchanges w)
                      (endpoint w))
    /\ length answers = length rows
    /\ forall r c,
         ~ In r (map ri_sheetRow rows)
         \/ (c <> HUBDB_ROW_ID_COLUMN /\ c <> SYNC_STATUS_ID_COLUMN
             /\ c <> SYNC_MESSAGE_ID_COLUMN) ->
         getValue sh r c = getValue (sheet w) r c.
Proof.
  destruct (createHubDBRows_run rows w) as (ws & answers & E & Hlen & Hw & _).
  eexists; exists answers. split; [exact E|]. split; [exact Hlen|].
  intros r c H. rewrite app_assoc. apply getValue_app_other.
  intros r' c' v Hin. apply in_app_or in Hin as [Hin|Hin].
  - destruct (Hw _ _ _ Hin) as [Hr Hc].
    destruct H as [H|(H1 & H2 & H3)]; [left; intros ->; auto|right; intros ->; tauto].
  - destruct (In_clearWrites _ _ _ _ Hin) as (Hr & Hc & _).
    destruct H as [H|(H1 & H2 & H3)]; [left; intros ->; auto|right; intros ->; tauto].
Qed.

(** X16. When the rows to create lie on distinct sheet rows, each row ends
    according to the answer to its own request: if the answer is 2xx, parses
    and carries truthy [success] and [hubdbRowId], the id cell holds that id
    and the status is ["sync success"]; otherwise the id cell is as before and
    the status is ["error"]. *)
Theorem createHubDBRows_outcome (rows : list rowInfo) (w : world) :
  NoDup (map ri_sheetRow rows) ->
  exists sh answers,
    createHubDBRows rows w
    = (Ok tt, mkWorld sh (GAME_DATA w)
                      (rev (combine (map createRequest rows) answers) ++ exchanges w)
                      (endpoint w))
    /\ length answers = length rows
    /\ forall ri res, In (ri, res) (combine rows answers) ->
       match createdId res with
       | Some id => idCell sh (ri_sheetRow ri) = id
                    /\ statusOf sh (ri_sheetRow ri) = "sync success"
       | None => idCell sh (ri_sheetRow ri) = idCell (sheet w) (ri_sheetRow ri)
                 /\ statusOf sh (ri_sheetRow ri) = "error"
       end.
Proof.
  intros Hnd.
  destruct (createHubDBRows_run rows w) as (ws & answers & E & Hlen & _ & Hset).
  eexists; exists answers. split; [exact E|]. split; [exact Hlen|].
  intros ri res Hin. specialize (Hset Hnd ri res Hin (flat_map clearWrites (rev (map ri_sheetRow rows)) ++ sheet w)).
  unfold itemSettled in Hset. destruct (createdId res); [exact Hset|].
  destruct Hset as [S1 S2]. split; [|exact S2]. rewrite S1.
  unfold idCell. apply getValue_app_other. intros r' c' v Hin'.
  destruct (In_clearWrites _ _ _ _ Hin') as (_ & [->| ->] & _); right; discriminate.
Qed.

(** ** Cleared rows *)

Lemma handleSingleClearedRow_run (cr : clearedRow) (w : world) :
  let res := endpoint w (exchanges w) (deleteRequest cr) in
  exists ws,
    handleSingleClearedRow cr w
    = (Ok tt, mkWorld (ws ++ sheet w) (GAME_DATA w)
                      ((deleteRequest cr, res) :: exchanges w) (endpoint w))
    /\ itemWrites cleared_sheetRow deleteVerdict "deleted" cr res ws.
Proof.
  cbv zeta. unfold handleSingleClearedRow. fold (deleteRequest cr).
  unfold markCleared, try_catch, bind, setCell, fetch, lift, throw, ret, itemWrites,
    statusOf, deleteVerdict.
  cbn [sheet GAME_DATA exchanges endpoint].
  destruct (endpoint w (exchanges w) (deleteRequest cr)) as [e|r]; cbn [deleteAccepted].
  2: destruct (is2xx (getResponseCode r)); cbn [andb].
  2: destruct (parsed r) as [j|e].
  2: destruct (js_field j "success") as [s|e].
  2: destruct (js_truthy s).
  all: cbn [sheet GAME_DATA exchanges endpoint]; leaf.
  all: (split; [writes_only|]).
  all: try (intros sh; cbn [getValue app]; now rewrite Nat.eqb_refl).
  all: try (split; [cbn [In]; auto|intros sh; cbn [getValue app]; now rewrite Nat.eqb_refl]).
Qed.

(** X17. [handleSingleClearedRow] never throws and sends exactly one delete
    request.  If the answer is 2xx, parses and has a truthy [success], the id
    cell of the row is emptied and its status is ["deleted"]; on any other
    answer, and when the fetch itself throws, the id cell is kept and the
    status is ["error"].  No cell outside the row's id, status and message
    cells changes. *)
Theorem handleSingleClearedRow_outcome (cr : clearedRow) (w : world) :
  let row := cleared_sheetRow cr in
  let res := endpoint w (exchanges w) (deleteRequest cr) in
  exists sh,
    handleSingleClearedRow cr w
    = (Ok tt, mkWorld sh (GAME_DATA w) ((deleteRequest cr, res) :: exchanges w)
                      (endpoint w))
    /\ (if deleteAccepted res
        then idCell sh row = "" /\ statusOf sh row = "deleted"
        else idCell sh row = idCell (sheet w) row /\ statusOf sh row = "error")
    /\ forall r c,
         r <> row
         \/ (c <> HUBDB_ROW_ID_COLUMN /\ c <> SYNC_STATUS_ID_COLUMN
             /\ c <> SYNC_MESSAGE_ID_COLUMN) ->
         getValue sh r c = getValue (sheet w) r c.
Proof.
  cbv zeta. destruct (handleSingleClearedRow_run cr w) as (ws & E & Hw).
  cbv zeta in E. eexists. split; [exact E|]. split.
  - pose proof (itemWrites_settled _ _ _ _ cr _ ws (sheet w) Hw) as S.
    unfold itemSettled, deleteVerdict in S.
    destruct (deleteAccepted _); exact S.
  - intros r c H. apply getValue_app_other. intros r' c' v Hin.
    destruct (proj1 Hw _ _ _ Hin) as [-> Hc].
    destruct H as [H|(H1 & H2 & H3)]; [left; auto|right; intros ->].
    destruct Hc as [Hc|[Hc|[Hc _]]]; auto.
Qed.

Lemma markCleared_writes (status msg : string) (cr : clearedRow) (w : world) :
  markCleared status msg cr w
  = (Ok tt, mkWorld (markWrites status msg cr ++ sheet w) (GAME_DATA w) (exchanges w)
                    (endpoint w)).
Proof. reflexivity. Qed.

Lemma In_markWrites (status msg : string) (crs : list clearedRow) (r c : nat) (v : string) :
  In (r, c, v) (flat_map (markWrites status msg) (rev crs)) ->
  In r (map cleared_sheetRow crs)
  /\ ((c = SYNC_STATUS_ID_COLUMN /\ v = status) \/ c = SYNC_MESSAGE_ID_COLUMN).
Proof.
  intros Hin. apply in_flat_map in Hin. destruct Hin as (x & Hx & Hin).
  apply in_rev in Hx. unfold markWrites in Hin.
  destruct Hin as [E|[E|[]]]; injection E as <- <- <-;
    (split; [now apply in_map|auto]).
Qed.

Lemma In_syncingWrites (crs : list clearedRow) (r c : nat) (v : string) :
  In (r, c, v) (flat_map syncingWrites (rev crs)) ->
  In r (map cleared_sheetRow crs) /\ c = SYNC_STATUS_ID_COLUMN.
Proof.
  intros Hin. apply in_flat_map in Hin. destruct Hin as (x & Hx & Hin).
  apply in_rev in Hx. unfold syncingWrites in Hin.
  destruct Hin as [E|[]]; injection E as <- <- <-. split; [now apply in_map|auto].
Qed.

Lemma NoDup_map_In_inj (A B : Type) (f : A -> B) (l : list A) (x y : A) :
  NoDup (map f l) -> In x l -> In y l -> f x = f y -> x = y.
Proof.
  induction l as [|a l IH]; intros Hnd Hx Hy E; [destruct Hx|].
  cbn [map] in Hnd. inversion Hnd as [|? ? Hnotin Hnd']; subst.
  destruct Hx as [->|Hx], Hy as [->|Hy]; auto.
  - exfalso. apply Hnotin. rewrite E. now apply in_map.
  - exfalso. apply Hnotin. rewrite <- E. now apply in_map.
Qed.

(** The tail every failed batch runs: mark each row, then delete one by
    one. *)
Lemma fallback_run (f : clearedRow -> M unit) (msg : string) (crs : list clearedRow) :
  (forall x w,
     let res := endpoint w (exchanges w) (deleteRequest x) in
     exists ws,
       f x w = (Ok tt, mkWorld (ws ++ sheet w) (GAME_DATA w)
                               ((deleteRequest x, res) :: exchanges w) (endpoint w))
       /\ itemWrites cleared_sheetRow deleteVerdict "deleted" x res ws) ->
  forall w, exists ws answers,
    (forEach (markCleared "error" msg) crs ;; forEach f crs) w
    = (Ok tt, mkWorld (ws ++ sheet w) (GAME_DATA w)
                      (rev (combine (map deleteRequest crs) answers) ++ exchanges w)
                      (endpoint w))
    /\ length answers = length crs
    /\ (forall r c v, In (r, c, v) ws ->
          In r (map cleared_sheetRow crs)
          /\ (c = SYNC_STATUS_ID_COLUMN \/ c = SYNC_MESSAGE_ID_COLUMN
              \/ c = HUBDB_ROW_ID_COLUMN))
    /\ (NoDup (map cleared_sheetRow crs) ->
        forall cr res, In (cr, res) (combine crs answers) ->
        forall sh, itemSettled cleared_sheetRow deleteVerdict "deleted" cr res sh
                     (ws ++ sh)).
Proof.
  intros Hf w.
  pose proof (forEach_writes _ (markCleared "error" msg) (markWrites "error" msg) crs
                (markCleared_writes "error" msg) w) as E1.
  rewrite (bind_ok _ _ _ _ _ _ tt E1).
  match goal with |- context [forEach f crs ?w1] =>
    destruct (forEach_request_per_item _ f deleteRequest cleared_sheetRow
                deleteVerdict "deleted" Hf crs w1)
      as (ws & answers & E & Hlen & Hw & Hset)
  end.
  cbn [sheet GAME_DATA exchanges endpoint] in E.
  exists (ws ++ flat_map (markWrites "error" msg) (rev crs)), answers.
  rewrite E, <- app_assoc. split; [reflexivity|]. split; [exact Hlen|]. split.
  - intros r c v Hin. apply in_app_or in Hin as [Hin|Hin]; [eauto|].
    destruct (In_markWrites _ _ _ _ _ _ Hin) as [Hr [[Hc _]|Hc]]; auto.
  - intros Hnd cr res Hin sh. rewrite <- app_assoc.
    pose proof (Hset Hnd cr res Hin (flat_map (markWrites "error" msg) (rev crs) ++ sh))
      as S.
    unfold itemSettled in *. destruct (deleteVerdict res); [exact S|].
    destruct S as [S1 S2]. split; [|exact S2]. rewrite S1.
    unfold idCell. apply getValue_app_other. intros r' c' v Hin'.
    destruct (In_markWrites _ _ _ _ _ _ Hin') as [_ [[-> _]| ->]]; right; discriminate.
Qed.

Lemma guarded_single_run (x : clearedRow) (w : world) :
  let res := endpoint w (exchanges w) (deleteRequest x) in
  exists ws,
    try_catch (handleSingleClearedRow x) (fun _ => ret tt) w
    = (Ok tt, mkWorld (ws ++ sheet w) (GAME_DATA w)
                      ((deleteRequest x, res) :: exchanges w) (endpoint w))
    /\ itemWrites cleared_sheetRow deleteVerdict "deleted" x res ws.
Proof.
  cbv zeta. destruct (handleSingleClearedRow_run x w) as (ws & E & Hw). cbv zeta in E.
  exists ws. split; [|exact Hw]. unfold try_catch. now rewrite E.
Qed.

Lemma syncing_writes (crs : list clearedRow) (w : world) :
  forEach (fun clearedRow =>
             setCell (cleared_sheetRow clearedRow) SYNC_STATUS_ID_COLUMN "syncing") crs w
  = (Ok tt, mkWorld (flat_map syncingWrites (rev crs) ++ sheet w) (GAME_DATA w)
                    (exchanges w) (endpoint w)).
Proof. apply forEach_writes. reflexivity. Qed.

Lemma batch_writes (succ : list json) (crs : list clearedRow) (w : world) :
  forEach (fun clearedRow =>
             if someHubdbId succ (cleared_hubdbRowId clearedRow)
             then
               setCell (cleared_sheetRow clearedRow) HUBDB_ROW_ID_COLUMN "" ;;
               markCleared "deleted" "Successfully deleted from HubDB" clearedRow
             else markCleared "error" "Batch deletion failed" clearedRow) crs w
  = (Ok tt, mkWorld (flat_map (batchWrites succ) (rev crs) ++ sheet w) (GAME_DATA w)
                    (exchanges w) (endpoint w)).
Proof.
  apply forEach_writes. intros x w0. unfold batchWrites.
  destruct (someHubdbId succ (cleared_hubdbRowId x)); reflexivity.
Qed.

(** An accepted batch: one request, every row marked from the answer. *)
Lemma handleBatchClearedRows_accepted_run (crs : list clearedRow) (succ : list json)
    (w : world) :
  let res := endpoint w (exchanges w) (batchClearedRequest crs) in
  filter truthy (map cleared_hubdbRowId crs) <> [] ->
  batchAccepted res = Some succ ->
  handleBatchClearedRows crs w
  = (Ok tt, mkWorld (flat_map (batchWrites succ) (rev crs)
                       ++ flat_map syncingWrites (rev crs) ++ sheet w)
                    (GAME_DATA w) ((batchClearedRequest crs, res) :: exchanges w)
                    (endpoint w)).
Proof.
  cbv zeta. intros Hids Hacc. unfold handleBatchClearedRows.
  fold (batchClearedRequest crs).
  destruct (filter truthy (map cleared_hubdbRowId crs)) as [|i ids] eqn:Eids;
    [congruence|].
  change (length (i :: ids) =? 0)%nat with false. cbv iota.
  unfold try_catch. rewrite (bind_ok _ _ _ _ _ _ tt (syncing_writes crs w)).
  unfold bind at 1. unfold fetch. cbn [sheet GAME_DATA exchanges endpoint].
  destruct (endpoint w (exchanges w) (batchClearedRequest crs)) as [e|r];
    cbn [batchAccepted] in Hacc; [discriminate|].
  cbv zeta. destruct (is2xx (getResponseCode r)); [|discriminate].
  destruct (parsed r) as [j|e]; [|discriminate].
  rewrite (bind_ok _ _ _ _ _ _ j (lift_run _ _ _)).
  destruct (js_field j "success") as [s|e]; [|discriminate].
  rewrite (bind_ok _ _ _ _ _ _ s (lift_run _ _ _)).
  destruct (js_truthy s); [|discriminate].
  destruct (successfulDeletionsOf j) as [sd|e]; [|discriminate].
  injection Hacc as ->.
  rewrite (bind_ok _ _ _ _ _ _ succ (lift_run _ _ _)).
  rewrite batch_writes. reflexivity.
Qed.

(** A batch that is not accepted: every row is then deleted individually. *)
Lemma handleBatchClearedRows_fallback_run (crs : list clearedRow) (w : world) :
  let res := endpoint w (exchanges w) (batchClearedRequest crs) in
  filter truthy (map cleared_hubdbRowId crs) <> [] ->
  batchAccepted res = None ->
  exists ws answers,
    handleBatchClearedRows crs w
    = (Ok tt, mkWorld (ws ++ sheet w) (GAME_DATA w)
                      (rev (combine (map deleteRequest crs) answers)
                         ++ (batchClearedRequest crs, res) :: exchanges w)
                      (endpoint w))
    /\ length answers = length crs
    /\ (forall r c v, In (r, c, v) ws ->
          In r (map cleared_sheetRow crs)
          /\ (c = SYNC_STATUS_ID_COLUMN \/ c = SYNC_MESSAGE_ID_COLUMN
              \/ c = HUBDB_ROW_ID_COLUMN))
    /\ (NoDup (map cleared_sheetRow crs) ->
        forall cr res, In (cr, res) (combine crs answers) ->
        itemSettled cleared_sheetRow deleteVerdict "deleted" cr res (sheet w)
          (ws ++ sheet w)).
Proof.
  cbv zeta. intros Hids Hacc.
  assert (Tail : forall (f : clearedRow -> M unit) (msg : string),
            (forall x w,
               let res := endpoint w (exchanges w) (deleteRequest x) in
               exists ws,
                 f x w = (Ok tt, mkWorld (ws ++ sheet w) (GAME_DATA w)
                                   ((deleteRequest x, res) :: exchanges w) (endpoint w))
                 /\ itemWrites cleared_sheetRow deleteVerdict "deleted" x res ws) ->
            forall ex, exists ws answers,
              (forEach (markCleared "error" msg) crs ;; forEach f crs)
                (mkWorld (flat_map syncingWrites (rev crs) ++ sheet w) (GAME_DATA w)
                         ex (endpoint w))
              = (Ok tt, mkWorld (ws ++ sheet w) (GAME_DATA w)
                          (rev (combine (map deleteRequest crs) answers) ++ ex)
                          (endpoint w))
              /\ length answers = length crs
              /\ (forall r c v, In (r, c, v) ws ->
                    In r (map cleared_sheetRow crs)
                    /\ (c = SYNC_STATUS_ID_COLUMN \/ c = SYNC_MESSAGE_ID_COLUMN
                        \/ c = HUBDB_ROW_ID_COLUMN))
              /\ (NoDup (map cleared_sheetRow crs) ->
                  forall cr res, In (cr, res) (combine crs answers) ->
                  itemSettled cleared_sheetRow deleteVerdict "deleted" cr res (sheet w)
                    (ws ++ sheet w))).
  { intros f msg Hf ex.
    destruct (fallback_run f msg crs Hf
                (mkWorld (flat_map syncingWrites (rev crs) ++ sheet w) (GAME_DATA w)
                         ex (endpoint w)))
      as (ws & answers & E & Hlen & Hw & Hset).
    cbn [sheet GAME_DATA exchanges endpoint] in E.
    exists (ws ++ flat_map syncingWrites (rev crs)), answers.
    rewrite E, <- app_assoc. split; [reflexivity|]. split; [exact Hlen|]. split.
    - intros r c v Hin. apply in_app_or in Hin as [Hin|Hin]; [eauto|].
      destruct (In_syncingWrites _ _ _ _ Hin) as [Hr Hc]; auto.
    - intros Hnd cr res Hin.
      pose proof (Hset Hnd cr res Hin (flat_map syncingWrites (rev crs) ++ sheet w)) as S.
      unfold itemSettled in *. destruct (deleteVerdict res); [exact S|].
      destruct S as [S1 S2]. split; [|exact S2]. rewrite S1.
      unfold idCell. apply getValue_app_other. intros r' c' v Hin'.
      destruct (In_syncingWrites _ _ _ _ Hin') as [_ ->]. right; discriminate. }
  unfold handleBatchClearedRows. fold (batchClearedRequest crs).
  destruct (filter truthy (map cleared_hubdbRowId crs)) as [|i ids] eqn:Eids;
    [congruence|].
  change (length (i :: ids) =? 0)%nat with false. cbv iota.
  unfold try_catch. rewrite (bind_ok _ _ _ _ _ _ tt (syncing_writes crs w)).
  unfold bind at 1. unfold fetch. cbn [sheet GAME_DATA exchanges endpoint].
  destruct (endpoint w (exchanges w) (batchClearedRequest crs)) as [e|r];
    cbn [batchAccepted] in Hacc.
  { apply (Tail _ _ guarded_single_run). }
  cbv zeta. destruct (is2xx (getResponseCode r)).
  2:{ destruct (Tail _ ("HTTP " ++ decimal (getResponseCode r) ++ ": "
                          ++ getContentText r)%string handleSingleClearedRow_run
                  ((batchClearedRequest crs, Responded r) :: exchanges w))
        as (ws & answers & E & H).
      rewrite E. eauto. }
  destruct (parsed r) as [j|e].
  2:{ rewrite (bind_throw _ _ _ _ _ _ e (lift_run _ _ _)).
      apply (Tail _ _ guarded_single_run). }
  rewrite (bind_ok _ _ _ _ _ _ j (lift_run _ _ _)).
  destruct (js_field j "success") as [s|e].
  2:{ rewrite (bind_throw _ _ _ _ _ _ e (lift_run _ _ _)).
      apply (Tail _ _ guarded_single_run). }
  rewrite (bind_ok _ _ _ _ _ _ s (lift_run _ _ _)).
  destruct (js_truthy s).
  - destruct (successfulDeletionsOf j) as [sd|e]; [discriminate|].
    rewrite (bind_throw _ _ _ _ _ _ e (lift_run _ _ _)).
    apply (Tail _ _ guarded_single_run).
  - destruct (Tail _ ("Batch deletion failed: " ++ messageOr j)%string
                handleSingleClearedRow_run
                ((batchClearedRequest crs, Responded r) :: exchanges w))
      as (ws & answers & E & H).
    rewrite E. eauto.
Qed.

Lemma map_fst_combine_same (A B : Type) (l : list A) (l' : list B) :
  length l' = length l -> map fst (combine l l') = l.
Proof.
  revert l'. induction l as [|x l IH]; intros [|y l'] H; simpl in *;
    try discriminate; [reflexivity|]. f_equal. apply IH. lia.
Qed.

Lemma truthy_ids_nonempty (crs : list clearedRow) :
  (1 < length crs)%nat ->
  (forall cr, In cr crs -> cleared_hubdbRowId cr <> "") ->
  filter truthy (map cleared_hubdbRowId crs) <> [].
Proof.
  destruct crs as [|cr crs]; simpl; [lia|]. intros _ H.
  unfold truthy at 1. destruct (String.eqb_spec (cleared_hubdbRowId cr) "") as [E|_].
  - exfalso. apply (H cr); auto.
  - discriminate.
Qed.

Lemma handleClearedRows_batch (cr1 cr2 : clearedRow) (crs : list clearedRow) (w : world) :
  handleClearedRows (cr1 :: cr2 :: crs) w
  = handleBatchClearedRows (cr1 :: cr2 :: crs)
      (mkWorld (flat_map clearWrites (rev (map cleared_sheetRow (cr1 :: cr2 :: crs)))
                  ++ sheet w) (GAME_DATA w) (exchanges w) (endpoint w)).
Proof.
  unfold handleClearedRows. rewrite try_catch_rethrow.
  change (length (cr1 :: cr2 :: crs) =? 0)%nat with false.
  change (1 <? length (cr1 :: cr2 :: crs))%nat with true. cbv iota.
  now rewrite (bind_ok _ _ _ _ _ _ tt (clearSyncStatusForRows_writes _ w)).
Qed.

(** X18. [handleClearedRows] never throws and leaves the stored baseline
    alone.  With no cleared row it sends nothing; with one it sends that row's
    delete request; with two or more it sends one batch request (none when no
    row has an id), and when the batch is not accepted - the fetch throws, the
    answer is not 2xx, does not parse, or does not report a truthy [success] -
    it then sends one delete request per row, in order. *)
Theorem handleClearedRows_requests (crs : list clearedRow) (w : world) :
  let res := endpoint w (exchanges w) (batchClearedRequest crs) in
  exists sh new,
    handleClearedRows crs w
    = (Ok tt, mkWorld sh (GAME_DATA w) (new ++ exchanges w) (endpoint w))
    /\ map fst (rev new)
       = match crs with
         | [] => []
         | [cr] => [deleteRequest cr]
         | _ :: _ :: _ =>
             match filter truthy (map cleared_hubdbRowId crs) with
             | [] => []
             | _ :: _ =>
                 batchClearedRequest crs
                   :: match batchAccepted res with
                      | Some _ => []
                      | None => map deleteRequest crs
                      end
             end
         end.
Proof.
  cbv zeta. destruct crs as [|cr1 [|cr2 crs]].
  - exists (sheet w), []. split; [|reflexivity].
    unfold handleClearedRows. rewrite try_catch_rethrow. simpl. unfold ret.
    now rewrite <- world_eta.
  - unfold handleClearedRows. rewrite try_catch_rethrow.
    change (length [cr1] =? 0)%nat with false. change (1 <? length [cr1])%nat with false.
    cbv iota. rewrite (bind_ok _ _ _ _ _ _ tt (clearSyncStatusForRows_writes _ w)).
    match goal with |- context [handleSingleClearedRow cr1 ?w1] =>
      destruct (handleSingleClearedRow_run cr1 w1) as (ws & E & _) end.
    cbv zeta in E. cbn [sheet GAME_DATA exchanges endpoint] in E.
    rewrite E. eexists _, [_]. split; reflexivity.
  - rewrite handleClearedRows_batch.
    set (l := cr1 :: cr2 :: crs) in *.
    set (w1 := mkWorld _ (GAME_DATA w) (exchanges w) (endpoint w)).
    destruct (filter truthy (map cleared_hubdbRowId l)) as [|i ids] eqn:Eids.
    + exists (sheet w1), []. split; [|reflexivity].
      unfold handleBatchClearedRows, try_catch. rewrite Eids. reflexivity.
    + assert (Hne : filter truthy (map cleared_hubdbRowId l) <> []) by congruence.
      destruct (batchAccepted (endpoint w (exchanges w) (batchClearedRequest l)))
        as [succ|] eqn:Hacc.
      * rewrite (handleBatchClearedRows_accepted_run l succ w1 Hne Hacc).
        eexists _, [_]. split; reflexivity.
      * destruct (handleBatchClearedRows_fallback_run l w1 Hne Hacc)
          as (ws & answers & E & Hlen & _).
        cbn [sheet GAME_DATA exchanges endpoint] in E. rewrite E.
        eexists _, (rev (combine (map deleteRequest l) answers) ++ [_]).
        split; [now rewrite <- app_assoc|].
        rewrite rev_app_distr, rev_involutive. cbn [rev app map fst]. f_equal.
        apply map_fst_combine_same. now rewrite length_map.
Qed.

(** X19. Two or more cleared rows on distinct sheet rows, each with an id, and
    an accepted batch answer: only the batch request is sent, and a row whose
    id is among the answer's successful deletions ends with an empty id cell
    and status ["deleted"], every other row with its id cell kept and status
    ["error"]. *)
Theorem handleClearedRows_batch_accepted (crs : list clearedRow) (succ : list json)
    (w : world) :
  let res := endpoint w (exchanges w) (batchClearedRequest crs) in
  (1 < length crs)%nat ->
  NoDup (map cleared_sheetRow crs) ->
  (forall cr, In cr crs -> cleared_hubdbRowId cr <> "") ->
  batchAccepted res = Some succ ->
  exists sh,
    handleClearedRows crs w
    = (Ok tt, mkWorld sh (GAME_DATA w) ((batchClearedRequest crs, res) :: exchanges w)
                      (endpoint w))
    /\ forall cr, In cr crs ->
       let row := cleared_sheetRow cr in
       if someHubdbId succ (cleared_hubdbRowId cr)
       then idCell sh row = "" /\ statusOf sh row = "deleted"
       else idCell sh row = idCell (sheet w) row /\ statusOf sh row = "error".
Proof.
  cbv zeta. intros Hlen Hnd Hids Hacc.
  pose proof (truthy_ids_nonempty crs Hlen Hids) as Hne.
  destruct crs as [|cr1 [|cr2 crs]]; [simpl in Hlen; lia|simpl in Hlen; lia|].
  rewrite handleClearedRows_batch.
  set (l := cr1 :: cr2 :: crs) in *.
  match goal with |- context [handleBatchClearedRows l ?w1] =>
    rewrite (handleBatchClearedRows_accepted_run l succ w1 Hne Hacc) end.
  cbn [sheet GAME_DATA exchanges endpoint].
  eexists. split; [reflexivity|]. intros cr Hin.
  assert (Hb : forall r c v, In (r, c, v) (flat_map (batchWrites succ) (rev l)) ->
                 exists x, In x l /\ In (r, c, v) (batchWrites succ x)).
  { intros r c v H. apply in_flat_map in H. destruct H as (x & Hx & H).
    apply in_rev in Hx. eauto. }
  assert (Hown : forall c v, In (cleared_sheetRow cr, c, v) (flat_map (batchWrites succ) (rev l)) ->
                   In (cleared_sheetRow cr, c, v) (batchWrites succ cr)).
  { intros c v H. destruct (Hb _ _ _ H) as (x & Hx & Hv).
    assert (Er : cleared_sheetRow x = cleared_sheetRow cr).
    { unfold batchWrites, markWrites in Hv.
      destruct (someHubdbId succ (cleared_hubdbRowId x)); cbn [In app] in Hv;
        repeat (destruct Hv as [Hv|Hv]; [now injection Hv|]); destruct Hv. }
    pose proof (NoDup_map_In_inj _ _ cleared_sheetRow l x cr Hnd Hx Hin Er) as E.
    subst x. exact Hv. }
  assert (Hhas : forall c v, In (cleared_sheetRow cr, c, v) (batchWrites succ cr) ->
                  In (cleared_sheetRow cr, c, v) (flat_map (batchWrites succ) (rev l))).
  { intros c v H. apply in_flat_map. exists cr. split; [now apply -> in_rev|exact H]. }
  assert (Hrest : forall sh, idCell (flat_map syncingWrites (rev l)
                                ++ flat_map clearWrites (rev (map cleared_sheetRow l)) ++ sh)
                               (cleared_sheetRow cr)
                             = idCell sh (cleared_sheetRow cr)).
  { intros sh. unfold idCell. rewrite app_assoc. apply getValue_app_other.
    intros r' c' v H. right. apply in_app_or in H as [H|H].
    - destruct (In_syncingWrites _ _ _ _ H) as [_ ->]. discriminate.
    - destruct (In_clearWrites _ _ _ _ H) as (_ & [->| ->] & _); discriminate. }
  unfold batchWrites, markWrites in Hown, Hhas.
  destruct (someHubdbId succ (cleared_hubdbRowId cr)); split.
  - unfold idCell. apply (getValue_app_written (fun v => v = "")).
    + exists "". apply Hhas. cbn [In app]. auto.
    + intros v H. apply Hown in H. cbn [In app] in H.
      destruct H as [H|[H|[H|[]]]]; try discriminate H. now injection H.
  - unfold statusOf. apply (getValue_app_written (fun v => v = "deleted")).
    + exists "deleted". apply Hhas. cbn [In app]. auto.
    + intros v H. apply Hown in H. cbn [In app] in H.
      destruct H as [H|[H|[H|[]]]]; try discriminate H. now injection H.
  - rewrite <- (Hrest (sheet w)). unfold idCell. apply getValue_app_other.
    intros r' c' v H. destruct (Nat.eq_dec r' (cleared_sheetRow cr)) as [->|]; [|now left].
    right. apply Hown in H. cbn [In] in H.
    destruct H as [H|[H|[]]]; injection H as <- _; discriminate.
  - unfold statusOf. apply (getValue_app_written (fun v => v = "error")).
    + exists "error". apply Hhas. cbn [In]. auto.
    + intros v H. apply Hown in H. cbn [In] in H.
      destruct H as [H|[H|[]]]; try discriminate H. now injection H.
Qed.

(** X20. Two or more cleared rows on distinct sheet rows, each with an id, and
    a batch that is not accepted: after the batch request every row gets its
    own delete request, in order, and ends by the answer to that request - id
    cell emptied and status ["deleted"] when it is accepted, id cell kept and
    status ["error"] otherwise. *)
Theorem handleClearedRows_batch_fallback (crs : list clearedRow) (w : world) :
  let res := endpoint w (exchanges w) (batchClearedRequest crs) in
  (1 < length crs)%nat ->
  NoDup (map cleared_sheetRow crs) ->
  (forall cr, In cr crs -> cleared_hubdbRowId cr <> "") ->
  batchAccepted res = None ->
  exists sh answers,
    handleClearedRows crs w
    = (Ok tt, mkWorld sh (GAME_DATA w)
                      (rev (combine (map deleteRequest crs) answers)
                         ++ (batchClearedRequest crs, res) :: exchanges w)
                      (endpoint w))
    /\ length answers = length crs
    /\ forall cr answer, In (cr, answer) (combine crs answers) ->
       let row := cleared_sheetRow cr in
       if deleteAccepted answer
       then idCell sh row = "" /\ statusOf sh row = "deleted"
       else idCell sh row = idCell (sheet w) row /\ statusOf sh row = "error".
Proof.
  cbv zeta. intros Hlen Hnd Hids Hacc.
  pose proof (truthy_ids_nonempty crs Hlen Hids) as Hne.
  destruct crs as [|cr1 [|cr2 crs]]; [simpl in Hlen; lia|simpl in Hlen; lia|].
  rewrite handleClearedRows_batch.
  set (l := cr1 :: cr2 :: crs) in *.
  match goal with |- context [handleBatchClearedRows l ?w1] =>
    destruct (handleBatchClearedRows_fallback_run l w1 Hne Hacc)
      as (ws & answers & E & Hl & _ & Hset) end.
  cbn [sheet GAME_DATA exchanges endpoint] in E, Hset. rewrite E.
  eexists; exists answers. split; [reflexivity|]. split; [exact Hl|].
  intros cr answer Hin. specialize (Hset Hnd cr answer Hin).
  unfold itemSettled, deleteVerdict in Hset.
  destruct (deleteAccepted answer); [exact Hset|].
  destruct Hset as [S1 S2]. split; [|exact S2]. rewrite S1.
  unfold idCell. apply getValue_app_other. intros r' c' v H. right.
  destruct (In_clearWrites _ _ _ _ H) as (_ & [->| ->] & _); discriminate.
Qed.

(** ** The cycle, step by step *)

Lemma handleClearedRows_never_throws (crs : list clearedRow) (w : world) :
  exists w', handleClearedRows crs w = (Ok tt, w').
Proof.
  destruct crs as [|cr1 [|cr2 crs]].
  - unfold handleClearedRows. rewrite try_catch_rethrow. simpl. unfold ret. eauto.
  - unfold handleClearedRows. rewrite try_catch_rethrow.
    change (length [cr1] =? 0)%nat with false. change (1 <? length [cr1])%nat with false.
    cbv iota. rewrite (bind_ok _ _ _ _ _ _ tt (clearSyncStatusForRows_writes _ w)).
    match goal with |- context [handleSingleClearedRow cr1 ?w1] =>
      destruct (handleSingleClearedRow_run cr1 w1) as (ws & E & _) end.
    cbv zeta in E. rewrite E. eauto.
  - rewrite handleClearedRows_batch.
    set (l := cr1 :: cr2 :: crs) in *.
    set (w1 := mkWorld _ (GAME_DATA w) (exchanges w) (endpoint w)).
    destruct (filter truthy (map cleared_hubdbRowId l)) as [|i ids] eqn:Eids.
    + unfold handleBatchClearedRows, try_catch. rewrite Eids. simpl. unfold ret. eauto.
    + assert (Hne : filter truthy (map cleared_hubdbRowId l) <> []) by congruence.
      destruct (batchAccepted (endpoint w1 (exchanges w1) (batchClearedRequest l)))
        as [succ|] eqn:Hacc.
      * rewrite (handleBatchClearedRows_accepted_run l succ w1 Hne Hacc). eauto.
      * destruct (handleBatchClearedRows_fallback_run l w1 Hne Hacc)
          as (ws & answers & E & _).
        rewrite E. eauto.
Qed.

Lemma cleared_step (crs : list clearedRow) (w : world) :
  exists sh new,
    when (0 <? length crs)%nat (handleClearedRows crs) w
    = (Ok tt, mkWorld sh (GAME_DATA w) (new ++ exchanges w) (endpoint w))
    /\ Forall (fun x : exchange => isCombined (fst x) = false) new.
Proof.
  destruct (calm_when_handleClearedRows crs w) as (out & sh & new & E & Hn).
  exists sh, new. split; [|exact Hn]. rewrite E. f_equal.
  revert E. unfold when. destruct (0 <? length crs)%nat.
  - destruct (handleClearedRows_never_throws crs w) as (w' & ->). congruence.
  - unfold ret. congruence.
Qed.

Lemma existsb_undelivered_calm (new : list exchange) :
  Forall (fun x : exchange => isCombined (fst x) = false) new ->
  existsb undelivered new = false.
Proof.
  induction 1 as [|x l Hx _ IH]; [reflexivity|].
  cbn [existsb]. unfold undelivered at 1. now rewrite Hx, IH.
Qed.

(** [sendToHubSpot] throws exactly when its combined request did not get
    through. *)
Lemma sendToHubSpot_delivery (cs : list change) (w : world) :
  exists out sh new,
    sendToHubSpot cs w
    = (out, mkWorld sh (GAME_DATA w) (new ++ exchanges w) (endpoint w))
    /\ returned out = negb (existsb undelivered new).
Proof.
  unfold sendToHubSpot. rewrite try_catch_rethrow.
  set (deleteChanges := filter isDeleted cs).
  set (otherChanges := filter (fun c => negb (isDeleted c)) cs).
  set (rowsToProcess := map rowOf (filter (fun c => negb (rowOf c =? 0)%nat) cs)).
  destruct (quiet_when (0 <? length rowsToProcess)%nat _
              (quiet_clearSyncStatusForRows rowsToProcess) w) as (u & sh1 & E1).
  rewrite (bind_ok _ _ _ _ _ _ u E1).
  set (w1 := mkWorld sh1 (GAME_DATA w) (exchanges w) (endpoint w)).
  assert (Hmid : exists sh2 new2 sent,
            (if (1 <? length deleteChanges)%nat
             then processBatchDeletes deleteChanges otherChanges
             else if (length deleteChanges =? 1)%nat
                  then ret (otherChanges ++ deleteChanges)
                  else ret otherChanges) w1
            = (Ok sent, mkWorld sh2 (GAME_DATA w) (new2 ++ exchanges w) (endpoint w))
            /\ Forall (fun x : exchange => isCombined (fst x) = false) new2).
  { destruct (1 <? length deleteChanges)%nat.
    - destruct (processBatchDeletes_total deleteChanges otherChanges w1)
        as (sh2 & oc & E & _).
      exists sh2, [(batchDeleteRequest deleteChanges,
                    endpoint w1 (exchanges w1) (batchDeleteRequest deleteChanges))], oc.
      split; [exact E|]. repeat constructor.
    - destruct (length deleteChanges =? 1)%nat.
      + exists sh1, [], (otherChanges ++ deleteChanges). split; [reflexivity|constructor].
      + exists sh1, [], otherChanges. split; [reflexivity|constructor]. }
  destruct Hmid as (sh2 & new2 & sent & E2 & Hn2).
  rewrite (bind_ok _ _ _ _ _ _ sent E2).
  pose proof (existsb_undelivered_calm new2 Hn2) as Hu.
  destruct (0 <? length sent)%nat.
  - rewrite processIndividualOperations_run. cbn [sheet GAME_DATA exchanges endpoint].
    destruct (endpoint w (new2 ++ exchanges w) (combinedRequest sent)) as [e|r] eqn:Er.
    + eexists _, _, (_ :: new2). split; [reflexivity|].
      cbn [existsb returned]. unfold undelivered at 1. reflexivity.
    + destruct (is2xx (getResponseCode r)) eqn:E2xx.
      * eexists _, _, (_ :: new2). split; [reflexivity|].
        cbn [existsb]. unfold undelivered at 1. cbn [fst snd]. rewrite Hu.
        cbn [combinedRequest isCombined delivered]. rewrite E2xx.
        destruct (parsed r); reflexivity.
      * eexists _, _, (_ :: new2). split; [reflexivity|].
        cbn [existsb returned]. unfold undelivered at 1. cbn [fst snd].
        cbn [combinedRequest isCombined delivered]. now rewrite E2xx.
  - exists (Ok (JObj [("message", JStr "All operations completed")])), sh2, new2.
    split; [reflexivity|]. now rewrite Hu.
Qed.

(** The last part of the [try] block: dispatch and, when no row was selected
    for creation, store the snapshot. *)
Lemma dispatch_step (allData : snapshot) (changes : list change) (noRows : bool)
    (w : world) :
  exists out sh new,
    (if (0 <? length changes)%nat then
       when (0 <? length (filter hasHubDBId changes))%nat
            (sendToHubSpot (filter hasHubDBId changes) ;; ret tt) ;;
       when noRows (storeData allData)
     else ret tt) w
    = (out, mkWorld sh (if (0 <? length changes)%nat && noRows && returned out
                        then Some allData else GAME_DATA w)
              (new ++ exchanges w) (endpoint w))
    /\ returned out = negb (existsb undelivered new)
    /\ (changes = [] -> sh = sheet w /\ new = []).
Proof.
  destruct changes as [|c changes].
  { exists (Ok tt), (sheet w), []. cbn. unfold ret. rewrite <- world_eta. auto. }
  change (0 <? length (c :: changes))%nat with true. cbv iota. cbn [andb].
  set (cw := filter hasHubDBId (c :: changes)).
  destruct (0 <? length cw)%nat.
  - destruct (sendToHubSpot_delivery cw w) as (out2 & sh2 & new2 & E2 & H2).
    destruct out2 as [j|e].
    + rewrite (bind_ok _ _ (when true _) _ w _ tt)
        by (unfold when; rewrite (bind_ok _ _ _ _ _ _ j E2); reflexivity).
      exists (Ok tt), sh2, new2. cbn [returned andb] in *.
      split; [|split; [exact H2|discriminate]].
      destruct noRows; cbn [when andb]; reflexivity.
    + rewrite (bind_throw _ _ (when true _) _ w _ e)
        by (unfold when; rewrite (bind_throw _ _ _ _ _ _ e E2); reflexivity).
      exists (Throw e), sh2, new2. cbn [returned andb] in *.
      rewrite andb_false_r. split; [reflexivity|split; [exact H2|discriminate]].
  - rewrite (bind_ok _ _ (when false _) _ w w tt) by reflexivity.
    exists (Ok tt), (sheet w), []. cbn [returned andb existsb negb app].
    split; [|split; [reflexivity|discriminate]].
    destruct noRows; cbn [when andb]; unfold storeData, ret;
      [reflexivity|now rewrite <- world_eta].
Qed.

Lemma body_without_creation (w : world) (allData : snapshot) (clearedRows : list clearedRow) :
  getAllSheetData (sheet w) (getLastRow (sheet w)) = Ok (allData, clearedRows) ->
  let changes := detectChanges allData (storedSnapshot w) in
  findRowsNeedingHubDBCreation allData changes = [] ->
  exists sh1 new1 out sh new,
    when (0 <? length clearedRows)%nat (handleClearedRows clearedRows) w
    = (Ok tt, mkWorld sh1 (GAME_DATA w) (new1 ++ exchanges w) (endpoint w))
    /\ Forall (fun x : exchange => isCombined (fst x) = false) new1
    /\ syncAllData_body w
       = (out, mkWorld sh (if (0 <? length changes)%nat && returned out
                           then Some allData else GAME_DATA w)
                 (new ++ new1 ++ exchanges w) (endpoint w))
    /\ returned out = negb (existsb undelivered new)
    /\ (changes = [] -> out = Ok tt /\ sh = sh1 /\ new = []).
Proof.
  intros Eg changes Hrows. unfold syncAllData_body.
  rewrite (bind_ok _ _ _ _ w w tt) by reflexivity.
  rewrite (bind_ok _ _ _ _ w w (allData, clearedRows)) by now rewrite Eg.
  cbv beta iota.
  destruct (cleared_step clearedRows w) as (sh1 & new1 & E1 & Hn1).
  rewrite (bind_ok _ _ _ _ _ _ tt E1).
  set (w1 := mkWorld sh1 (GAME_DATA w) (new1 ++ exchanges w) (endpoint w)).
  rewrite (bind_ok _ _ getStoredData _ w1 w1 (storedSnapshot w)) by reflexivity.
  cbv zeta. fold changes. rewrite Hrows.
  change (0 <? length (@nil rowInfo))%nat with false.
  change (length (@nil rowInfo) =? 0)%nat with true.
  rewrite (bind_ok _ _ (when false _) _ w1 w1 tt) by reflexivity.
  destruct (dispatch_step allData changes true w1) as (out & sh & new & E & Hout & Hnil).
  cbn [sheet GAME_DATA exchanges endpoint w1] in E, Hnil.
  exists sh1, new1, out, sh, new. rewrite E, andb_true_r.
  split; [exact E1|]. split; [exact Hn1|]. split; [reflexivity|].
  split; [exact Hout|]. intros Hc. destruct (Hnil Hc) as [-> ->].
  split; [|auto]. cbn in Hout. now destruct out as [[]|].
Qed.

Lemma body_with_creation (w : world) (allData : snapshot) (clearedRows : list clearedRow) :
  getAllSheetData (sheet w) (getLastRow (sheet w)) = Ok (allData, clearedRows) ->
  let changes := detectChanges allData (storedSnapshot w) in
  let rows := findRowsNeedingHubDBCreation allData changes in
  rows <> [] ->
  exists w1 w2 updated cleared out sh new,
    when (0 <? length clearedRows)%nat (handleClearedRows clearedRows) w = (Ok tt, w1)
    /\ createHubDBRows rows w1 = (Ok tt, w2)
    /\ getAllSheetData (sheet w2) (getLastRow (sheet w)) = Ok (updated, cleared)
    /\ syncAllData_body w = (out, mkWorld sh (Some updated) new (endpoint w)).
Proof.
  intros Eg changes rows Hrows. unfold syncAllData_body.
  rewrite (bind_ok _ _ _ _ w w tt) by reflexivity.
  rewrite (bind_ok _ _ _ _ w w (allData, clearedRows)) by now rewrite Eg.
  cbv beta iota.
  destruct (cleared_step clearedRows w) as (sh1 & new1 & E1 & Hn1).
  rewrite (bind_ok _ _ _ _ _ _ tt E1).
  set (w1 := mkWorld sh1 (GAME_DATA w) (new1 ++ exchanges w) (endpoint w)).
  rewrite (bind_ok _ _ getStoredData _ w1 w1 (storedSnapshot w)) by reflexivity.
  cbv zeta. fold changes. fold rows.
  destruct rows as [|ri rows'] eqn:Er; [congruence|]. rewrite <- Er in *.
  assert (H0 : (0 <? length rows)%nat = true) by now rewrite Er.
  assert (H1 : (length rows =? 0)%nat = false) by now rewrite Er.
  rewrite H0, H1.
  destruct (createHubDBRows_run rows w1) as (ws & answers & Ec & _).
  cbn [sheet GAME_DATA exchanges endpoint w1] in Ec.
  match type of Ec with _ = (_, ?x) => set (w2 := x) in * end.
  assert (Hlast : DATA_START_ROW <= getLastRow (sheet w)).
  { unfold getAllSheetData in Eg. unfold DATA_START_ROW in *.
    destruct (Nat.eqb_spec (getLastRow (sheet w) + 1 - 4) 0); [discriminate|lia]. }
  destruct (getAllSheetData_total (sheet w2) (getLastRow (sheet w)) Hlast)
    as (updated & cleared & Eu).
  set (w3 := mkWorld (sheet w2) (Some updated) (exchanges w2) (endpoint w)).
  assert (Ew : when true
                 (createHubDBRows rows ;;
                  refreshed <- (fun w0 => (getAllSheetData (sheet w0) (getLastRow (sheet w)), w0)) ;;
                  storeData (fst refreshed)) w1 = (Ok tt, w3)).
  { unfold when. rewrite (bind_ok _ _ _ _ _ _ tt Ec).
    rewrite (bind_ok _ _ _ _ w2 w2 (updated, cleared)) by now rewrite Eu.
    reflexivity. }
  rewrite (bind_ok _ _ _ _ _ _ tt Ew).
  destruct (dispatch_step allData changes false w3) as (out & sh & new & E & _).
  cbn [sheet GAME_DATA exchanges endpoint w3] in E.
  rewrite andb_false_r in E. cbn [andb] in E.
  exists w1, w2, updated, cleared, out, sh, (new ++ exchanges w2).
  rewrite E. auto.
Qed.

(** ** The cycle *)

(** X21. A cycle on a sheet with no data row (last row above the first data
    row) does nothing at all: no cell is written, nothing is sent and the
    stored baseline is untouched. *)
Theorem syncAllData_empty_sheet (w : world) :
  getLastRow (sheet w) < DATA_START_ROW ->
  syncAllData w = w.
Proof.
  intros H. unfold syncAllData, try_catch, syncAllData_body.
  rewrite (bind_ok _ _ _ _ w w tt) by reflexivity.
  assert (E : getAllSheetData (sheet w) (getLastRow (sheet w))
              = Throw (Error "The number of rows in the range must be at least 1.")).
  { unfold getAllSheetData. unfold DATA_START_ROW in *.
    destruct (Nat.eqb_spec (getLastRow (sheet w) + 1 - 4) 0); [reflexivity|lia]. }
  rewrite (bind_throw _ _ _ _ w w _) by now rewrite E.
  reflexivity.
Qed.

(** X22. A cycle that finds no cleared row, no change against the baseline and
    no row to create does nothing at all: no cell is written, nothing is sent
    and the stored baseline is untouched. *)
Theorem syncAllData_idle (w : world) (allData : snapshot) :
  getAllSheetData (sheet w) (getLastRow (sheet w)) = Ok (allData, []) ->
  detectChanges allData (storedSnapshot w) = [] ->
  rowsNeedingCreationIn w = [] ->
  syncAllData w = w.
Proof.
  intros Eg Hc Hrows. unfold rowsNeedingCreationIn in Hrows. rewrite Eg in Hrows.
  destruct (body_without_creation w allData [] Eg Hrows)
    as (sh1 & new1 & out & sh & new & E1 & _ & E & _ & Hnil).
  destruct (Hnil Hc) as (-> & -> & ->).
  cbn [when length Nat.ltb Nat.leb] in E1. unfold ret in E1.
  unfold syncAllData, try_catch. rewrite E. rewrite Hc. cbn [length Nat.ltb Nat.leb andb snd app].
  injection E1 as E1. rewrite <- E1. reflexivity.
Qed.

(** X23. In a cycle that selects no row for creation and finds changes, the
    stored baseline ends as the snapshot just read exactly when no combined
    request failed to get through (fetch thrown, non-2xx answer or a body
    that does not parse); otherwise the baseline stays as it was. *)
Theorem syncAllData_baseline_after_dispatch (w : world) (allData : snapshot)
    (clearedRows : list clearedRow) (new : list exchange) :
  getAllSheetData (sheet w) (getLastRow (sheet w)) = Ok (allData, clearedRows) ->
  detectChanges allData (storedSnapshot w) <> [] ->
  rowsNeedingCreationIn w = [] ->
  exchanges (syncAllData w) = new ++ exchanges w ->
  GAME_DATA (syncAllData w)
  = if existsb undelivered new then GAME_DATA w else Some allData.
Proof.
  intros Eg Hc Hrows Hnew. unfold rowsNeedingCreationIn in Hrows. rewrite Eg in Hrows.
  destruct (body_without_creation w allData clearedRows Eg Hrows)
    as (sh1 & new1 & out & sh & new2 & _ & Hn1 & E & Hout & _).
  assert (H0 : (0 <? length (detectChanges allData (storedSnapshot w)))%nat = true).
  { destruct (detectChanges allData (storedSnapshot w)); [congruence|reflexivity]. }
  rewrite H0 in E. cbn [andb] in E.
  assert (Ew : syncAllData w
               = mkWorld sh (if returned out then Some allData else GAME_DATA w)
                         (new2 ++ new1 ++ exchanges w) (endpoint w)).
  { unfold syncAllData, try_catch. rewrite E. now destruct out. }
  rewrite Ew in *. cbn [exchanges GAME_DATA] in *.
  rewrite app_assoc in Hnew. apply app_inv_tail in Hnew. subst new.
  rewrite existsb_app, (existsb_undelivered_calm new1 Hn1), orb_false_r.
  rewrite Hout. now destruct (existsb undelivered new2).
Qed.

(** X24. In a cycle that selects rows for creation, the baseline stored is the
    snapshot read again right after [createHubDBRows], whatever happens to
    the dispatch that follows. *)
Theorem syncAllData_baseline_after_creation (w : world) (allData : snapshot)
    (clearedRows : list clearedRow) :
  getAllSheetData (sheet w) (getLastRow (sheet w)) = Ok (allData, clearedRows) ->
  rowsNeedingCreationIn w <> [] ->
  exists w1 w2 updated cleared,
    when (0 <? length clearedRows)%nat (handleClearedRows clearedRows) w = (Ok tt, w1)
    /\ createHubDBRows (rowsNeedingCreationIn w) w1 = (Ok tt, w2)
    /\ getAllSheetData (sheet w2) (getLastRow (sheet w)) = Ok (updated, cleared)
    /\ GAME_DATA (syncAllData w) = Some updated.
Proof.
  intros Eg Hrows. unfold rowsNeedingCreationIn in *. rewrite Eg in *.
  destruct (body_with_creation w allData clearedRows Eg Hrows)
    as (w1 & w2 & updated & cleared & out & sh & new & E1 & E2 & E3 & E).
  exists w1, w2, updated, cleared. split; [exact E1|]. split; [exact E2|].
  split; [exact E3|]. unfold syncAllData, try_catch. rewrite E. now destruct out.
Qed.

(** ** Triggers *)

Lemma trigger_eqb_refl (t : trigger) : trigger_eqb t t = true.
Proof.
  unfold trigger_eqb. rewrite String.eqb_refl. simpl.
  destruct (getEvent t); simpl; auto using Nat.eqb_refl.
Qed.

Lemma trigger_eqb_isSync (a b : trigger) :
  trigger_eqb a b = true -> isSyncTrigger a = isSyncTrigger b.
Proof.
  unfold trigger_eqb, isSyncTrigger. intros H. apply andb_prop in H as [H _].
  apply String.eqb_eq in H. now rewrite H.
Qed.

Lemma filter_filter (A : Type) (p q : A -> bool) (l : list A) :
  filter p (filter q l) = filter (fun x => q x && p x) l.
Proof.
  induction l as [|x l IH]; [reflexivity|]. simpl.
  destruct (q x); simpl; [destruct (p x)|]; now rewrite IH.
Qed.

Lemma deleteSyncTriggers_loop (seen project : list trigger) :
  fold_left (fun project trigger =>
               if isSyncTrigger trigger then deleteTrigger trigger project else project)
            seen project
  = filter (fun t => negb (isSyncTrigger t && existsb (trigger_eqb t) seen)) project.
Proof.
  revert project. induction seen as [|a seen IH]; intros project.
  - simpl. induction project as [|x l IHl]; [reflexivity|]. simpl.
    rewrite andb_false_r. simpl. now f_equal.
  - cbn [fold_left]. rewrite IH. destruct (isSyncTrigger a) eqn:Ea.
    + unfold deleteTrigger. rewrite filter_filter. apply filter_ext. intros t.
      cbn [existsb]. destruct (trigger_eqb t a) eqn:Et; simpl.
      * rewrite (trigger_eqb_isSync t a Et), Ea. reflexivity.
      * reflexivity.
    + apply filter_ext. intros t. cbn [existsb].
      destruct (trigger_eqb t a) eqn:Et; [|reflexivity].
      rewrite (trigger_eqb_isSync t a Et), Ea. reflexivity.
Qed.

Lemma deleteSyncTriggers_filter (project : list trigger) :
  deleteSyncTriggers project = filter (fun t => negb (isSyncTrigger t)) project.
Proof.
  unfold deleteSyncTriggers. rewrite deleteSyncTriggers_loop.
  apply filter_ext_in. intros t Hin.
  assert (H : existsb (trigger_eqb t) project = true).
  { apply existsb_exists. exists t. split; [exact Hin|apply trigger_eqb_refl]. }
  now rewrite H, andb_true_r.
Qed.

(** X25. [removeTriggers] deletes every trigger whose handler is [syncAllData]
    or [onSheetChange] and keeps every other trigger of the project, in
    order. *)
Theorem removeTriggers_only_sync (project : list trigger) :
  filter isSyncTrigger (removeTriggers project) = []
  /\ filter (fun t => negb (isSyncTrigger t)) (removeTriggers project)
     = filter (fun t => negb (isSyncTrigger t)) project.
Proof.
  unfold removeTriggers. rewrite deleteSyncTriggers_filter, !filter_filter. split.
  - induction project as [|x l IH]; [reflexivity|]. simpl.
    now destruct (isSyncTrigger x).
  - apply filter_ext. intros t. now destruct (isSyncTrigger t).
Qed.

(** X26. After [setupTriggers] the project has exactly the three sync triggers
    (on change, on edit, every five minutes) however many it had before, the
    triggers of other handlers are kept, and running it again changes
    nothing. *)
Theorem setupTriggers_idempotent (project : list trigger) :
  filter isSyncTrigger (setupTriggers project) = syncTriggers
  /\ filter (fun t => negb (isSyncTrigger t)) (setupTriggers project)
     = filter (fun t => negb (isSyncTrigger t)) project
  /\ setupTriggers (setupTriggers project) = setupTriggers project.
Proof.
  unfold setupTriggers. rewrite !deleteSyncTriggers_filter.
  assert (H1 : filter isSyncTrigger (filter (fun t => negb (isSyncTrigger t)) project) = []).
  { rewrite filter_filter. induction project as [|x l IH]; [reflexivity|]. simpl.
    now destruct (isSyncTrigger x). }
  assert (H2 : filter (fun t => negb (isSyncTrigger t))
                 (filter (fun t => negb (isSyncTrigger t)) project)
               = filter (fun t => negb (isSyncTrigger t)) project).
  { rewrite filter_filter. apply filter_ext. intros t. now destruct (isSyncTrigger t). }
  split; [|split].
  - rewrite filter_app, H1. reflexivity.
  - rewrite filter_app, H2. simpl. apply app_nil_r.
  - rewrite filter_app, H2. simpl. now rewrite app_nil_r.
Qed.

(** ** Which deletes fall back to the combined request *)

Lemma handleBatchDeleteSuccess_settled (ds : list change) (r : HTTPResponse) (w : world) :
  is2xx (getResponseCode r) = true ->
  if batchSettled (Responded r)
  then exists sh, handleBatchDeleteSuccess ds r w
                  = (Ok tt, mkWorld sh (GAME_DATA w) (exchanges w) (endpoint w))
  else exists e, handleBatchDeleteSuccess ds r w = (Throw e, w).
Proof.
  intros Hcode. cbn [batchSettled]. rewrite Hcode. cbn [andb].
  unfold handleBatchDeleteSuccess.
  destruct (parsed r) as [j|e];
    [|exists e; now rewrite (bind_throw _ _ _ _ w w e (lift_run _ _ w))].
  rewrite (bind_ok _ _ _ _ w w j (lift_run _ _ w)).
  destruct (js_field j "success") as [s|e];
    [|exists e; now rewrite (bind_throw _ _ _ _ w w e (lift_run _ _ w))].
  rewrite (bind_ok _ _ _ _ w w s (lift_run _ _ w)).
  destruct (js_truthy s).
  - destruct (successfulDeletionsOf j) as [sd|e]; cbn [returned];
      [|exists e; now rewrite (bind_throw _ _ _ _ w w e (lift_run _ _ w))].
    rewrite (bind_ok _ _ _ _ w w sd (lift_run _ _ w)).
    match goal with |- exists sh, ?m w = _ => assert (Hq : quiet m) end.
    { quiet_tac. }
    destruct (Hq w) as ([] & sh & E). eauto.
  - destruct (quiet_markDeleteTargets ds
                ("Batch deletion failed: " ++ messageOr j) w) as ([] & sh & E).
    eauto.
Qed.

(** X27. [processBatchDeletes] never throws and sends exactly the batch
    request.  The deletes join the individual operations - and every delete
    target is marked ["error"] first - exactly when the batch was not dealt
    with: the fetch threw, the answer was not 2xx, its body did not parse or
    could not be read.  A parsed 2xx answer, whether it reports success or
    failure, leaves the individual operations as they were. *)
Theorem processBatchDeletes_fallback (ds os : list change) (w : world) :
  let res := endpoint w (exchanges w) (batchDeleteRequest ds) in
  exists sh,
    processBatchDeletes ds os w
    = (Ok (if batchSettled res then os else os ++ ds),
       mkWorld sh (GAME_DATA w) ((batchDeleteRequest ds, res) :: exchanges w)
               (endpoint w))
    /\ (batchSettled res = false ->
        forall d, In d ds -> oldSheetRow d <> 0 -> statusOf sh (oldSheetRow d) = "error").
Proof.
  cbv zeta.
  destruct (endpoint w (exchanges w) (batchDeleteRequest ds)) as [e|r] eqn:Hep.
  - destruct (batch_exception_falls_back w ds os e Hep) as (sh & E & Hm).
    exists sh. split; [exact E|intros _; exact Hm].
  - destruct (is2xx (getResponseCode r)) eqn:Hcode.
    2:{ destruct (batch_http_failure_falls_back w ds os r Hep Hcode) as (sh & E & Hm).
        exists sh. cbn [batchSettled]. rewrite Hcode. split; [exact E|intros _; exact Hm]. }
    unfold processBatchDeletes. fold (batchDeleteRequest ds).
    destruct (quiet_updateSyncStatusForChanges ds "syncing" w) as (u & sh1 & E1).
    unfold try_catch. rewrite (bind_ok _ _ _ _ _ _ u E1).
    set (w2 := mkWorld sh1 (GAME_DATA w)
                       ((batchDeleteRequest ds, Responded r) :: exchanges w) (endpoint w)).
    rewrite (bind_ok _ _ (fetch _) _ _ w2 r)
      by (unfold fetch; cbn [sheet GAME_DATA exchanges endpoint]; now rewrite Hep).
    rewrite Hcode.
    pose proof (handleBatchDeleteSuccess_settled ds r w2 Hcode) as Hs.
    destruct (batchSettled (Responded r)).
    + destruct Hs as (sh & E). rewrite (bind_ok _ _ _ _ _ _ tt E).
      exists sh. split; [reflexivity|discriminate].
    + destruct Hs as (e & E). rewrite (bind_throw _ _ _ _ _ _ e E).
      unfold handleBatchDeleteError.
      destruct (markDeleteTargets_spec ds ("Exception: " ++ message e) w2)
        as (sh & E' & Hm & _).
      rewrite (bind_ok _ _ _ _ _ _ tt E'). exists sh.
      split; [reflexivity|intros _; exact Hm].
Qed.

(** ** Examples *)

Lemma getAllSheetData_last_row_wins_witness :
  In ("101", mkRecord "2 Jan 10:00" "" "" "Ong" "Lim" "" "" "101" 5)
     [("101", mkRecord "2 Jan 10:00" "" "" "Ong" "Lim" "" "" "101" 5)]
  <-> exists i, lastWithKey sheet_duplicate_id (5 + 1 - DATA_START_ROW) i
                /\ "101" = keyAt sheet_duplicate_id i
                /\ mkRecord "2 Jan 10:00" "" "" "Ong" "Lim" "" "" "101" 5
                   = recordAt sheet_duplicate_id i.
Proof.
  apply (getAllSheetData_last_row_wins sheet_duplicate_id 5 _ []).
  vm_compute. reflexivity.
Defined.

Lemma getAllSheetData_clearedRows_witness :
  (forall cr, In cr [mkCleared 6 "55"] ->
     DATA_START_ROW <= cleared_sheetRow cr <= 7
     /\ cleared_hubdbRowId cr = getValue sheet_example (cleared_sheetRow cr) HUBDB_ROW_ID_COLUMN
     /\ cleared_hubdbRowId cr <> ""
     /\ forall c, 2 <= c <= 12 -> getValue sheet_example (cleared_sheetRow cr) c = "")
  /\ (forall p q, p < q < length [mkCleared 6 "55"] ->
        cleared_sheetRow (nth p [mkCleared 6 "55"] (mkCleared 0 ""))
        < cleared_sheetRow (nth q [mkCleared 6 "55"] (mkCleared 0 ""))).
Proof.
  apply (getAllSheetData_clearedRows sheet_example 7
           [("101", mkRecord "1 Jan 10:00" "Men's Singles" "QF" "Tan" "Lee" "6-4" "" "101" 4);
            ("temp_5", mkRecord "2 Jan 10:00" "" "" "Ong" "Lim" "" "" "" 5)]).
  vm_compute. reflexivity.
Defined.

Lemma detectChanges_first_run_witness :
  detectChanges snapshot_current Obj.empty
  = map (fun kr => newChange (fst kr) (snd kr)) snapshot_current.
Proof.
  apply (detectChanges_first_run snapshot_current). split.
  - unfold Obj.wf. simpl.
    repeat (constructor; [simpl; intuition discriminate|]). constructor.
  - intros k r [H|[H|[]]]; injection H as <- <-; reflexivity.
Defined.

Lemma detectChanges_shape_witness :
  wellShaped snapshot_current snapshot_baseline
    (deletedChange "88" (mkRecord "3 Jan 10:00" "" "" "Goh" "Teo" "" "" "88" 6)).
Proof.
  apply (detectChanges_shape snapshot_current snapshot_baseline).
  vm_compute. right. right. left. reflexivity.
Defined.

Lemma detectChanges_one_change_per_key_witness :
  NoDup (map uniqueId (detectChanges snapshot_current snapshot_baseline)).
Proof.
  apply (detectChanges_one_change_per_key snapshot_current snapshot_baseline).
  - unfold Obj.wf. simpl.
    repeat (constructor; [simpl; intuition discriminate|]). constructor.
  - unfold Obj.wf. simpl.
    repeat (constructor; [simpl; intuition discriminate|]). constructor.
Defined.

Lemma findRowsNeedingHubDBCreation_placeholders_witness :
  ri_sheetRow rowInfo_5 = sheetRow (ri_data rowInfo_5)
  /\ hubdbRowId (ri_data rowInfo_5) = ""
  /\ ri_uniqueId rowInfo_5 = ("temp_" ++ decimal (ri_sheetRow rowInfo_5))%string.
Proof.
  apply (proj2 (findRowsNeedingHubDBCreation_placeholders snapshot_current
                  (detectChanges snapshot_current snapshot_baseline))).
  - intros k r [H|[H|[]]]; injection H as <- <-; reflexivity.
  - vm_compute. left. reflexivity.
Defined.

Lemma processIndividualOperations_failure_witness :
  exists e sh,
    processIndividualOperations [updated_101] world_updated
    = (Throw e,
       mkWorld sh (GAME_DATA world_updated)
         ((combinedRequest [updated_101],
           endpoint world_updated (exchanges world_updated)
             (combinedRequest [updated_101])) :: exchanges world_updated)
         (endpoint world_updated))
    /\ match endpoint world_updated (exchanges world_updated)
               (combinedRequest [updated_101]) with
       | FetchThrows e' =>
           e = e'
           /\ forall c, In c [updated_101] -> targetRow c <> 0 ->
                statusOf sh (targetRow c) = "syncing"
       | Responded r =>
           e = apiError r
           /\ forall c, In c [updated_101] -> targetRow c <> 0 ->
                statusOf sh (targetRow c) = "error"
       end.
Proof.
  apply (processIndividualOperations_failure [updated_101] world_updated).
  reflexivity.
Defined.

Lemma processIndividualOperations_success_witness :
  exists r sh,
    processIndividualOperations [updated_101] world_delivered
    = (parsed r,
       mkWorld sh (GAME_DATA world_delivered)
         ((combinedRequest [updated_101], Responded r) :: exchanges world_delivered)
         (endpoint world_delivered))
    /\ forall c, In c [updated_101] -> placed c -> targetRow c <> 0 ->
         statusOf sh (targetRow c) = "deleted"
         \/ statusOf sh (targetRow c) = "sync success".
Proof.
  eexists.
  apply (processIndividualOperations_success [updated_101] world_delivered); reflexivity.
Defined.

Lemma delivered_delete_clears_id_cell_witness :
  getValue (sheet (snd (processIndividualOperations
                          [updated_101; deletedChange "301" record_301] world_delivered)))
           (oldSheetRow (deletedChange "301" record_301)) HUBDB_ROW_ID_COLUMN = "".
Proof.
  eapply (delivered_delete_clears_id_cell
            [updated_101; deletedChange "301" record_301] world_delivered _
            (deletedChange "301" record_301)).
  - reflexivity.
  - reflexivity.
  - right. left. reflexivity.
  - reflexivity.
  - vm_compute. discriminate.
Defined.

Lemma createHubDBRows_outcome_witness :
  exists sh answers,
    createHubDBRows [rowInfo_5] world_provisioning
    = (Ok tt, mkWorld sh (GAME_DATA world_provisioning)
                      (rev (combine (map createRequest [rowInfo_5]) answers)
                         ++ exchanges world_provisioning)
                      (endpoint world_provisioning))
    /\ length answers = length [rowInfo_5]
    /\ forall ri res, In (ri, res) (combine [rowInfo_5] answers) ->
       match createdId res with
       | Some id => idCell sh (ri_sheetRow ri) = id
                    /\ statusOf sh (ri_sheetRow ri) = "sync success"
       | None => idCell sh (ri_sheetRow ri)
                 = idCell (sheet world_provisioning) (ri_sheetRow ri)
                 /\ statusOf sh (ri_sheetRow ri) = "error"
       end.
Proof.
  apply (createHubDBRows_outcome [rowInfo_5] world_provisioning).
  simpl. constructor; [simpl; tauto|constructor].
Defined.

Lemma handleClearedRows_batch_accepted_witness :
  exists succ sh,
    handleClearedRows cleared_301_302 world_batch_partial
    = (Ok tt, mkWorld sh (GAME_DATA world_batch_partial)
                      ((batchClearedRequest cleared_301_302,
                        endpoint world_batch_partial (exchanges world_batch_partial)
                          (batchClearedRequest cleared_301_302))
                         :: exchanges world_batch_partial)
                      (endpoint world_batch_partial))
    /\ forall cr, In cr cleared_301_302 ->
       let row := cleared_sheetRow cr in
       if someHubdbId succ (cleared_hubdbRowId cr)
       then idCell sh row = "" /\ statusOf sh row = "deleted"
       else idCell sh row = idCell (sheet world_batch_partial) row
            /\ statusOf sh row = "error".
Proof.
  eexists.
  apply (handleClearedRows_batch_accepted cleared_301_302 _ world_batch_partial).
  - simpl. lia.
  - simpl. repeat (constructor; [simpl; intuition discriminate|]). constructor.
  - intros cr [<-|[<-|[]]]; simpl; discriminate.
  - reflexivity.
Defined.

Lemma handleClearedRows_batch_fallback_witness :
  exists sh answers,
    handleClearedRows cleared_301_302 world_batch_reports_failure
    = (Ok tt, mkWorld sh (GAME_DATA world_batch_reports_failure)
                      (rev (combine (map deleteRequest cleared_301_302) answers)
                         ++ (batchClearedRequest cleared_301_302,
                             endpoint world_batch_reports_failure
                               (exchanges world_batch_reports_failure)
                               (batchClearedRequest cleared_301_302))
                            :: exchanges world_batch_reports_failure)
                      (endpoint world_batch_reports_failure))
    /\ length answers = length cleared_301_302
    /\ forall cr answer, In (cr, answer) (combine cleared_301_302 answers) ->
       let row := cleared_sheetRow cr in
       if deleteAccepted answer
       then idCell sh row = "" /\ statusOf sh row = "deleted"
       else idCell sh row = idCell (sheet world_batch_reports_failure) row
            /\ statusOf sh row = "error".
Proof.
  apply (handleClearedRows_batch_fallback cleared_301_302 world_batch_reports_failure).
  - simpl. lia.
  - simpl. repeat (constructor; [simpl; intuition discriminate|]). constructor.
  - intros cr [<-|[<-|[]]]; simpl; discriminate.
  - reflexivity.
Defined.

Lemma syncAllData_empty_sheet_witness : syncAllData world_empty = world_empty.
Proof.
  apply (syncAllData_empty_sheet world_empty). vm_compute. lia.
Defined.

Lemma syncAllData_idle_witness : syncAllData world_in_sync = world_in_sync.
Proof.
  apply (syncAllData_idle world_in_sync [("101", record_101 "")]).
  - vm_compute. reflexivity.
  - vm_compute. reflexivity.
  - vm_compute. reflexivity.
Defined.

Lemma syncAllData_baseline_after_dispatch_witness :
  GAME_DATA (syncAllData world_delivered)
  = if existsb undelivered (exchanges (syncAllData world_delivered))
    then GAME_DATA world_delivered else Some [("101", record_101 "")].
Proof.
  apply (syncAllData_baseline_after_dispatch world_delivered [("101", record_101 "")] []).
  - vm_compute. reflexivity.
  - vm_compute. discriminate.
  - vm_compute. reflexivity.
  - symmetry. apply app_nil_r.
Defined.

Lemma syncAllData_baseline_after_creation_witness :
  exists w1 w2 updated cleared,
    when (0 <? length (@nil clearedRow))%nat (handleClearedRows []) world_provisioning
    = (Ok tt, w1)
    /\ createHubDBRows (rowsNeedingCreationIn world_provisioning) w1 = (Ok tt, w2)
    /\ getAllSheetData (sheet w2) (getLastRow (sheet world_provisioning))
       = Ok (updated, cleared)
    /\ GAME_DATA (syncAllData world_provisioning) = Some updated.
Proof.
  apply (syncAllData_baseline_after_creation world_provisioning
           [("101", record_101 "");
            ("temp_5", mkRecord "2 Jan 10:00" "" "" "Ong" "Lim" "" "" "" 5)] []).
  - vm_compute. reflexivity.
  - vm_compute. discriminate.
Defined.
